(** * Authentication and session lifecycle of the school-management API

    A shallow embedding of [src/controllers/authController.js] and
    [src/utils/mailHandlers.js] over the Prisma schema of the repository,
    followed by the properties of the authentication core.

    Conventions of the embedding:
    - the store is a record of tables, each table a list of rows in insertion
      order; the [created_at]/[updated_at] columns, which no flow reads, are
      left out;
    - a handler is a computation over the store and the Express response
      object that either returns or throws; what was written before a throw
      stays written, except for store writes inside [prisma.$transaction];
    - signed tokens are symbolic: a token records the secret that signed it,
      its payload and its [iat]/[exp] claims; anything else is [Forged];
    - the clock, [Math.random], [uuidv4] and the outcome of the mail
      transport are inputs of a request ([Env]); validated request bodies are
      taken as the validators return them. *)

From Stdlib Require Import ZArith List String Bool Lia.
Import ListNotations.

Local Open Scope string_scope.
Local Open Scope Z_scope.

(** ** Signed tokens (jsonwebtoken) *)

Inductive Secret : Type :=
| ACCESS_TOKEN_SECRET
| REFRESH_TOKEN_SECRET.

(** [SessionToken s email role iat exp] is
    [jwt.sign({ user: { email, role } }, process.env.s, ...)];
    [ResetToken id role iat exp] is
    [jwt.sign({ user: { id, role } }, process.env.RESET_TOKEN_SECRET, ...)],
    where [id] and [role] may be [undefined];
    [Forged raw] is any other string.  The three secrets are taken to be
    distinct and signatures unforgeable: a token verifies under a secret
    exactly when that secret signed it and it has not expired. *)
Inductive Jwt : Type :=
| SessionToken (secret : Secret) (email role : string) (iat exp : Z)
| ResetToken (id : option Z) (role : option string) (iat exp : Z)
| Forged (raw : string).

Definition Secret_eqb (a b : Secret) : bool :=
  match a, b with
  | ACCESS_TOKEN_SECRET, ACCESS_TOKEN_SECRET => true
  | REFRESH_TOKEN_SECRET, REFRESH_TOKEN_SECRET => true
  | _, _ => false
  end.

Definition option_eqb {A : Type} (eqb : A -> A -> bool) (x y : option A) : bool :=
  match x, y with
  | Some a, Some b => eqb a b
  | None, None => true
  | _, _ => false
  end.

(** The range of an [Int] column (a 32-bit signed integer): Prisma rejects a
    value outside it. *)
Definition int4 (z : Z) : bool := (-2147483648 <=? z) && (z <=? 2147483647).

Definition Jwt_eqb (a b : Jwt) : bool :=
  match a, b with
  | SessionToken s e r i x, SessionToken s' e' r' i' x' =>
      Secret_eqb s s' && String.eqb e e' && String.eqb r r' && Z.eqb i i' && Z.eqb x x'
  | ResetToken d r i x, ResetToken d' r' i' x' =>
      option_eqb Z.eqb d d' && option_eqb String.eqb r r' && Z.eqb i i' && Z.eqb x x'
  | Forged s, Forged s' => String.eqb s s'
  | _, _ => false
  end.

(** Durations accepted by [expiresIn], in seconds. *)
Definition span_2m : Z := 2 * 60.
Definition span_4m : Z := 4 * 60.
Definition span_1d : Z := 24 * 60 * 60.
Definition span_7d : Z := 7 * 24 * 60 * 60.

(** The clock is in milliseconds ([Date.now()]); token claims are in seconds. *)
Definition seconds (now : Z) : Z := now / 1000.

Definition jwt_sign_session (email role : string) (secret : Secret)
    (expiresIn now : Z) : Jwt :=
  SessionToken secret email role (seconds now) (seconds now + expiresIn).

Definition jwt_sign_reset (id : option Z) (role : option string)
    (expiresIn now : Z) : Jwt :=
  ResetToken id role (seconds now) (seconds now + expiresIn).

(** [jwt.verify(token, process.env.s)] for the two session secrets: the
    decoded [{email, role}], or [None] for the error argument of the
    callback (bad signature, malformed or expired token). *)
Definition jwt_verify_session (t : Jwt) (secret : Secret) (now : Z)
    : option (string * string) :=
  match t with
  | SessionToken s email role _ exp =>
      if Secret_eqb s secret && negb (exp <=? seconds now)
      then Some (email, role) else None
  | _ => None
  end.

(** [jwt.verify(token, process.env.RESET_TOKEN_SECRET)]. *)
Definition jwt_verify_reset (t : Jwt) (now : Z)
    : option (option Z * option string) :=
  match t with
  | ResetToken id role _ exp =>
      if negb (exp <=? seconds now) then Some (id, role) else None
  | _ => None
  end.

(** [jwt.decode(token, { complete: true }).payload.exp]. *)
Definition jwt_decode_exp (t : Jwt) : option Z :=
  match t with
  | SessionToken _ _ _ _ exp => Some exp
  | ResetToken _ _ _ exp => Some exp
  | Forged _ => None
  end.

(** ** The store (schema.prisma) *)

Inductive VerifyType : Type := EMAIL | PASSWORD_RESET.

Record Principal : Type := mkPrincipal {
  id : Z;
  name : string;
  email : string;
  password : string;
  email_verified_at : option Z;
  is_suspended : bool;
  school : option string
}.

Record PersonalToken : Type := mkPersonalToken {
  pt_id : Z;
  pt_admin_id : option Z;
  pt_teacher_id : option Z;
  pt_student_id : option Z;
  user_device : option string;
  refresh_token : Jwt;
  pt_expires_at : Z
}.

Record VerificationToken : Type := mkVerificationToken {
  vt_id : Z;
  vt_admin_id : option Z;
  vt_teacher_id : option Z;
  vt_student_id : option Z;
  code : Z;
  token : string;
  verify_type : VerifyType;
  vt_expires_at : Z
}.

(** The three principal models of the schema. *)
Inductive Model : Type := Admins | Teachers | Students.

Definition Model_eqb (a b : Model) : bool :=
  match a, b with
  | Admins, Admins => true
  | Teachers, Teachers => true
  | Students, Students => true
  | _, _ => false
  end.

Record Db : Type := mkDb {
  admins : list Principal;
  teachers : list Principal;
  students : list Principal;
  personal_tokens : list PersonalToken;
  verification_tokens : list VerificationToken;
  (* autoincrement sequences; they are not rolled back with a transaction *)
  seq_admins : Z;
  seq_personal_tokens : Z;
  seq_verification_tokens : Z
}.

Definition table (m : Model) (db : Db) : list Principal :=
  match m with
  | Admins => admins db
  | Teachers => teachers db
  | Students => students db
  end.

Definition set_table (m : Model) (l : list Principal) (db : Db) : Db :=
  match m with
  | Admins =>
      mkDb l (teachers db) (students db) (personal_tokens db)
        (verification_tokens db) (seq_admins db) (seq_personal_tokens db)
        (seq_verification_tokens db)
  | Teachers =>
      mkDb (admins db) l (students db) (personal_tokens db)
        (verification_tokens db) (seq_admins db) (seq_personal_tokens db)
        (seq_verification_tokens db)
  | Students =>
      mkDb (admins db) (teachers db) l (personal_tokens db)
        (verification_tokens db) (seq_admins db) (seq_personal_tokens db)
        (seq_verification_tokens db)
  end.

Definition set_personal_tokens (l : list PersonalToken) (db : Db) : Db :=
  mkDb (admins db) (teachers db) (students db) l (verification_tokens db)
    (seq_admins db) (seq_personal_tokens db) (seq_verification_tokens db).

Definition set_verification_tokens (l : list VerificationToken) (db : Db) : Db :=
  mkDb (admins db) (teachers db) (students db) (personal_tokens db) l
    (seq_admins db) (seq_personal_tokens db) (seq_verification_tokens db).

(** The role strings the handlers compare against, and the model each
    selects: [if (role === 'admin') ... if (role === 'teacher') ...
    if (role === 'student') ...]; any other role selects nothing. *)
Definition model_of_role (role : string) : option Model :=
  if String.eqb role "admin" then Some Admins
  else if String.eqb role "teacher" then Some Teachers
  else if String.eqb role "student" then Some Students
  else None.

(** The models the generated client exposes as [prisma.<name>] for
    principals; [prisma.users] is [undefined], the schema has no such model. *)
Definition prisma_delegate (model : string) : option Model :=
  if String.eqb model "admins" then Some Admins
  else if String.eqb model "teachers" then Some Teachers
  else if String.eqb model "students" then Some Students
  else None.

(** The foreign-key column of a session or code row for a model. *)
Definition pt_owner (m : Model) (r : PersonalToken) : option Z :=
  match m with
  | Admins => pt_admin_id r
  | Teachers => pt_teacher_id r
  | Students => pt_student_id r
  end.

Definition vt_owner (m : Model) (r : VerificationToken) : option Z :=
  match m with
  | Admins => vt_admin_id r
  | Teachers => vt_teacher_id r
  | Students => vt_student_id r
  end.

Definition pt_owned_by (m : Model) (uid : Z) (r : PersonalToken) : bool :=
  option_eqb Z.eqb (pt_owner m r) (Some uid).

Definition vt_owned_by (m : Model) (uid : Z) (r : VerificationToken) : bool :=
  option_eqb Z.eqb (vt_owner m r) (Some uid).

(** ** Responses, errors and the handler monad *)

Record Body : Type := mkBody {
  message : option string;
  accessToken : option Jwt;
  body_token : option Jwt
}.

Definition msg (s : string) : Body := mkBody (Some s) None None.

(** [res.cookie(n, v, { httpOnly: true, secure: false, sameSite: 'lax',
    maxAge })] and [res.clearCookie(n, ...)], in the order they were called. *)
Inductive CookieOp : Type :=
| Cookie (cname : string) (value : Jwt) (maxAge : Z)
| ClearCookie (cname : string).

(** The Express response: the status set so far, what has been sent (at
    most one response reaches the client) and the cookie headers. *)
Record Res : Type := mkRes {
  statusCode : Z;
  sent : option (Z * Body);
  cookies : list CookieOp
}.

Definition fresh_res : Res := mkRes 200 None [].

Inductive Error : Type :=
| HttpError (status : Z) (text : string)   (* new createError(status, text) *)
| TypeError                                (* property access on null/undefined *)
| ERR_HTTP_HEADERS_SENT                    (* a second send on the same response *)
| UniqueConstraintFailed                   (* Prisma P2002 *)
| RecordNotFound                           (* Prisma P2025 *)
| ValidationError                          (* PrismaClientValidationError *)
| ValueOutOfRange                          (* Prisma P2020 *)
| ExternalError (who : string).            (* a collaborator rejected *)

Inductive Result (A : Type) : Type :=
| Returned (a : A)
| Thrown (e : Error).
Arguments Returned {A} a.
Arguments Thrown {A} e.

Record World : Type := mkWorld { db : Db; res : Res }.

Definition M (A : Type) : Type := World -> Result A * World.

Definition ret {A : Type} (a : A) : M A := fun w => (Returned a, w).

Definition bind {A B : Type} (m : M A) (k : A -> M B) : M B :=
  fun w =>
    match m w with
    | (Returned a, w') => k a w'
    | (Thrown e, w') => (Thrown e, w')
    end.

Definition throw {A : Type} (e : Error) : M A := fun w => (Thrown e, w).

Declare Scope js_scope.
Delimit Scope js_scope with js.
Notation "x <- m ;; k" := (bind m (fun x => k))
  (at level 100, m at next level, right associativity) : js_scope.
Notation "m ;; k" := (bind m (fun _ => k))
  (at level 100, right associativity) : js_scope.
Local Open Scope js_scope.

Definition get_db : M Db := fun w => (Returned (db w), w).
Definition put_db (d : Db) : M unit := fun w => (Returned tt, mkWorld d (res w)).

(** A rolled-back transaction restores the rows; sequence values that were
    drawn stay drawn. *)
Definition rollback (before after : Db) : Db :=
  mkDb (admins before) (teachers before) (students before)
    (personal_tokens before) (verification_tokens before)
    (seq_admins after) (seq_personal_tokens after)
    (seq_verification_tokens after).

(** [prisma.$transaction(async (tx) => ...)]: the callback's writes are
    kept when it returns and undone when it throws; the error is rethrown.
    What the callback did to the response is not undone. *)
Definition transaction {A : Type} (m : M A) : M A :=
  fun w =>
    match m w with
    | (Returned a, w') => (Returned a, w')
    | (Thrown e, w') => (Thrown e, mkWorld (rollback (db w) (db w')) (res w'))
    end.

(** An [async] callback nobody awaits ([jwt.verify(token, secret, cb)]):
    its effects happen, an error it throws is an unhandled rejection and
    reaches neither the caller nor [next]. *)
Definition detached (m : M unit) : M unit :=
  fun w => (Returned tt, snd (m w)).

(** A callback that is waiting on its first [await] while the handler
    finishes: the handler's remaining code [m] runs first, the callback's
    remainder [pending] after it whatever [m] did, and an error of
    [pending] is an unhandled rejection. *)
Definition meanwhile (pending : M unit) (m : M unit) : M unit :=
  fun w =>
    let '(r, w') := m w in
    (r, snd (pending w')).

(** [res.status(s)]. *)
Definition res_status (s : Z) : M unit :=
  fun w => (Returned tt, mkWorld (db w) (mkRes s (sent (res w)) (cookies (res w)))).

(** [res.json(body)]: sends with the current status; throws when a response
    has been sent already. *)
Definition res_json (b : Body) : M unit :=
  fun w =>
    match sent (res w) with
    | Some _ => (Thrown ERR_HTTP_HEADERS_SENT, w)
    | None =>
        (Returned tt,
         mkWorld (db w)
           (mkRes (statusCode (res w)) (Some (statusCode (res w), b))
              (cookies (res w))))
    end.

Definition set_cookie_header (c : CookieOp) : M unit :=
  fun w =>
    match sent (res w) with
    | Some _ => (Thrown ERR_HTTP_HEADERS_SENT, w)
    | None =>
        (Returned tt,
         mkWorld (db w)
           (mkRes (statusCode (res w)) (sent (res w)) (cookies (res w) ++ [c])))
    end.

Definition maxAge_7d : Z := 7 * 24 * 60 * 60 * 1000.

Definition res_cookie (n : string) (v : Jwt) : M unit :=
  set_cookie_header (Cookie n v maxAge_7d).

Definition res_clearCookie (n : string) : M unit :=
  set_cookie_header (ClearCookie n).

(** ** Request inputs *)

Record Env : Type := mkEnv {
  Date_now : Z;          (* milliseconds since the epoch *)
  Math_random : Z;       (* Math.floor(Math.random() * 90000000) *)
  uuidv4 : string;
  sendMail_ok : bool;    (* whether mailTransporter.sendMail resolves *)
  zone_shift : Z         (* by how many milliseconds the UTC offset of the
                            server's time zone differs, the next calendar
                            day at the same local time, from its offset
                            now: 0 but for the days around a clock change *)
}.

(** [Math.floor(10000000 + Math.random() * 90000000)]. *)
Definition random_code (env : Env) : Z := 10000000 + Math_random env.

(** [dayjs().add(1, 'day')], in milliseconds since the epoch: the same
    local time on the next calendar day, which is 24 hours later unless
    the zone's clocks change in between. *)
Definition one_day_from (env : Env) : Z :=
  Date_now env + 24 * 60 * 60 * 1000 - zone_shift env.

(** [req.user], as the authentication middleware leaves it. *)
Record AuthUser : Type := mkAuthUser {
  u_id : Z;
  u_email : string;
  u_role : string;
  u_email_verified_at : option Z
}.

(** [req.device.device]. *)
Record Device : Type := mkDevice {
  brand : option string;
  model : option string
}.

(** The [Authorization] header [scheme ++ " " ++ credentials]: [scheme] is
    the text before the first space, [credentials] the word after it. *)
Record Authorization : Type := mkAuthorization {
  scheme : string;
  credentials : Jwt
}.

Record RegisterData : Type := mkRegisterData {
  r_name : string;
  r_email : string;
  r_password : string;
  r_school : string
}.

(** A JavaScript argument that is a string or a number. *)
Inductive JsValue : Type :=
| JsString (s : string)
| JsNumber (n : Z).

(** [cookies?.express_jwt] is truthy: present and not the empty string. *)
Definition express_jwt (cookie : option Jwt) : option Jwt :=
  match cookie with
  | Some (Forged "") => None
  | other => other
  end.

(** [isEmpty(x) ? '' : x] on a device field. *)
Definition device_field (x : option string) : string :=
  match x with
  | Some s => s
  | None => ""
  end.

(** [deviceBrand && deviceModel ? `${deviceBrand} ${deviceModel}` : 'unknown']. *)
Definition deviceWithModel (d : Device) : string :=
  let deviceBrand := device_field (brand d) in
  let deviceModel := device_field (model d) in
  if negb (String.eqb deviceBrand "") && negb (String.eqb deviceModel "")
  then (deviceBrand ++ " " ++ deviceModel)%string
  else "unknown".

(** JavaScript truthiness of a nullable integer column. *)
Definition truthy (x : option Z) : bool :=
  match x with
  | Some n => negb (n =? 0)
  | None => false
  end.

(** ** Prisma queries *)

Definition findUnique_email (m : Model) (e : string) (d : Db) : option Principal :=
  find (fun p => String.eqb (email p) e) (table m d).

Definition findUnique_id (m : Model) (i : Z) (d : Db) : option Principal :=
  find (fun p => Z.eqb (id p) i) (table m d).

(** [personal_tokens.findMany({ where: { refresh_token } })]. *)
Definition findMany_refresh_token (t : Jwt) (d : Db) : list PersonalToken :=
  filter (fun r => Jwt_eqb (refresh_token r) t) (personal_tokens d).

(** [verification_tokens.findFirst({ where: { AND: [{ token }, { code }] } })]. *)
Definition findFirst_token_code (tok : string) (c : Z) (d : Db)
    : option VerificationToken :=
  find (fun r => String.eqb (token r) tok && Z.eqb (code r) c)
    (verification_tokens d).

(** Rewrites the first row that satisfies [f]; [None] when there is none. *)
Fixpoint update_first {A : Type} (f : A -> bool) (g : A -> A) (l : list A)
    : option (list A) :=
  match l with
  | [] => None
  | x :: rest =>
      if f x then Some (g x :: rest)
      else match update_first f g rest with
           | Some rest' => Some (x :: rest')
           | None => None
           end
  end.

(** [<model>.update({ where: { email }, data })] on the scalar columns. *)
Definition update_email (m : Model) (e : string) (g : Principal -> Principal)
    : M unit :=
  d <- get_db ;;
  match update_first (fun p => String.eqb (email p) e) g (table m d) with
  | Some l => put_db (set_table m l d)
  | None => throw RecordNotFound
  end.

(** [admins.create({ data })]: the id is drawn from the sequence, then the
    unique index on [email] is checked. *)
Definition admins_create (data : RegisterData) : M Principal :=
  d <- get_db ;;
  let admin :=
    mkPrincipal (seq_admins d) (r_name data) (r_email data) (r_password data)
      None false (Some (r_school data)) in
  let d1 :=
    mkDb (admins d) (teachers d) (students d) (personal_tokens d)
      (verification_tokens d) (seq_admins d + 1) (seq_personal_tokens d)
      (seq_verification_tokens d) in
  match findUnique_email Admins (r_email data) d with
  | Some _ => put_db d1 ;; throw UniqueConstraintFailed
  | None => put_db (set_table Admins (admins d ++ [admin]) d1) ;; ret admin
  end.

Definition owner_columns (m : Model) (uid : Z) : option Z * option Z * option Z :=
  match m with
  | Admins => (Some uid, None, None)
  | Teachers => (None, Some uid, None)
  | Students => (None, None, Some uid)
  end.

(** [personal_tokens.create({ data: { <owner>_id, refresh_token, expires_at,
    user_device } })]. *)
Definition personal_tokens_create (m : Model) (uid : Z) (t : Jwt) (exp : Z)
    (device : string) : M unit :=
  d <- get_db ;;
  let '(a, te, s) := owner_columns m uid in
  let row := mkPersonalToken (seq_personal_tokens d) a te s (Some device) t exp in
  if int4 exp then
    put_db
      (mkDb (admins d) (teachers d) (students d) (personal_tokens d ++ [row])
         (verification_tokens d) (seq_admins d) (seq_personal_tokens d + 1)
         (seq_verification_tokens d))
  else throw ValueOutOfRange.   (* expires_at is an Int column *)

(** [personal_tokens.deleteMany({ where: { <owner>_id: uid } })]. *)
Definition personal_tokens_deleteMany_owner (m : Model) (uid : Z) : M unit :=
  d <- get_db ;;
  put_db
    (set_personal_tokens
       (filter (fun r => negb (pt_owned_by m uid r)) (personal_tokens d)) d).

(** [personal_tokens.deleteMany({ where: { refresh_token } })]. *)
Definition personal_tokens_deleteMany_token (t : Jwt) : M unit :=
  d <- get_db ;;
  put_db
    (set_personal_tokens
       (filter (fun r => negb (Jwt_eqb (refresh_token r) t)) (personal_tokens d))
       d).

(** [personal_tokens.updateMany({ where: { refresh_token: old },
    data: { refresh_token: new, expires_at } })]. *)
Definition rotate_row (old new : Jwt) (exp : Z) (r : PersonalToken) : PersonalToken :=
  if Jwt_eqb (refresh_token r) old
  then mkPersonalToken (pt_id r) (pt_admin_id r) (pt_teacher_id r)
         (pt_student_id r) (user_device r) new exp
  else r.

Definition personal_tokens_updateMany (old new : Jwt) (exp : Z) : M unit :=
  d <- get_db ;;
  if int4 exp then
    put_db
      (set_personal_tokens (map (rotate_row old new exp) (personal_tokens d)) d)
  else throw ValueOutOfRange.   (* expires_at is an Int column *)

(** The nested write [<model>.update({ where: { email }, data: {
    verification_tokens: { create: { code, token, verify_type, expires_at } } } })]:
    the new row is connected to the principal found by email. *)
Definition verification_tokens_create (m : Model) (e : string) (c : JsValue)
    (tok : string) (ty : VerifyType) (exp : Z) : M unit :=
  d <- get_db ;;
  match findUnique_email m e d with
  | None => throw RecordNotFound
  | Some parent =>
      match c with
      | JsString _ => throw ValidationError   (* the column is an Int *)
      | JsNumber n =>
          let '(a, te, s) := owner_columns m (id parent) in
          let row := mkVerificationToken (seq_verification_tokens d) a te s n tok ty exp in
          put_db
            (mkDb (admins d) (teachers d) (students d) (personal_tokens d)
               (verification_tokens d ++ [row]) (seq_admins d)
               (seq_personal_tokens d) (seq_verification_tokens d + 1))
      end
  end.

(** The nested write [<model>.update({ where: { email }, data: g, ...
    verification_tokens: { deleteMany: { <owner>_id: uid } } })]: deletes
    the rows of the principal found by email that also match the filter,
    and applies [g] to the principal's scalar columns. *)
Definition update_deleteMany_codes (m : Model) (e : string) (uid : Z)
    (g : Principal -> Principal) : M unit :=
  d <- get_db ;;
  match findUnique_email m e d with
  | None => throw RecordNotFound
  | Some parent =>
      update_email m e g ;;
      d' <- get_db ;;
      put_db
        (set_verification_tokens
           (filter
              (fun r => negb (vt_owned_by m (id parent) r && vt_owned_by m uid r))
              (verification_tokens d'))
           d')
  end.

(** ** The handlers *)

Section Handlers.

(** [bcrypt.hash(password, rounds)] and [bcrypt.compare(password, hash)]. *)
Variable bcrypt_hash : string -> Z -> string.
Variable bcrypt_compare : string -> string -> bool.

(** [utils/assignRole]: whether [assignRole(id, role, tx)] resolves; what it
    writes is in the role tables, outside the tables above. *)
Variable assignRole : Z -> string -> Db -> bool.

Definition forbidden : M unit := res_status 403 ;; res_json (msg "Forbidden").
Definition unauthorized : M unit := res_status 401 ;; res_json (msg "Unauthorized").

(** [mailTransporter.sendMail(...)]. *)
Definition sendMail (env : Env) : M unit :=
  if sendMail_ok env then ret tt else throw (ExternalError "sendMail").

(** mailHandlers.js, [sendEmailVerifyCode(email, role, code, tx)]. *)
Definition sendEmailVerifyCode (e role : string) (c : Z) (env : Env) : M unit :=
  match model_of_role role with
  | Some m =>
      verification_tokens_create m e (JsNumber c) (uuidv4 env) EMAIL
        (one_day_from env)
  | None => ret tt
  end ;;
  sendMail env.

(** mailHandlers.js, [sendPasswordResetCode(email, code)]: it goes through
    [prisma.users]. *)
Definition sendPasswordResetCode (e : string) (c : JsValue) (env : Env) : M unit :=
  match prisma_delegate "users" with
  | None => throw TypeError
  | Some m =>
      verification_tokens_create m e c (uuidv4 env) PASSWORD_RESET
        (one_day_from env)
  end ;;
  sendMail env.

(** [jwt.decode(t, { complete: true }).payload.exp]. *)
Definition decoded_exp (t : Jwt) : M Z :=
  match jwt_decode_exp t with
  | Some exp => ret exp
  | None => throw TypeError
  end.

(** POST /register *)
Definition register (data : RegisterData) (device : Device) (env : Env) : M unit :=
  let data :=
    mkRegisterData (r_name data) (r_email data)
      (bcrypt_hash (r_password data) 12) (r_school data) in
  transaction (
    admin <- admins_create data ;;
    d <- get_db ;;
    (if assignRole (id admin) "admin" d then ret tt
     else throw (ExternalError "assignRole")) ;;
    let verificationCode := random_code env in
    sendEmailVerifyCode (r_email data) "admin" verificationCode env ;;
    let accessToken :=
      jwt_sign_session (email admin) "admin" ACCESS_TOKEN_SECRET span_1d
        (Date_now env) in
    let refreshToken :=
      jwt_sign_session (email admin) "admin" REFRESH_TOKEN_SECRET span_7d
        (Date_now env) in
    jwtExpireTime <- decoded_exp refreshToken ;;
    personal_tokens_create Admins (id admin) refreshToken jwtExpireTime
      (deviceWithModel device) ;;
    res_cookie "express_jwt" refreshToken ;;
    res_status 201 ;;
    res_json (mkBody (Some "Account created") (Some accessToken) None)).

(** GET /resend-email *)
Definition resendEmail (user : AuthUser) (env : Env) : M unit :=
  let verificationCode := random_code env in
  transaction (
    match u_email_verified_at user with
    | Some _ => res_json (msg "Your email is already verified")
    | None =>
        update_deleteMany_codes Admins (u_email user) (u_id user) (fun p => p) ;;
        sendEmailVerifyCode (u_email user) "admin" verificationCode env
    end) ;;
  res_json (msg "A new verification code has been sent to your email").

Definition set_email_verified_at (t : Z) (p : Principal) : Principal :=
  mkPrincipal (id p) (name p) (email p) (password p) (Some t) (is_suspended p)
    (school p).

(** POST /verify-email *)
Definition verifyEmail (tok : string) (c : Z) (user : AuthUser) (env : Env)
    : M unit :=
  transaction (
    d <- get_db ;;
    match findFirst_token_code tok c d with
    | None => res_json (msg "Invalid Code")
    | Some checkVerifyCode =>
        match model_of_role (u_role user) with
        | Some m =>
            update_email m (u_email user) (set_email_verified_at (Date_now env))
        | None => ret tt
        end ;;
        res_json (msg "Verification successful")
    end).

(** POST /login *)
Definition login (cookie : option Jwt) (e pw role : string) (device : Device)
    (env : Env) : M unit :=
  match express_jwt cookie with
  | Some _ => res_clearCookie "express_jwt"
  | None => ret tt
  end ;;
  transaction (
    d <- get_db ;;
    let user :=
      match model_of_role role with
      | Some m => findUnique_email m e d
      | None => None
      end in
    match user with
    | None => throw TypeError   (* user.password *)
    | Some user =>
        let isPasswordValid := bcrypt_compare pw (password user) in
        if String.eqb e (email user) && isPasswordValid then
          if is_suspended user
          then throw (HttpError 403 "Your account is suspended")
          else
            let accessToken :=
              jwt_sign_session (email user) role ACCESS_TOKEN_SECRET span_1d
                (Date_now env) in
            let refreshToken :=
              jwt_sign_session (email user) role REFRESH_TOKEN_SECRET span_7d
                (Date_now env) in
            jwtExpireTime <- decoded_exp refreshToken ;;
            match model_of_role role with
            | Some m =>
                personal_tokens_create m (id user) refreshToken jwtExpireTime
                  (deviceWithModel device)
            | None => ret tt
            end ;;
            res_cookie "express_jwt" refreshToken ;;
            res_json (mkBody None (Some accessToken) None)
        else throw (HttpError 401 "Invalid email or password")
    end).

(** GET /refresh, the callback of the reuse branch once the token has
    verified: find the principal the token names and delete its sessions. *)
Definition revoke_compromised (e role : string) : M unit :=
  d <- get_db ;;
  match model_of_role role with
  | Some m =>
      match findUnique_email m e d with
      | Some possibleCompromisedUser =>
          personal_tokens_deleteMany_owner m (id possibleCompromisedUser)
      | None => ret tt
      end
  | None => ret tt
  end.

(** GET /refresh, the callback of the rotation branch. *)
Definition rotate (refreshToken : Jwt) (env : Env) : M unit :=
  match jwt_verify_session refreshToken REFRESH_TOKEN_SECRET (Date_now env) with
  | None => forbidden
  | Some (e, role) =>
      d <- get_db ;;
      let user :=
        match model_of_role role with
        | Some m => findUnique_email m e d
        | None => None
        end in
      match user with
      | None => unauthorized
      | Some user =>
          let newAccessToken :=
            jwt_sign_session (email user) role ACCESS_TOKEN_SECRET span_2m
              (Date_now env) in
          let newRefreshToken :=
            jwt_sign_session (email user) role REFRESH_TOKEN_SECRET span_7d
              (Date_now env) in
          jwtExpireTime <- decoded_exp newRefreshToken ;;
          personal_tokens_updateMany refreshToken newRefreshToken jwtExpireTime ;;
          res_cookie "express_jwt" newRefreshToken ;;
          res_json (mkBody None (Some newAccessToken) None)
      end
  end.

(** GET /refresh.  In the reuse branch the callback of [jwt.verify] runs up
    to its first [await]: with an error it answers 403 itself and the
    handler's own 403 then finds the response sent; without one the handler
    answers 403 while the callback is waiting for the store. *)
Definition refreshAuthToken (cookie : option Jwt) (env : Env) : M unit :=
  match express_jwt cookie with
  | None => unauthorized
  | Some refreshToken =>
      d <- get_db ;;
      let tokens := findMany_refresh_token refreshToken d in
      res_clearCookie "express_jwt" ;;
      match tokens with
      | [] =>
          match jwt_verify_session refreshToken REFRESH_TOKEN_SECRET
                  (Date_now env) with
          | None => forbidden ;; forbidden
          | Some (e, role) => meanwhile (revoke_compromised e role) forbidden
          end
      | _ :: _ => detached (rotate refreshToken env)
      end
  end.

(** POST /logout *)
Definition logout (cookie : option Jwt) : M unit :=
  transaction (
    match express_jwt cookie with
    | None => unauthorized
    | Some refreshToken =>
        personal_tokens_deleteMany_token refreshToken ;;
        res_clearCookie "express_jwt" ;;
        res_json (msg "You are now logged out")
    end).

(** POST /logout-all *)
Definition logoutAll (cookie : option Jwt) (user : AuthUser) : M unit :=
  transaction (
    match express_jwt cookie with
    | None => unauthorized
    | Some _ =>
        d <- get_db ;;
        match model_of_role (u_role user) with
        | Some m =>
            match findUnique_email m (u_email user) d with
            | Some found => personal_tokens_deleteMany_owner m (id found)
            | None => throw TypeError   (* user.id *)
            end
        | None => ret tt
        end ;;
        res_clearCookie "express_jwt" ;;
        res_json (msg "All devices are logged out")
    end).

(** POST /reset-password: the call passes [(email, role, resetCode)] to a
    function declared as [(email, code)]. *)
Definition resetPassword (e role : string) (env : Env) : M unit :=
  let resetCode := random_code env in
  sendPasswordResetCode e (JsString role) env ;;
  res_json (msg "A verification code has been sent to your email").

(** POST /verify-reset-code *)
Definition verifyResetCode (tok : string) (c : Z) (env : Env) : M unit :=
  d <- get_db ;;
  match findFirst_token_code tok c d with
  | None => res_json (msg "Invalid Code")
  | Some checkVerifyCode =>
      let '(userId, role) := (@None Z, @None string) in
      let '(userId, role) :=
        if truthy (vt_admin_id checkVerifyCode)
        then (vt_admin_id checkVerifyCode, Some "admin") else (userId, role) in
      let '(userId, role) :=
        if truthy (vt_teacher_id checkVerifyCode)
        then (vt_teacher_id checkVerifyCode, Some "teacher") else (userId, role) in
      let '(userId, role) :=
        if truthy (vt_student_id checkVerifyCode)
        then (vt_student_id checkVerifyCode, Some "student") else (userId, role) in
      let passwordResetToken := jwt_sign_reset userId role span_4m (Date_now env) in
      res_json (mkBody (Some "Verification successful") None (Some passwordResetToken))
  end.

Definition set_password (pw : string) (p : Principal) : Principal :=
  mkPrincipal (id p) (name p) (email p) pw (email_verified_at p)
    (is_suspended p) (school p).

(** POST /update-password, the transaction inside the callback. *)
Definition updatePassword_tx (userId : option Z) (role : option string)
    (pw : string) : M unit :=
  transaction (
    d <- get_db ;;
    let m := match role with Some r => model_of_role r | None => None end in
    user <-
      match m with
      | Some m =>
          match userId with
          | Some i => ret (findUnique_id m i d)
          | None => throw ValidationError   (* where: { id: undefined } *)
          end
      | None => ret None
      end ;;
    match user, m with
    | Some user, Some m =>
        personal_tokens_deleteMany_owner m (id user) ;;
        let hashed := bcrypt_hash pw 12 in
        update_deleteMany_codes m (email user) (id user) (set_password hashed)
    | _, _ => res_status 404 ;; res_json (msg "User not found")
    end).

(** POST /update-password *)
Definition updatePassword (header : option Authorization) (pw : string)
    (env : Env) : M unit :=
  match header with
  | Some h =>
      if String.eqb (scheme h) "Bearer" then
        detached (
          match jwt_verify_reset (credentials h) (Date_now env) with
          | None => forbidden
          | Some (userId, role) =>
              updatePassword_tx userId role pw ;;
              res_json (msg "Password has been updated")
          end)
      else forbidden
  | None => forbidden
  end.

End Handlers.

(** ** Running a request *)

(** A request starts with a response on which nothing has been set. *)
Definition run (m : M unit) (d : Db) : Result unit * World :=
  m (mkWorld d fresh_res).

Definition outcome (m : M unit) (d : Db) : Result unit := fst (run m d).
Definition store_after (m : M unit) (d : Db) : Db := db (snd (run m d)).
Definition response (m : M unit) (d : Db) : option (Z * Body) :=
  sent (res (snd (run m d))).
Definition cookies_after (m : M unit) (d : Db) : list CookieOp :=
  cookies (res (snd (run m d))).

(** The access token a response carries and the refresh tokens a response
    sets as cookie. *)
Definition issued_access (m : M unit) (d : Db) : list Jwt :=
  match response m d with
  | Some (_, b) =>
      match accessToken b with
      | Some t => [t]
      | None => []
      end
  | None => []
  end.

Definition cookie_value (c : CookieOp) : list Jwt :=
  match c with
  | Cookie _ v _ => [v]
  | ClearCookie _ => []
  end.

Definition issued_refresh (m : M unit) (d : Db) : list Jwt :=
  flat_map cookie_value (cookies_after m d).

(** ** Integrity of the store *)

(** The row belongs to exactly the principal [uid] of model [m]. *)
Definition owner_is (m : Model) (uid : Z) (r : PersonalToken) : bool :=
  let '(a, te, s) := owner_columns m uid in
  option_eqb Z.eqb (pt_admin_id r) a
  && option_eqb Z.eqb (pt_teacher_id r) te
  && option_eqb Z.eqb (pt_student_id r) s.

(** A session row is well formed when its token was signed with the refresh
    secret for the principal that owns the row, and its stored expiry is the
    token's [exp] and fits the [Int] column. *)
Definition session_ok (d : Db) (r : PersonalToken) : bool :=
  match refresh_token r with
  | SessionToken REFRESH_TOKEN_SECRET e role _ exp =>
      Z.eqb (pt_expires_at r) exp
      && int4 (pt_expires_at r)
      && match model_of_role role with
         | Some m =>
             match findUnique_email m e d with
             | Some p => owner_is m (id p) r
             | None => false
             end
         | None => false
         end
  | _ => false
  end.

Definition sessions_wf (d : Db) : bool :=
  forallb (session_ok d) (personal_tokens d).

Fixpoint distinct {A : Type} (eqb : A -> A -> bool) (l : list A) : bool :=
  match l with
  | [] => true
  | x :: rest => negb (existsb (eqb x) rest) && distinct eqb rest
  end.

(** The unique index on [email] of a principal table. *)
Definition emails_unique (l : list Principal) : bool :=
  distinct String.eqb (map email l).

Definition store_wf (d : Db) : bool :=
  emails_unique (admins d) && emails_unique (teachers d)
  && emails_unique (students d) && sessions_wf d.

(** ** The service as a transition system *)

Section Service.

Variable bcrypt_hash : string -> Z -> string.
Variable bcrypt_compare : string -> string -> bool.
Variable assignRole : Z -> string -> Db -> bool.

Inductive Request : Type :=
| Register (data : RegisterData) (device : Device)
| ResendEmail (user : AuthUser)
| VerifyEmail (tok : string) (c : Z) (user : AuthUser)
| Login (cookie : option Jwt) (e pw role : string) (device : Device)
| Refresh (cookie : option Jwt)
| Logout (cookie : option Jwt)
| LogoutAll (cookie : option Jwt) (user : AuthUser)
| ResetPassword (e role : string)
| VerifyResetCode (tok : string) (c : Z)
| UpdatePassword (header : option Authorization) (pw : string).

Definition handle (rq : Request) (env : Env) : M unit :=
  match rq with
  | Register data device => register bcrypt_hash assignRole data device env
  | ResendEmail user => resendEmail user env
  | VerifyEmail tok c user => verifyEmail tok c user env
  | Login cookie e pw role device => login bcrypt_compare cookie e pw role device env
  | Refresh cookie => refreshAuthToken cookie env
  | Logout cookie => logout cookie
  | LogoutAll cookie user => logoutAll cookie user
  | ResetPassword e role => resetPassword e role env
  | VerifyResetCode tok c => verifyResetCode tok c env
  | UpdatePassword header pw => updatePassword bcrypt_hash header pw env
  end.

(** The store after serving the requests of a trace, one after the other. *)
Fixpoint serve (trace : list (Request * Env)) (d : Db) : Db :=
  match trace with
  | [] => d
  | (rq, env) :: rest => serve rest (store_after (handle rq env) d)
  end.

End Service.

(** ** What the handlers leave behind *)

(** A 200 response with no cookie header. *)
Definition ok_response (b : Body) : Res := mkRes 200 (Some (200, b)) [].

(** The response of a failed refresh. *)
Definition forbidden_res : Res :=
  mkRes 403 (Some (403, msg "Forbidden")) [ClearCookie "express_jwt"].

Definition unauthorized_res (cs : list CookieOp) : Res :=
  mkRes 401 (Some (401, msg "Unauthorized")) cs.

(** The response object of [login] once a stale cookie has been cleared. *)
Definition cleared_res (cookie : option Jwt) : Res :=
  match express_jwt cookie with
  | Some _ => mkRes 200 None [ClearCookie "express_jwt"]
  | None => fresh_res
  end.

(** The [userId] and [role] [verifyResetCode] reads off the matched row. *)
Definition reset_subject (r : VerificationToken) : option Z * option string :=
  let s0 := (@None Z, @None string) in
  let s1 := if truthy (vt_admin_id r) then (vt_admin_id r, Some "admin") else s0 in
  let s2 := if truthy (vt_teacher_id r) then (vt_teacher_id r, Some "teacher") else s1 in
  if truthy (vt_student_id r) then (vt_student_id r, Some "student") else s2.

(** The principal a decoded [{email, role}] names, with its model. *)
Definition lookup_role (role e : string) (d : Db) : option (Model * Principal) :=
  match model_of_role role with
  | Some m =>
      match findUnique_email m e d with
      | Some p => Some (m, p)
      | None => None
      end
  | None => None
  end.

(** The store with one more session row. *)
Definition add_session (m : Model) (uid : Z) (t : Jwt) (exp : Z) (device : string)
    (d : Db) : Db :=
  let '(a, te, s) := owner_columns m uid in
  mkDb (admins d) (teachers d) (students d)
    (personal_tokens d
     ++ [mkPersonalToken (seq_personal_tokens d) a te s (Some device) t exp])
    (verification_tokens d) (seq_admins d) (seq_personal_tokens d + 1)
    (seq_verification_tokens d).

(** The store with one more verification code. *)
Definition add_code (m : Model) (uid : Z) (c : Z) (tok : string) (ty : VerifyType)
    (exp : Z) (d : Db) : Db :=
  let '(a, te, s) := owner_columns m uid in
  mkDb (admins d) (teachers d) (students d) (personal_tokens d)
    (verification_tokens d
     ++ [mkVerificationToken (seq_verification_tokens d) a te s c tok ty exp])
    (seq_admins d) (seq_personal_tokens d) (seq_verification_tokens d + 1).

(** The store with the sessions of the named principal deleted. *)
Definition revoked (role e : string) (d : Db) : Db :=
  match lookup_role role e d with
  | Some (m, p) =>
      set_personal_tokens
        (filter (fun r => negb (pt_owned_by m (id p) r)) (personal_tokens d)) d
  | None => d
  end.

(** The store with the rows holding [t] rotated to a fresh token. *)
Definition rotated (t : Jwt) (e role : string) (env : Env) (d : Db) : Db :=
  set_personal_tokens
    (map (rotate_row t
            (jwt_sign_session e role REFRESH_TOKEN_SECRET span_7d (Date_now env))
            (seconds (Date_now env) + span_7d))
       (personal_tokens d)) d.

(** The store after a resend for the admin [parent] has gone through. *)
Definition resent (parent : Principal) (uid : Z) (env : Env) (d : Db) : Db :=
  add_code Admins (id parent) (random_code env) (uuidv4 env) EMAIL
    (one_day_from env)
    (set_verification_tokens
       (filter
          (fun r => negb (vt_owned_by Admins (id parent) r
                          && vt_owned_by Admins uid r))
          (verification_tokens d)) d).

Section StoreEffects.

Variable bcrypt_hash : string -> Z -> string.

(** The row [admins.create] inserts, and the store after a registration. *)
Definition new_admin (data : RegisterData) (d : Db) : Principal :=
  mkPrincipal (seq_admins d) (r_name data) (r_email data)
    (bcrypt_hash (r_password data) 12) None false (Some (r_school data)).

Definition add_admin (data : RegisterData) (d : Db) : Db :=
  mkDb (admins d ++ [new_admin data d]) (teachers d) (students d)
    (personal_tokens d) (verification_tokens d) (seq_admins d + 1)
    (seq_personal_tokens d) (seq_verification_tokens d).

Definition registered (data : RegisterData) (device : Device) (env : Env) (d : Db)
    : Db :=
  add_session Admins (seq_admins d)
    (jwt_sign_session (r_email data) "admin" REFRESH_TOKEN_SECRET span_7d
       (Date_now env))
    (seconds (Date_now env) + span_7d) (deviceWithModel device)
    (add_code Admins (seq_admins d) (random_code env) (uuidv4 env) EMAIL
       (one_day_from env) (add_admin data d)).

(** The store after the password of [user] has been replaced. *)
Definition password_updated (m : Model) (user : Principal) (pw : string) (d : Db)
    : Db :=
  match findUnique_email m (email user) d,
        update_first (fun p => String.eqb (email p) (email user))
          (set_password (bcrypt_hash pw 12)) (table m d) with
  | Some parent, Some l =>
      set_verification_tokens
        (filter
           (fun r => negb (vt_owned_by m (id parent) r && vt_owned_by m (id user) r))
           (verification_tokens d))
        (set_table m l
           (set_personal_tokens
              (filter (fun r => negb (pt_owned_by m (id user) r))
                 (personal_tokens d)) d))
  | _, _ => d
  end.

End StoreEffects.

(** ** Predicates of the statements *)

(** A token signed with [secret] for [{email, role}] whose [exp] is
    [life] seconds after its [iat]. *)
Definition session_token_for (secret : Secret) (e role : string) (life : Z)
    (t : Jwt) : Prop :=
  exists iat, t = SessionToken secret e role iat (iat + life).

(** The same for some [{email, role}]. *)
Definition session_token (secret : Secret) (life : Z) (t : Jwt) : Prop :=
  exists e role, session_token_for secret e role life t.

(** Every principal that could be found by email can still be found, under
    the same id. *)
Definition ids_kept (d d' : Db) : Prop :=
  forall m e p,
    findUnique_email m e d = Some p ->
    exists p', findUnique_email m e d' = Some p' /\ id p' = id p.

(** ** The class controller (classController.js)

    The [classes] table is independent of the tables above and is kept in a
    store of its own.  The [:id] route parameter is taken after
    [Number(req.params.id)], as an integer of any size; the validated body
    is taken as
    [classValidator] returns it, with the three columns the schema
    requires.  The rows of [class_subjects] and [class_teachers] that a
    delete cascades to are outside the model. *)

Module Classes.

Record Class : Type := mkClass {
  class_id : Z;
  class_name : string;
  section_name : string;
  room_number : Z
}.

Record ClassData : Type := mkClassData {
  d_class_name : string;
  d_section_name : string;
  d_room_number : Z
}.

Record Store : Type := mkStore {
  classes : list Class;
  seq_classes : Z
}.

(** What the handlers put in [res.json(...)]. *)
Inductive Json : Type :=
| JClasses (l : list Class)     (* res.json(classes) *)
| JFindClass (c : Class)        (* res.json({ findClass }) *)
| JMessage (s : string).        (* res.json({ message }) *)

Record Res : Type := mkRes {
  statusCode : Z;
  sent : option (Z * Json)
}.

Definition fresh_res : Res := mkRes 200 None.

Record World : Type := mkWorld { store : Store; res : Res }.

Definition M (A : Type) : Type := World -> Result A * World.

Definition ret {A : Type} (a : A) : M A := fun w => (Returned a, w).

Definition bind {A B : Type} (m : M A) (k : A -> M B) : M B :=
  fun w =>
    match m w with
    | (Returned a, w') => k a w'
    | (Thrown e, w') => (Thrown e, w')
    end.

Definition throw {A : Type} (e : Error) : M A := fun w => (Thrown e, w).

Declare Scope class_scope.
Delimit Scope class_scope with cls.
Notation "x <- m ;; k" := (bind m (fun x => k))
  (at level 100, m at next level, right associativity) : class_scope.
Notation "m ;; k" := (bind m (fun _ => k))
  (at level 100, right associativity) : class_scope.
Local Open Scope class_scope.

Definition get_store : M Store := fun w => (Returned (store w), w).
Definition put_store (s : Store) : M unit :=
  fun w => (Returned tt, mkWorld s (res w)).

(** [prisma.$transaction]: rows are restored when the callback throws, the
    sequence is not. *)
Definition transaction {A : Type} (m : M A) : M A :=
  fun w =>
    match m w with
    | (Returned a, w') => (Returned a, w')
    | (Thrown e, w') =>
        (Thrown e,
         mkWorld (mkStore (classes (store w)) (seq_classes (store w'))) (res w'))
    end.

Definition res_status (s : Z) : M unit :=
  fun w => (Returned tt, mkWorld (store w) (mkRes s (sent (res w)))).

Definition res_json (b : Json) : M unit :=
  fun w =>
    match sent (res w) with
    | Some _ => (Thrown ERR_HTTP_HEADERS_SENT, w)
    | None =>
        (Returned tt,
         mkWorld (store w) (mkRes (statusCode (res w)) (Some (statusCode (res w), b))))
    end.

(** The row of the table with id [i]; a value outside the range of the
    [Int] column is the id of no row. *)
Definition findUnique (i : Z) (s : Store) : option Class :=
  if int4 i then find (fun c => Z.eqb (class_id c) i) (classes s) else None.

(** [classes.findUnique({ where: { id } })] with the id of the request,
    which nothing has checked: Prisma rejects an id outside the range of
    the column, otherwise the result is the row with that id or [null]. *)
Definition findUnique_where (i : Z) : M (option Class) :=
  s <- get_store ;;
  if int4 i then ret (findUnique i s) else throw ValueOutOfRange.

(** Whether a row other than [self] holds the class name or the room
    number: the two unique indexes of the table. *)
Definition conflicts (self : option Z) (data : ClassData) (l : list Class) : bool :=
  existsb
    (fun c =>
       negb (option_eqb Z.eqb (Some (class_id c)) self)
       && (String.eqb (class_name c) (d_class_name data)
           || Z.eqb (room_number c) (d_room_number data)))
    l.

(** [classes.create({ data })]. *)
Definition classes_create (data : ClassData) : M unit :=
  s <- get_store ;;
  let row :=
    mkClass (seq_classes s) (d_class_name data) (d_section_name data)
      (d_room_number data) in
  if conflicts None data (classes s)
  then put_store (mkStore (classes s) (seq_classes s + 1)) ;;
       throw UniqueConstraintFailed
  else put_store (mkStore (classes s ++ [row]) (seq_classes s + 1)).

Definition set_data (data : ClassData) (c : Class) : Class :=
  mkClass (class_id c) (d_class_name data) (d_section_name data)
    (d_room_number data).

(** [classes.update({ where: { id }, data })]. *)
Definition classes_update (i : Z) (data : ClassData) : M unit :=
  s <- get_store ;;
  match update_first (fun c => Z.eqb (class_id c) i) (set_data data) (classes s) with
  | None => throw RecordNotFound
  | Some l =>
      if conflicts (Some i) data (classes s)
      then throw UniqueConstraintFailed
      else put_store (mkStore l (seq_classes s))
  end.

(** [classes.delete({ where: { id } })]. *)
Definition classes_delete (i : Z) : M unit :=
  s <- get_store ;;
  match findUnique i s with
  | None => throw RecordNotFound
  | Some _ =>
      put_store
        (mkStore (filter (fun c => negb (Z.eqb (class_id c) i)) (classes s))
           (seq_classes s))
  end.

Definition no_class_found : M unit :=
  res_status 404 ;; res_json (JMessage "No class found").

(** GET /classes *)
Definition getAllClasses : M unit :=
  s <- get_store ;;
  res_json (JClasses (classes s)).

(** GET /classes/:id *)
Definition getClass (i : Z) : M unit :=
  found <- findUnique_where i ;;
  match found with
  | None => no_class_found
  | Some findClass => res_json (JFindClass findClass)
  end.

(** POST /classes *)
Definition createClass (data : ClassData) : M unit :=
  classes_create data ;;
  res_status 201 ;;
  res_json (JMessage "Class created successfully").

(** PUT /classes/:id: the 404 is sent from inside the transaction, the
    handler then goes on to its last statement. *)
Definition updateClass (i : Z) (data : ClassData) : M unit :=
  transaction (
    found <- findUnique_where i ;;
    match found with
    | None => no_class_found
    | Some _ => classes_update i data
    end) ;;
  res_status 201 ;;
  res_json (JMessage "Class updated successfully").

(** DELETE /classes/:id *)
Definition deleteClass (i : Z) : M unit :=
  transaction (
    found <- findUnique_where i ;;
    match found with
    | None => no_class_found
    | Some _ =>
        classes_delete i ;;
        res_status 201 ;;
        res_json (JMessage "Class deleted successfully")
    end).

Definition run (m : M unit) (s : Store) : Result unit * World :=
  m (mkWorld s fresh_res).

Definition outcome (m : M unit) (s : Store) : Result unit := fst (run m s).
Definition store_after (m : M unit) (s : Store) : Store := store (snd (run m s)).
Definition response (m : M unit) (s : Store) : option (Z * Json) :=
  sent (res (snd (run m s))).

(** The primary key and the two unique indexes, and ids below the sequence. *)
Definition store_ok (s : Store) : bool :=
  distinct Z.eqb (map class_id (classes s))
  && distinct String.eqb (map class_name (classes s))
  && distinct Z.eqb (map room_number (classes s))
  && forallb (fun c => class_id c <? seq_classes s) (classes s).

Inductive Request : Type :=
| GetAllClasses
| GetClass (i : Z)
| CreateClass (data : ClassData)
| UpdateClass (i : Z) (data : ClassData)
| DeleteClass (i : Z).

Definition handle (rq : Request) : M unit :=
  match rq with
  | GetAllClasses => getAllClasses
  | GetClass i => getClass i
  | CreateClass data => createClass data
  | UpdateClass i data => updateClass i data
  | DeleteClass i => deleteClass i
  end.

Fixpoint serve (trace : list Request) (s : Store) : Store :=
  match trace with
  | [] => s
  | rq :: rest => serve rest (store_after (handle rq) s)
  end.

End Classes.

(** ** Sample data *)

Module Sample.

Definition hash (pw : string) (rounds : Z) : string := ("$2b$12$" ++ pw)%string.
Definition compare (pw h : string) : bool := String.eqb h ("$2b$12$" ++ pw)%string.
Definition roles_ok (_ : Z) (_ : string) (_ : Db) : bool := true.

Definition env0 : Env := mkEnv 1700000000000 2345678 "0b6f3c1e" true 0.
(** A request a little more than two days later. *)
Definition env1 : Env := mkEnv 1700200000000 7654321 "9a1d44f0" true 0.

Definition alice : Principal :=
  mkPrincipal 1 "Alice" "a@x.com" (hash "Secret123!" 12) None false (Some "X").
Definition bob : Principal :=
  mkPrincipal 1 "Bob" "b@x.com" (hash "hunter2" 12) None false None.

Definition alice_user : AuthUser := mkAuthUser 1 "a@x.com" "admin" None.
Definition bob_user : AuthUser := mkAuthUser 1 "b@x.com" "teacher" None.

Definition phone : Device := mkDevice (Some "Acme") (Some "One").

Definition empty_db : Db := mkDb [] [] [] [] [] 1 1 1.

(** Alice (admin) and Bob (teacher), nobody logged in, no code pending. *)
Definition people : Db := mkDb [alice] [bob] [] [] [] 2 1 1.

(** Alice's refresh token as [login] signs it at [env0]. *)
Definition alice_refresh : Jwt :=
  jwt_sign_session "a@x.com" "admin" REFRESH_TOKEN_SECRET span_7d (Date_now env0).

(** The store after Alice and Bob have logged in at [env0]. *)
Definition logged_in : Db :=
  store_after (login compare None "b@x.com" "hunter2" "teacher" phone env0)
    (store_after (login compare None "a@x.com" "Secret123!" "admin" phone env0)
       people).

(** An email code issued to Alice at [env0]; at [env1] it is a day past its
    expiry. *)
Definition alice_code : VerificationToken :=
  mkVerificationToken 1 (Some 1) None None 12345678 "0b6f3c1e" EMAIL
    (one_day_from env0).

(** A password-reset code of Alice. *)
Definition alice_reset_code : VerificationToken :=
  mkVerificationToken 2 (Some 1) None None 87654321 "77aa01c2" PASSWORD_RESET
    (one_day_from env0).

Definition with_codes : Db :=
  mkDb [alice] [bob] [] [] [alice_code; alice_reset_code] 2 1 3.

(** A refresh token of Alice that has been rotated out: signed, not yet
    expired at [env1], and stored nowhere. *)
Definition alice_stale : Jwt :=
  SessionToken REFRESH_TOKEN_SECRET "a@x.com" "admin" 1699990000 1700594800.



(** Alice and Bob logged in, Alice's two codes pending. *)
Definition busy : Db :=
  set_verification_tokens [alice_code; alice_reset_code] logged_in.

End Sample.

(** ** More sample data *)

Module Scenario.

(** A suspended student. *)
Definition carol : Principal :=
  mkPrincipal 1 "Carol" "c@x.com" (Sample.hash "pa55word" 12) None true None.

Definition school : Db :=
  mkDb [Sample.alice] [Sample.bob] [carol] [] [] 2 1 1.

Definition bob_refresh : Jwt :=
  jwt_sign_session "b@x.com" "teacher" REFRESH_TOKEN_SECRET span_7d
    (Date_now Sample.env0).

(** A request in the same second as [env0]. *)
Definition env0' : Env := mkEnv 1700000000400 1111111 "5c0de5c0" true 0.

(** A request at [env1] for which the mail transport rejects. *)
Definition env1_no_mail : Env := mkEnv 1700200000000 7654321 "9a1d44f0" false 0.

(** Five minutes after [env1]. *)
Definition env2 : Env := mkEnv 1700200300000 2222222 "e2e2e2e2" true 0.

(** Eight days after [env0]. *)
Definition env_late : Env := mkEnv 1700700000000 3333333 "1a7e1a7e" true 0.

(** A day in January 2038, less than seven days before the seconds since
    the epoch outgrow a signed 32-bit integer. *)
Definition env_2038 : Env := mkEnv 2147000000000 4444444 "2038c0de" true 0.

Definition a_trace : list (Request * Env) :=
  [(Login None "a@x.com" "Secret123!" "admin" Sample.phone, Sample.env0);
   (Login None "b@x.com" "hunter2" "teacher" Sample.phone, Sample.env0);
   (Refresh (Some Sample.alice_refresh), Sample.env1);
   (LogoutAll (Some bob_refresh) Sample.bob_user, Sample.env1);
   (Register (mkRegisterData "Dan" "d@x.com" "Zx81!zx81" "Y") Sample.phone, env2)].

Definition maths : Classes.Class := Classes.mkClass 1 "Maths" "A" 101.
Definition physics : Classes.Class := Classes.mkClass 2 "Physics" "B" 102.
Definition timetable : Classes.Store := Classes.mkStore [maths; physics] 3.
Definition chemistry : Classes.ClassData := Classes.mkClassData "Chemistry" "A" 103.

End Scenario.

(** Arithmetic on clock values is kept folded during simplification. *)
#[local] Arguments seconds : simpl never.
#[local] Arguments one_day_from : simpl never.
#[local] Arguments random_code : simpl never.
#[local] Arguments jwt_sign_session : simpl never.
#[local] Arguments jwt_sign_reset : simpl never.
#[local] Arguments model_of_role : simpl never.
#[local] Arguments findUnique_email : simpl never.
#[local] Arguments findUnique_id : simpl never.
#[local] Arguments findFirst_token_code : simpl never.
#[local] Arguments findMany_refresh_token : simpl never.
#[local] Arguments jwt_verify_session : simpl never.
#[local] Arguments jwt_verify_reset : simpl never.
#[local] Arguments deviceWithModel : simpl never.
#[local] Arguments Z.add : simpl never.
#[local] Arguments Z.mul : simpl never.
#[local] Arguments Z.div : simpl never.
#[local] Arguments String.eqb : simpl never.
#[local] Opaque span_1d span_7d span_2m span_4m maxAge_7d.

(** ** Lemmas on the monad and on lists *)

Lemma option_eqb_Z_eq (x y : option Z) :
  option_eqb Z.eqb x y = true <-> x = y.
Proof.
  destruct x as [a|], y as [b|]; simpl; split; intro H;
    try discriminate; try reflexivity.
  - apply Z.eqb_eq in H. now subst.
  - inversion H. apply Z.eqb_refl.
Qed.

Lemma Jwt_eqb_eq (a b : Jwt) : Jwt_eqb a b = true <-> a = b.
Proof.
  split.
  - destruct a as [s e r i x | d r i x | raw], b as [s' e' r' i' x' | d' r' i' x' | raw'];
      simpl; try discriminate.
    + rewrite !andb_true_iff. intros [[[[Hs He] Hr] Hi] Hx].
      apply String.eqb_eq in He, Hr. apply Z.eqb_eq in Hi, Hx.
      destruct s, s'; simpl in Hs; try discriminate; now subst.
    + rewrite !andb_true_iff. intros [[[Hd Hr] Hi] Hx].
      apply option_eqb_Z_eq in Hd. apply Z.eqb_eq in Hi, Hx.
      destruct r as [r|], r' as [r'|]; simpl in Hr; try discriminate;
        [apply String.eqb_eq in Hr|]; now subst.
    + intro H. apply String.eqb_eq in H. now subst.
  - intros <-. destruct a as [s e r i x | d r i x | raw]; simpl.
    + rewrite !String.eqb_refl, !Z.eqb_refl. now destruct s.
    + rewrite !Z.eqb_refl, !andb_true_r.
      destruct d as [z|], r as [r|]; simpl;
        rewrite ?Z.eqb_refl, ?String.eqb_refl; reflexivity.
    + apply String.eqb_refl.
Qed.

(** ** Request password reset *)

Lemma resetPassword_run (e role : string) (env : Env) (d : Db) :
  run (resetPassword e role env) d = (Thrown TypeError, mkWorld d fresh_res).
Proof. reflexivity. Qed.

(** C6: on every store and for every [{email, role}] body, whether or not a
    principal has that email, [resetPassword] throws a [TypeError] before it
    writes or answers anything: no "code sent" response is produced. *)
Theorem resetPassword_always_throws :
  forall (d : Db) (e role : string) (env : Env),
    outcome (resetPassword e role env) d = Thrown TypeError
    /\ response (resetPassword e role env) d = None
    /\ store_after (resetPassword e role env) d = d.
Proof.
  intros d e role env. unfold outcome, response, store_after.
  rewrite resetPassword_run. repeat split.
Qed.

(** ** Refresh: the reuse branch *)

(** C1: a refresh whose token matches no stored session row is answered 403
    Forbidden with the cookie cleared, the same response whether or not the
    token verifies; when it verifies and names a principal, exactly the
    session rows of that principal are deleted, and when it does not verify
    the store is left as it was. *)
Theorem refresh_reuse_revokes_and_forbids :
  forall (d : Db) (cookie : option Jwt) (t : Jwt) (env : Env),
    express_jwt cookie = Some t ->
    findMany_refresh_token t d = [] ->
    response (refreshAuthToken cookie env) d = Some (403, msg "Forbidden")
    /\ cookies_after (refreshAuthToken cookie env) d = [ClearCookie "express_jwt"]
    /\ match jwt_verify_session t REFRESH_TOKEN_SECRET (Date_now env) with
       | Some (e, role) =>
           forall m p,
             model_of_role role = Some m ->
             findUnique_email m e d = Some p ->
             personal_tokens (store_after (refreshAuthToken cookie env) d)
             = filter (fun r => negb (pt_owned_by m (id p) r)) (personal_tokens d)
             /\ forall r,
                 In r (personal_tokens (store_after (refreshAuthToken cookie env) d)) ->
                 pt_owner m r <> Some (id p)
       | None => store_after (refreshAuthToken cookie env) d = d
       end.
Proof.
  intros d cookie t env Hc Hnone.
  unfold response, cookies_after, store_after, run, refreshAuthToken.
  rewrite Hc. unfold bind at 1. cbn [get_db db fst snd].
  unfold bind at 1. cbn -[jwt_verify_session findMany_refresh_token].
  rewrite Hnone.
  destruct (jwt_verify_session t REFRESH_TOKEN_SECRET (Date_now env))
    as [[e role]|] eqn:Hv.
  - unfold meanwhile, revoke_compromised, bind.
    cbn -[model_of_role findUnique_email].
    destruct (model_of_role role) as [m|] eqn:Hm;
      [destruct (findUnique_email m e d) as [p|] eqn:Hp|];
      cbn; (split; [reflexivity | split; [reflexivity |]]);
      intros m' p' Hm' Hp'; try discriminate.
    + injection Hm' as <-. rewrite Hp in Hp'. injection Hp' as <-.
      split; [reflexivity|].
      intros r Hin. apply filter_In in Hin as [_ Hno].
      intro Hown. unfold pt_owned_by in Hno. rewrite Hown in Hno.
      cbn in Hno. now rewrite Z.eqb_refl in Hno.
    + injection Hm' as <-. congruence.
  - cbn. split; [reflexivity | split; [reflexivity |]]. now destruct d.
Qed.

(** ** Verification codes *)

Lemma rollback_same (d : Db) : rollback d d = d.
Proof. now destruct d. Qed.

Lemma update_first_some {A : Type} (f : A -> bool) (g : A -> A) (l : list A) (x : A) :
  find f l = Some x -> exists l', update_first f g l = Some l'.
Proof.
  induction l as [|y l IH]; simpl; [discriminate|].
  destruct (f y); [eauto|].
  intro H. destruct (IH H) as [l' ->]. eauto.
Qed.

Lemma update_first_none {A : Type} (f : A -> bool) (g : A -> A) (l : list A) :
  find f l = None -> update_first f g l = None.
Proof.
  induction l as [|y l IH]; simpl; [reflexivity|].
  destruct (f y); [discriminate|].
  intro H. now rewrite (IH H).
Qed.

(** Looking a principal up by email after an update that keeps emails. *)
Lemma find_email_update_first (e e' : string) (g : Principal -> Principal)
    (l l' : list Principal) :
  (forall p, email (g p) = email p) ->
  update_first (fun p => String.eqb (email p) e) g l = Some l' ->
  find (fun p => String.eqb (email p) e') l'
  = if String.eqb e' e
    then option_map g (find (fun p => String.eqb (email p) e) l)
    else find (fun p => String.eqb (email p) e') l.
Proof.
  intros Hg. revert l'.
  induction l as [|y l IH]; simpl; intros l' H; [discriminate|].
  destruct (String.eqb (email y) e) eqn:Hy.
  - injection H as <-. simpl. rewrite Hg.
    apply String.eqb_eq in Hy. subst e.
    destruct (String.eqb e' (email y)) eqn:He.
    + apply String.eqb_eq in He. subst e'. now rewrite String.eqb_refl.
    + rewrite String.eqb_sym, He. reflexivity.
  - destruct (update_first _ g l) as [rest|] eqn:Hu; [|discriminate].
    injection H as <-. simpl.
    destruct (String.eqb e' e) eqn:He.
    + apply String.eqb_eq in He. subst e'. rewrite Hy. now apply IH.
    + destruct (String.eqb (email y) e'); [reflexivity|].
      now apply IH.
Qed.

Lemma table_set_table (m m' : Model) (l : list Principal) (d : Db) :
  table m' (set_table m l d) = if Model_eqb m' m then l else table m' d.
Proof. now destruct m, m'. Qed.

Lemma verification_tokens_set_table (m : Model) (l : list Principal) (d : Db) :
  verification_tokens (set_table m l d) = verification_tokens d.
Proof. now destruct m. Qed.

Lemma personal_tokens_set_table (m : Model) (l : list Principal) (d : Db) :
  personal_tokens (set_table m l d) = personal_tokens d.
Proof. now destruct m. Qed.

(** What [verifyEmail] does, case by case. *)
Lemma verifyEmail_run (tok : string) (c : Z) (user : AuthUser) (env : Env) (d : Db) :
  run (verifyEmail tok c user env) d
  = match findFirst_token_code tok c d with
    | None => (Returned tt, mkWorld d (ok_response (msg "Invalid Code")))
    | Some _ =>
        match model_of_role (u_role user) with
        | Some m =>
            match update_first (fun p => String.eqb (email p) (u_email user))
                    (set_email_verified_at (Date_now env)) (table m d) with
            | Some l =>
                (Returned tt,
                 mkWorld (set_table m l d)
                   (ok_response (msg "Verification successful")))
            | None => (Thrown RecordNotFound, mkWorld d fresh_res)
            end
        | None =>
            (Returned tt, mkWorld d (ok_response (msg "Verification successful")))
        end
    end.
Proof.
  unfold run, verifyEmail, transaction, bind, update_email.
  cbn -[findFirst_token_code model_of_role].
  destruct (findFirst_token_code tok c d); [|reflexivity].
  destruct (model_of_role (u_role user)) as [m|]; [|reflexivity].
  cbn -[findFirst_token_code model_of_role].
  destruct (update_first _ _ (table m d)); cbn; [reflexivity|].
  now rewrite rollback_same.
Qed.

Lemma verifyResetCode_run (tok : string) (c : Z) (env : Env) (d : Db) :
  run (verifyResetCode tok c env) d
  = match findFirst_token_code tok c d with
    | None => (Returned tt, mkWorld d (ok_response (msg "Invalid Code")))
    | Some row =>
        (Returned tt,
         mkWorld d
           (ok_response
              (mkBody (Some "Verification successful") None
                 (Some (jwt_sign_reset (fst (reset_subject row))
                          (snd (reset_subject row)) span_4m (Date_now env))))))
    end.
Proof.
  unfold run, verifyResetCode, bind, reset_subject.
  cbn -[findFirst_token_code].
  destruct (findFirst_token_code tok c d) as [row|]; [|reflexivity].
  destruct (truthy (vt_admin_id row)), (truthy (vt_teacher_id row)),
    (truthy (vt_student_id row)); reflexivity.
Qed.

(** C2: [verifyEmail] leaves the matched code in place: when a call with
    [{token, code}] has answered "Verification successful", the
    verification rows are those of before and a second call with the same
    pair matches the same row and answers "Verification successful" again. *)
Theorem verifyEmail_code_can_be_replayed :
  forall (d : Db) (tok : string) (c : Z) (user : AuthUser) (env env' : Env),
    response (verifyEmail tok c user env) d
    = Some (200, msg "Verification successful") ->
    let d' := store_after (verifyEmail tok c user env) d in
    verification_tokens d' = verification_tokens d
    /\ findFirst_token_code tok c d' = findFirst_token_code tok c d
    /\ findFirst_token_code tok c d' <> None
    /\ response (verifyEmail tok c user env') d'
       = Some (200, msg "Verification successful").
Proof.
  intros d tok c user env env'.
  unfold response, store_after. rewrite !verifyEmail_run.
  destruct (findFirst_token_code tok c d) as [row|] eqn:Hrow; [|discriminate].
  destruct (model_of_role (u_role user)) as [m|] eqn:Hm.
  - destruct (update_first _ _ (table m d)) as [l|] eqn:Hu; [|discriminate].
    intros _. cbn [snd db res sent].
    assert (Hvt : findFirst_token_code tok c (set_table m l d) = Some row).
    { unfold findFirst_token_code in *.
      now rewrite verification_tokens_set_table. }
    rewrite Hvt, table_set_table.
    replace (Model_eqb m m) with true by now destruct m.
    split; [apply verification_tokens_set_table|].
    split; [reflexivity|]. split; [discriminate|].
    assert (Hfind : find (fun p => String.eqb (email p) (u_email user)) l <> None).
    { rewrite (find_email_update_first _ _ (set_email_verified_at (Date_now env))
                 _ _ (fun p => eq_refl) Hu).
      rewrite String.eqb_refl.
      destruct (find _ (table m d)) eqn:Hf; [discriminate|].
      now rewrite (update_first_none _ _ _ Hf) in Hu. }
    destruct (find _ l) as [p|] eqn:Hp; [|congruence].
    destruct (update_first_some _ (set_email_verified_at (Date_now env')) _ _ Hp)
      as [l'' ->].
    reflexivity.
  - intros _. cbn [snd db res sent]. rewrite Hrow.
    repeat split; discriminate.
Qed.

(** C5: a [{token, code}] pair that matches a stored row is accepted
    whatever the row's [expires_at] and the time of the request:
    [verifyResetCode] answers "Verification successful" with a 4-minute
    reset token for the row's owner, and [verifyEmail] of a requester found
    in the table of its role answers "Verification successful". *)
Theorem verification_does_not_read_expires_at :
  forall (d : Db) (tok : string) (c : Z) (row : VerificationToken) (env : Env),
    findFirst_token_code tok c d = Some row ->
    response (verifyResetCode tok c env) d
    = Some (200,
            mkBody (Some "Verification successful") None
              (Some (ResetToken (fst (reset_subject row)) (snd (reset_subject row))
                       (seconds (Date_now env)) (seconds (Date_now env) + 240))))
    /\ forall (user : AuthUser) (m : Model) (p : Principal),
         model_of_role (u_role user) = Some m ->
         findUnique_email m (u_email user) d = Some p ->
         response (verifyEmail tok c user env) d
         = Some (200, msg "Verification successful").
Proof.
  intros d tok c row env Hrow. unfold response. split.
  - rewrite verifyResetCode_run, Hrow. reflexivity.
  - intros user m p Hm Hp. rewrite verifyEmail_run, Hrow, Hm.
    destruct (update_first_some _ (set_email_verified_at (Date_now env)) _ _ Hp)
      as [l Hl].
    unfold findUnique_email in Hp. rewrite Hl. reflexivity.
Qed.

(** C10: [verifyEmail] matches the code by [{token, code}] alone.  Whoever
    the matched row belongs to, a requester found in the table of its role
    is answered "Verification successful" and its row becomes the same row
    with [email_verified_at] set to the time of the request; every other
    principal, the owner of the code included, is left as it was. *)
Theorem verifyEmail_verifies_the_requester :
  forall (d : Db) (tok : string) (c : Z) (row : VerificationToken)
         (user : AuthUser) (m : Model) (p : Principal) (env : Env),
    findFirst_token_code tok c d = Some row ->
    model_of_role (u_role user) = Some m ->
    findUnique_email m (u_email user) d = Some p ->
    let d' := store_after (verifyEmail tok c user env) d in
    response (verifyEmail tok c user env) d
    = Some (200, msg "Verification successful")
    /\ findUnique_email m (u_email user) d'
       = Some (mkPrincipal (id p) (name p) (email p) (password p)
                 (Some (Date_now env)) (is_suspended p) (school p))
    /\ (forall m' e',
          (m', e') <> (m, u_email user) ->
          findUnique_email m' e' d' = findUnique_email m' e' d)
    /\ verification_tokens d' = verification_tokens d.
Proof.
  intros d tok c row user m p env Hrow Hm Hp.
  unfold response, store_after. rewrite verifyEmail_run, Hrow, Hm.
  destruct (update_first_some _ (set_email_verified_at (Date_now env)) _ _ Hp)
    as [l Hl].
  unfold findUnique_email in *. rewrite Hl. cbn [snd db res sent ok_response].
  split; [reflexivity|].
  pose proof (fun e' => find_email_update_first (u_email user) e'
                          (set_email_verified_at (Date_now env)) _ _
                          (fun q => eq_refl) Hl) as Hfind.
  split; [|split].
  - rewrite table_set_table. replace (Model_eqb m m) with true by now destruct m.
    rewrite Hfind, String.eqb_refl, Hp. reflexivity.
  - intros m' e' Hne. rewrite table_set_table.
    destruct (Model_eqb m' m) eqn:Hmm; [|reflexivity].
    assert (m' = m) by (now destruct m, m'). subst m'.
    rewrite Hfind.
    destruct (String.eqb e' (u_email user)) eqn:He; [|reflexivity].
    apply String.eqb_eq in He. congruence.
  - apply verification_tokens_set_table.
Qed.

(** ** Login and register *)

Lemma find_app {A : Type} (f : A -> bool) (l l' : list A) :
  find f (l ++ l')
  = match find f l with
    | Some x => Some x
    | None => find f l'
    end.
Proof.
  induction l as [|y l IH]; simpl; [reflexivity|].
  now destruct (f y).
Qed.

Section LoginRegister.

Variable bcrypt_hash : string -> Z -> string.
Variable bcrypt_compare : string -> string -> bool.
Variable assignRole : Z -> string -> Db -> bool.

(** What [login] does, case by case. *)
Lemma login_run (cookie : option Jwt) (e pw role : string) (device : Device)
    (env : Env) (d : Db) :
  run (login bcrypt_compare cookie e pw role device env) d
  = match model_of_role role with
    | None => (Thrown TypeError, mkWorld d (cleared_res cookie))
    | Some m =>
        match findUnique_email m e d with
        | None => (Thrown TypeError, mkWorld d (cleared_res cookie))
        | Some user =>
            if String.eqb e (email user) && bcrypt_compare pw (password user) then
              if is_suspended user
              then (Thrown (HttpError 403 "Your account is suspended"),
                    mkWorld d (cleared_res cookie))
              else if int4 (seconds (Date_now env) + span_7d) then
                let accessToken :=
                  jwt_sign_session (email user) role ACCESS_TOKEN_SECRET span_1d
                    (Date_now env) in
                let refreshToken :=
                  jwt_sign_session (email user) role REFRESH_TOKEN_SECRET span_7d
                    (Date_now env) in
                (Returned tt,
                 mkWorld
                   (add_session m (id user) refreshToken
                      (seconds (Date_now env) + span_7d) (deviceWithModel device) d)
                   (mkRes 200 (Some (200, mkBody None (Some accessToken) None))
                      (cookies (cleared_res cookie)
                       ++ [Cookie "express_jwt" refreshToken maxAge_7d])))
              else (Thrown ValueOutOfRange, mkWorld d (cleared_res cookie))
            else (Thrown (HttpError 401 "Invalid email or password"),
                  mkWorld d (cleared_res cookie))
        end
    end.
Proof.
  unfold run, login, cleared_res, transaction, bind.
  destruct (express_jwt cookie);
    cbn;
    (destruct (model_of_role role) as [m|];
     [destruct (findUnique_email m e d) as [user|] |];
     cbn; rewrite ?rollback_same; try reflexivity;
     destruct (String.eqb e (email user) && bcrypt_compare pw (password user));
     [destruct (is_suspended user)|];
     cbn; rewrite ?rollback_same; try reflexivity;
     unfold jwt_sign_session; cbn;
     destruct (int4 (seconds (Date_now env) + span_7d));
     destruct m; cbn; rewrite ?rollback_same; reflexivity).
Qed.

(** C4: when the table of the given role holds no principal with the given
    email, [login] throws a [TypeError] (it reads [user.password] of the
    missing row), not the 401 "Invalid email or password" error; nothing is
    answered and the store keeps its rows. *)
Theorem login_unknown_email_throws_TypeError :
  forall (d : Db) (cookie : option Jwt) (e pw role : string)
         (device : Device) (env : Env),
    (forall m, model_of_role role = Some m -> findUnique_email m e d = None) ->
    outcome (login bcrypt_compare cookie e pw role device env) d = Thrown TypeError
    /\ outcome (login bcrypt_compare cookie e pw role device env) d
       <> Thrown (HttpError 401 "Invalid email or password")
    /\ response (login bcrypt_compare cookie e pw role device env) d = None
    /\ store_after (login bcrypt_compare cookie e pw role device env) d = d.
Proof.
  intros d cookie e pw role device env Hnone.
  unfold outcome, response, store_after. rewrite login_run.
  destruct (model_of_role role) as [m|].
  - rewrite (Hnone m eq_refl). cbn. unfold cleared_res.
    destruct (express_jwt cookie); repeat split; discriminate.
  - cbn. unfold cleared_res.
    destruct (express_jwt cookie); repeat split; discriminate.
Qed.

(** X28: the other half of the login rejection: for a principal that
    exists, a password that does not match throws the 401 "Invalid email or
    password" error; no response is sent and no session row is created. *)
Lemma login_wrong_password_401 :
  forall (d : Db) (cookie : option Jwt) (e pw role : string)
         (device : Device) (env : Env) (m : Model) (user : Principal),
    model_of_role role = Some m ->
    findUnique_email m e d = Some user ->
    bcrypt_compare pw (password user) = false ->
    outcome (login bcrypt_compare cookie e pw role device env) d
    = Thrown (HttpError 401 "Invalid email or password")
    /\ response (login bcrypt_compare cookie e pw role device env) d = None
    /\ store_after (login bcrypt_compare cookie e pw role device env) d = d.
Proof.
  intros d cookie e pw role device env m user Hm Hu Hpw.
  unfold outcome, response, store_after.
  rewrite login_run, Hm, Hu, Hpw, andb_false_r. cbn. unfold cleared_res.
  destruct (express_jwt cookie); repeat split.
Qed.

(** What [register] does, case by case. *)
Lemma register_run (data : RegisterData) (device : Device) (env : Env) (d : Db) :
  run (register bcrypt_hash assignRole data device env) d
  = match findUnique_email Admins (r_email data) d with
    | Some _ =>
        (Thrown UniqueConstraintFailed,
         mkWorld (rollback d (add_admin bcrypt_hash data d)) fresh_res)
    | None =>
        if assignRole (seq_admins d) "admin" (add_admin bcrypt_hash data d) then
          if sendMail_ok env then
            if int4 (seconds (Date_now env) + span_7d) then
            (Returned tt,
             mkWorld (registered bcrypt_hash data device env d)
               (mkRes 201
                  (Some (201,
                         mkBody (Some "Account created")
                           (Some (jwt_sign_session (r_email data) "admin"
                                    ACCESS_TOKEN_SECRET span_1d (Date_now env)))
                           None))
                  [Cookie "express_jwt"
                     (jwt_sign_session (r_email data) "admin"
                        REFRESH_TOKEN_SECRET span_7d (Date_now env))
                     maxAge_7d]))
            else
              (Thrown ValueOutOfRange,
               mkWorld
                 (rollback d
                    (add_code Admins (seq_admins d) (random_code env) (uuidv4 env)
                       EMAIL (one_day_from env) (add_admin bcrypt_hash data d)))
                 fresh_res)
          else
            (Thrown (ExternalError "sendMail"),
             mkWorld
               (rollback d
                  (add_code Admins (seq_admins d) (random_code env) (uuidv4 env)
                     EMAIL (one_day_from env) (add_admin bcrypt_hash data d)))
               fresh_res)
        else
          (Thrown (ExternalError "assignRole"),
           mkWorld (rollback d (add_admin bcrypt_hash data d)) fresh_res)
    end.
Proof.
  unfold run, register, transaction, bind, admins_create, sendEmailVerifyCode,
    verification_tokens_create, sendMail, bind.
  cbn.
  destruct (findUnique_email Admins (r_email data) d) eqn:Hf; [reflexivity|].
  assert (Hnew : findUnique_email Admins (r_email data) (add_admin bcrypt_hash data d)
                 = Some (new_admin bcrypt_hash data d)).
  { unfold findUnique_email in *. cbn [table add_admin admins].
    rewrite find_app. cbn [table] in Hf. rewrite Hf. simpl.
    now rewrite String.eqb_refl. }
  unfold registered, add_session, add_code, add_admin, new_admin in *.
  cbn.
  destruct (assignRole _ _ _); [|reflexivity].
  change (model_of_role "admin") with (Some Admins).
  cbn. rewrite Hnew. cbn.
  destruct (sendMail_ok env); [|reflexivity].
  unfold jwt_sign_session. cbn.
  destruct (int4 (seconds (Date_now env) + span_7d)); reflexivity.
Qed.

End LoginRegister.

(** ** Refresh: what the handler does *)

Lemma find_email_eq (m : Model) (e : string) (d : Db) (p : Principal) :
  findUnique_email m e d = Some p -> email p = e.
Proof.
  unfold findUnique_email. intro H. apply find_some in H as [_ H].
  now apply String.eqb_eq in H.
Qed.

Lemma refreshAuthToken_run (cookie : option Jwt) (env : Env) (d : Db) :
  run (refreshAuthToken cookie env) d
  = match express_jwt cookie with
    | None => (Returned tt, mkWorld d (unauthorized_res []))
    | Some t =>
        match findMany_refresh_token t d,
              jwt_verify_session t REFRESH_TOKEN_SECRET (Date_now env) with
        | [], None => (Thrown ERR_HTTP_HEADERS_SENT, mkWorld d forbidden_res)
        | [], Some (e, role) => (Returned tt, mkWorld (revoked role e d) forbidden_res)
        | _ :: _, None => (Returned tt, mkWorld d forbidden_res)
        | _ :: _, Some (e, role) =>
            match lookup_role role e d with
            | None =>
                (Returned tt,
                 mkWorld d (unauthorized_res [ClearCookie "express_jwt"]))
            | Some _ =>
                if int4 (seconds (Date_now env) + span_7d) then
                (Returned tt,
                 mkWorld (rotated t e role env d)
                   (mkRes 200
                      (Some (200,
                             mkBody None
                               (Some (jwt_sign_session e role ACCESS_TOKEN_SECRET
                                        span_2m (Date_now env)))
                               None))
                      [ClearCookie "express_jwt";
                       Cookie "express_jwt"
                         (jwt_sign_session e role REFRESH_TOKEN_SECRET span_7d
                            (Date_now env))
                         maxAge_7d]))
                else
                  (Returned tt,
                   mkWorld d (mkRes 200 None [ClearCookie "express_jwt"]))
            end
        end
    end.
Proof.
  unfold run, refreshAuthToken.
  destruct (express_jwt cookie) as [t|]; [|reflexivity].
  unfold bind at 1. cbn [get_db db fst snd]. unfold bind at 1. cbn.
  destruct (findMany_refresh_token t d) as [|row rows].
  - destruct (jwt_verify_session t REFRESH_TOKEN_SECRET (Date_now env))
      as [[e role]|]; [|reflexivity].
    unfold meanwhile, revoke_compromised, revoked, lookup_role, bind. cbn.
    destruct (model_of_role role) as [m|]; [|reflexivity].
    destruct (findUnique_email m e d); reflexivity.
  - unfold detached, rotate, rotated, lookup_role, bind.
    destruct (jwt_verify_session t REFRESH_TOKEN_SECRET (Date_now env))
      as [[e role]|]; [|reflexivity].
    cbn.
    destruct (model_of_role role) as [m|]; [|reflexivity].
    destruct (findUnique_email m e d) as [user|] eqn:Hu; [|reflexivity].
    apply find_email_eq in Hu. rewrite Hu.
    unfold jwt_sign_session, personal_tokens_updateMany, bind. cbn.
    destruct (int4 (seconds (Date_now env) + span_7d)); reflexivity.
Qed.

(** ** Token lifetimes *)

Lemma sign_session_token (secret : Secret) (e role : string) (life now : Z) :
  session_token secret life (jwt_sign_session e role secret life now).
Proof. exists e, role, (seconds now). reflexivity. Qed.

Section Lifetimes.

Variable bcrypt_hash : string -> Z -> string.
Variable bcrypt_compare : string -> string -> bool.
Variable assignRole : Z -> string -> Db -> bool.

(** C8: every access token [register] or [login] puts in a response is
    signed with the access secret for a lifetime of one day (86400 s), every
    access token [refreshAuthToken] puts in a response for two minutes
    (120 s), and every refresh token the three handlers set as cookie is
    signed with the refresh secret for seven days (604800 s); the payload of
    each is an [{email, role}] pair. *)
Theorem issued_token_lifetimes :
  forall (d : Db) (env : Env),
    (forall data device,
        Forall (session_token ACCESS_TOKEN_SECRET 86400)
          (issued_access (register bcrypt_hash assignRole data device env) d)
        /\ Forall (session_token REFRESH_TOKEN_SECRET 604800)
             (issued_refresh (register bcrypt_hash assignRole data device env) d))
    /\ (forall cookie e pw role device,
           Forall (session_token ACCESS_TOKEN_SECRET 86400)
             (issued_access (login bcrypt_compare cookie e pw role device env) d)
           /\ Forall (session_token REFRESH_TOKEN_SECRET 604800)
                (issued_refresh (login bcrypt_compare cookie e pw role device env) d))
    /\ (forall cookie,
           Forall (session_token ACCESS_TOKEN_SECRET 120)
             (issued_access (refreshAuthToken cookie env) d)
           /\ Forall (session_token REFRESH_TOKEN_SECRET 604800)
                (issued_refresh (refreshAuthToken cookie env) d)).
Proof.
  intros d env.
  change 86400 with span_1d. change 604800 with span_7d. change 120 with span_2m.
  split; [|split].
  - intros data device.
    unfold issued_access, issued_refresh, response, cookies_after.
    rewrite register_run.
    destruct (findUnique_email Admins (r_email data) d); [now split|].
    destruct (assignRole _ _ _); [|now split].
    destruct (sendMail_ok env); [|now split].
    destruct (int4 (seconds (Date_now env) + span_7d)); [|now split].
    cbn. split; repeat constructor; apply sign_session_token.
  - intros cookie e pw role device.
    unfold issued_access, issued_refresh, response, cookies_after.
    rewrite login_run. unfold cleared_res.
    destruct (model_of_role role) as [m|];
      [destruct (findUnique_email m e d) as [user|];
       [destruct (String.eqb e (email user) && bcrypt_compare pw (password user));
        [destruct (is_suspended user);
         [|destruct (int4 (seconds (Date_now env) + span_7d))]|]|]|];
      destruct (express_jwt cookie); cbn;
      split; repeat constructor; apply sign_session_token.
  - intros cookie.
    unfold issued_access, issued_refresh, response, cookies_after.
    rewrite refreshAuthToken_run.
    destruct (express_jwt cookie) as [t|]; [|now split].
    destruct (findMany_refresh_token t d);
      (destruct (jwt_verify_session t REFRESH_TOKEN_SECRET (Date_now env))
         as [[e role]|]; [|now split]); [now split|].
    destruct (lookup_role role e d); [|now split].
    destruct (int4 (seconds (Date_now env) + span_7d)); [|now split].
    cbn. split; repeat constructor; apply sign_session_token.
Qed.

End Lifetimes.

(** ** Logout, resend and password update: what the handlers do *)

Lemma logout_run (cookie : option Jwt) (d : Db) :
  run (logout cookie) d
  = match express_jwt cookie with
    | None => (Returned tt, mkWorld d (unauthorized_res []))
    | Some t =>
        (Returned tt,
         mkWorld
           (set_personal_tokens
              (filter (fun r => negb (Jwt_eqb (refresh_token r) t))
                 (personal_tokens d)) d)
           (mkRes 200 (Some (200, msg "You are now logged out"))
              [ClearCookie "express_jwt"]))
    end.
Proof.
  unfold run, logout, transaction.
  destruct (express_jwt cookie); reflexivity.
Qed.

Lemma logoutAll_run (cookie : option Jwt) (user : AuthUser) (d : Db) :
  run (logoutAll cookie user) d
  = match express_jwt cookie with
    | None => (Returned tt, mkWorld d (unauthorized_res []))
    | Some _ =>
        match model_of_role (u_role user) with
        | Some m =>
            match findUnique_email m (u_email user) d with
            | Some found =>
                (Returned tt,
                 mkWorld
                   (set_personal_tokens
                      (filter (fun r => negb (pt_owned_by m (id found) r))
                         (personal_tokens d)) d)
                   (mkRes 200 (Some (200, msg "All devices are logged out"))
                      [ClearCookie "express_jwt"]))
            | None => (Thrown TypeError, mkWorld d fresh_res)
            end
        | None =>
            (Returned tt,
             mkWorld d
               (mkRes 200 (Some (200, msg "All devices are logged out"))
                  [ClearCookie "express_jwt"]))
        end
    end.
Proof.
  unfold run, logoutAll, transaction, bind.
  destruct (express_jwt cookie); [|reflexivity]. cbn.
  destruct (model_of_role (u_role user)) as [m|]; [|reflexivity].
  destruct (findUnique_email m (u_email user) d); cbn;
    now rewrite ?rollback_same.
Qed.

Lemma update_first_id {A : Type} (f : A -> bool) (l : list A) (x : A) :
  find f l = Some x -> update_first f (fun p => p) l = Some l.
Proof.
  induction l as [|y l IH]; simpl; [discriminate|].
  destruct (f y); [reflexivity|].
  intro H. now rewrite (IH H).
Qed.

Lemma resendEmail_run (user : AuthUser) (env : Env) (d : Db) :
  run (resendEmail user env) d
  = match u_email_verified_at user with
    | Some _ =>
        (Thrown ERR_HTTP_HEADERS_SENT,
         mkWorld d (ok_response (msg "Your email is already verified")))
    | None =>
        match findUnique_email Admins (u_email user) d with
        | None => (Thrown RecordNotFound, mkWorld d fresh_res)
        | Some parent =>
            if sendMail_ok env then
              (Returned tt,
               mkWorld (resent parent (u_id user) env d)
                 (ok_response
                    (msg "A new verification code has been sent to your email")))
            else
              (Thrown (ExternalError "sendMail"),
               mkWorld (rollback d (resent parent (u_id user) env d)) fresh_res)
        end
    end.
Proof.
  unfold run, resendEmail, transaction, bind at 1.
  destruct (u_email_verified_at user); [reflexivity|].
  unfold update_deleteMany_codes, update_email, sendEmailVerifyCode,
    verification_tokens_create, sendMail, bind.
  change (model_of_role "admin") with (Some Admins). cbn.
  destruct (findUnique_email Admins (u_email user) d) as [parent|] eqn:Hp;
    [|cbn; now rewrite rollback_same].
  pose proof Hp as Hp'. unfold findUnique_email in Hp'. cbn [table] in Hp'.
  cbn [db]. rewrite (update_first_id _ _ _ Hp'). cbn.
  replace (findUnique_email Admins (u_email user) _) with (Some parent)
    by (now destruct d).
  cbn. unfold resent, add_code. cbn.
  destruct (sendMail_ok env); destruct d; reflexivity.
Qed.

Section PasswordUpdate.

Variable bcrypt_hash : string -> Z -> string.

Lemma find_id_in (m : Model) (i : Z) (d : Db) (p : Principal) :
  findUnique_id m i d = Some p -> In p (table m d) /\ id p = i.
Proof.
  unfold findUnique_id. intro H. apply find_some in H as [Hin H].
  split; [assumption|]. now apply Z.eqb_eq in H.
Qed.

Lemma find_email_in_some (m : Model) (d : Db) (p : Principal) :
  In p (table m d) -> exists q, findUnique_email m (email p) d = Some q.
Proof.
  unfold findUnique_email. intro Hin.
  destruct (find _ (table m d)) as [q|] eqn:Hf; [eauto|].
  pose proof (find_none _ _ Hf p Hin) as H. cbn in H.
  now rewrite String.eqb_refl in H.
Qed.

Lemma find_email_set_personal_tokens (m : Model) (e : string)
    (l : list PersonalToken) (d : Db) :
  findUnique_email m e (set_personal_tokens l d) = findUnique_email m e d.
Proof. now destruct m. Qed.

(** The transaction of [updatePassword] for a principal that exists. *)
Lemma updatePassword_tx_found (m : Model) (role : string) (uid : Z)
    (user : Principal) (pw : string) (d : Db) (r : Res) :
  model_of_role role = Some m ->
  findUnique_id m uid d = Some user ->
  updatePassword_tx bcrypt_hash (Some uid) (Some role) pw (mkWorld d r)
  = (Returned tt, mkWorld (password_updated bcrypt_hash m user pw d) r).
Proof.
  intros Hm Hu.
  unfold updatePassword_tx, transaction, bind at 1. cbn [get_db db fst snd].
  rewrite Hm. unfold bind at 1. cbn [ret]. rewrite Hu.
  unfold update_deleteMany_codes, update_email, personal_tokens_deleteMany_owner,
    bind, password_updated. cbn.
  rewrite find_email_set_personal_tokens.
  destruct (find_id_in _ _ _ _ Hu) as [Hin _].
  destruct (find_email_in_some _ _ _ Hin) as [parent Hp]. rewrite Hp. cbn.
  assert (Htab : forall l, table m (set_personal_tokens l d) = table m d)
    by (now destruct m).
  rewrite Htab.
  pose proof Hp as Hp'. unfold findUnique_email in Hp'.
  destruct (update_first_some _ (set_password (bcrypt_hash pw 12)) _ _ Hp')
    as [l Hl].
  rewrite Hl. cbn. rewrite verification_tokens_set_table. reflexivity.
Qed.

(** The store [updatePassword] leaves behind, in every case. *)
Lemma updatePassword_store (header : option Authorization) (pw : string)
    (env : Env) (d : Db) :
  store_after (updatePassword bcrypt_hash header pw env) d
  = match header with
    | Some h =>
        if String.eqb (scheme h) "Bearer" then
          match jwt_verify_reset (credentials h) (Date_now env) with
          | Some (Some uid, Some role) =>
              match model_of_role role with
              | Some m =>
                  match findUnique_id m uid d with
                  | Some user => password_updated bcrypt_hash m user pw d
                  | None => d
                  end
              | None => d
              end
          | _ => d
          end
        else d
    | None => d
    end.
Proof.
  unfold store_after, run, updatePassword.
  destruct header as [h|]; [|reflexivity].
  destruct (String.eqb (scheme h) "Bearer"); [|reflexivity].
  unfold detached.
  destruct (jwt_verify_reset (credentials h) (Date_now env))
    as [[[uid|] [role|]]|].
  - unfold bind at 1.
    destruct (model_of_role role) as [m|] eqn:Hm.
    + destruct (findUnique_id m uid d) as [user|] eqn:Hu.
      * now rewrite (updatePassword_tx_found m role uid user pw d _ Hm Hu).
      * unfold updatePassword_tx, transaction, bind. cbn. rewrite Hm, Hu. reflexivity.
    + unfold updatePassword_tx, transaction, bind. cbn. rewrite Hm. reflexivity.
  - reflexivity.
  - unfold bind at 1, updatePassword_tx, transaction, bind. cbn.
    destruct (model_of_role role); cbn; now rewrite ?rollback_same.
  - reflexivity.
  - reflexivity.
Qed.

End PasswordUpdate.

(** ** The store invariant *)

Lemma store_wf_iff (d : Db) :
  store_wf d = true
  <-> (forall m, emails_unique (table m d) = true)
      /\ (forall r, In r (personal_tokens d) -> session_ok d r = true).
Proof.
  unfold store_wf, sessions_wf. rewrite !andb_true_iff, forallb_forall.
  split.
  - intros [[[Ha Ht] Hs] Hr]. split; [intros []; assumption | assumption].
  - intros [He Hr]. repeat split; [apply (He Admins) | apply (He Teachers)
                                   | apply (He Students) | assumption].
Qed.

Lemma ids_kept_tables (d d' : Db) :
  (forall m, table m d' = table m d) -> ids_kept d d'.
Proof.
  intros H m e p Hp. exists p. unfold findUnique_email in *.
  now rewrite H.
Qed.

Lemma session_ok_kept (d d' : Db) (r : PersonalToken) :
  ids_kept d d' -> session_ok d r = true -> session_ok d' r = true.
Proof.
  intros Hk. unfold session_ok.
  destruct (refresh_token r) as [[|] e role iat exp | |]; try discriminate.
  rewrite !andb_true_iff. intros [Hexp Hown]. split; [assumption|].
  destruct (model_of_role role) as [m|]; [|discriminate].
  destruct (findUnique_email m e d) as [p|] eqn:Hp; [|discriminate].
  destruct (Hk m e p Hp) as [p' [-> Hid]]. now rewrite Hid.
Qed.

(** The workhorse: a step keeps the invariant when it keeps the unique
    index, keeps principals findable under their id, and every session row
    it leaves is an old row or a well-formed new one. *)
Lemma store_wf_step (d d' : Db) :
  store_wf d = true ->
  (forall m, emails_unique (table m d') = true) ->
  ids_kept d d' ->
  (forall r, In r (personal_tokens d') ->
             In r (personal_tokens d) \/ session_ok d' r = true) ->
  store_wf d' = true.
Proof.
  rewrite !store_wf_iff. intros [He Hr] He' Hk Hrows. split; [assumption|].
  intros r Hin. destruct (Hrows r Hin) as [Hold | Hnew]; [|assumption].
  apply (session_ok_kept d d' r Hk). now apply Hr.
Qed.

(** Steps that leave the principal tables alone and delete session rows. *)
Lemma store_wf_fewer_sessions (d d' : Db) :
  store_wf d = true ->
  (forall m, table m d' = table m d) ->
  (forall r, In r (personal_tokens d') -> In r (personal_tokens d)) ->
  store_wf d' = true.
Proof.
  intros Hwf Ht Hsub. apply (store_wf_step d d' Hwf).
  - intro m. rewrite Ht. now apply store_wf_iff in Hwf as [He _].
  - now apply ids_kept_tables.
  - intros r Hin. left. now apply Hsub.
Qed.

Lemma store_wf_rollback (d x : Db) :
  store_wf d = true -> store_wf (rollback d x) = true.
Proof.
  intro Hwf. apply (store_wf_fewer_sessions d); [assumption | now intros [] |].
  intros r Hin. exact Hin.
Qed.

Lemma store_wf_set_personal_tokens_filter (f : PersonalToken -> bool) (d : Db) :
  store_wf d = true ->
  store_wf (set_personal_tokens (filter f (personal_tokens d)) d) = true.
Proof.
  intro Hwf. apply (store_wf_fewer_sessions d); [assumption | now intros [] |].
  intros r Hin. cbn in Hin. now apply filter_In in Hin as [Hin _].
Qed.

Lemma owner_is_columns (m : Model) (uid pid : Z) (u : option string)
    (t : Jwt) (exp : Z) :
  owner_is m uid
    (let '(a, te, s) := owner_columns m uid in mkPersonalToken pid a te s u t exp)
  = true.
Proof. destruct m; unfold owner_is; cbn; now rewrite Z.eqb_refl. Qed.

(** A session row recorded for the principal the token names is well formed. *)
Lemma store_wf_add_session (d : Db) (m : Model) (role e : string)
    (user : Principal) (now : Z) (device : string) :
  store_wf d = true ->
  model_of_role role = Some m ->
  findUnique_email m e d = Some user ->
  int4 (seconds now + span_7d) = true ->
  store_wf
    (add_session m (id user)
       (jwt_sign_session e role REFRESH_TOKEN_SECRET span_7d now)
       (seconds now + span_7d) device d) = true.
Proof.
  intros Hwf Hm Hu Hfit.
  assert (Ht : forall m', table m' (add_session m (id user)
                 (jwt_sign_session e role REFRESH_TOKEN_SECRET span_7d now)
                 (seconds now + span_7d) device d) = table m' d).
  { intro m'. unfold add_session. now destruct m, m'. }
  apply (store_wf_step d); [assumption | | now apply ids_kept_tables |].
  - intro m'. rewrite Ht. now apply store_wf_iff in Hwf as [He _].
  - intros r Hin.
    assert (Hin' : In r (personal_tokens d)
                   \/ r = (let '(a, te, s) := owner_columns m (id user) in
                           mkPersonalToken (seq_personal_tokens d) a te s
                             (Some device)
                             (jwt_sign_session e role REFRESH_TOKEN_SECRET span_7d now)
                             (seconds now + span_7d))).
    { unfold add_session in Hin. destruct m; cbn in Hin;
        apply in_app_or in Hin as [Hin | [Hin | []]]; auto. }
    destruct Hin' as [Hold | ->]; [now left | right].
    unfold session_ok.
    replace (refresh_token _) with
      (SessionToken REFRESH_TOKEN_SECRET e role (seconds now) (seconds now + span_7d))
      by (now destruct m).
    replace (pt_expires_at _) with (seconds now + span_7d) by (now destruct m).
    rewrite Z.eqb_refl, Hfit, Hm. cbn [andb].
    unfold findUnique_email in *. rewrite Ht, Hu.
    apply owner_is_columns.
Qed.

Lemma update_first_emails (e : string) (g : Principal -> Principal)
    (l l' : list Principal) :
  (forall p, email (g p) = email p) ->
  update_first (fun p => String.eqb (email p) e) g l = Some l' ->
  map email l' = map email l.
Proof.
  intro Hg. revert l'. induction l as [|y l IH]; simpl; intros l' H; [discriminate|].
  destruct (String.eqb (email y) e).
  - injection H as <-. simpl. now rewrite Hg.
  - destruct (update_first _ g l) as [rest|]; [|discriminate].
    injection H as <-. simpl. now rewrite (IH rest eq_refl).
Qed.

(** Rewriting one principal's scalar columns, other than email and id. *)
Lemma store_wf_set_table_update (d : Db) (m : Model) (e : string)
    (g : Principal -> Principal) (l : list Principal) :
  (forall p, email (g p) = email p) ->
  (forall p, id (g p) = id p) ->
  update_first (fun p => String.eqb (email p) e) g (table m d) = Some l ->
  store_wf d = true ->
  store_wf (set_table m l d) = true.
Proof.
  intros Hge Hgi Hl Hwf.
  apply (store_wf_step d); [assumption | | |].
  - intro m'. rewrite table_set_table.
    apply store_wf_iff in Hwf as [He _].
    destruct (Model_eqb m' m) eqn:Hmm; [|apply He].
    unfold emails_unique. rewrite (update_first_emails e g _ _ Hge Hl).
    apply (He m).
  - intros m' e' p Hp. unfold findUnique_email in *.
    rewrite table_set_table.
    destruct (Model_eqb m' m) eqn:Hmm; [|eauto].
    assert (m' = m) by (now destruct m, m'). subst m'.
    rewrite (find_email_update_first e e' g _ _ Hge Hl).
    destruct (String.eqb e' e) eqn:He; [|eauto].
    apply String.eqb_eq in He. subst e'. rewrite Hp. cbn. eauto.
  - intros r Hin. left. now rewrite personal_tokens_set_table in Hin.
Qed.

Lemma store_wf_set_verification_tokens (l : list VerificationToken) (d : Db) :
  store_wf d = true -> store_wf (set_verification_tokens l d) = true.
Proof.
  intro Hwf. apply (store_wf_fewer_sessions d); [assumption | now intros [] |].
  intros r Hin. exact Hin.
Qed.

Lemma store_wf_add_code (m : Model) (uid c : Z) (tok : string) (ty : VerifyType)
    (exp : Z) (d : Db) :
  store_wf d = true -> store_wf (add_code m uid c tok ty exp d) = true.
Proof.
  intro Hwf. apply (store_wf_fewer_sessions d); [assumption | |].
  - intro m'. unfold add_code. now destruct m, m'.
  - intros r Hin. unfold add_code in Hin. now destruct m.
Qed.

Lemma distinct_app_fresh (l : list string) (x : string) :
  distinct String.eqb l = true ->
  existsb (fun y => String.eqb y x) l = false ->
  distinct String.eqb (l ++ [x]) = true.
Proof.
  induction l as [|y l IH]; simpl; [reflexivity|].
  rewrite andb_true_iff, negb_true_iff, orb_false_iff.
  intros [Hy Hd] [Hyx Hx].
  rewrite andb_true_iff, negb_true_iff. split; [|now apply IH].
  rewrite existsb_app, Hy. simpl. now rewrite Hyx.
Qed.

Lemma find_none_existsb (e : string) (l : list Principal) :
  find (fun p => String.eqb (email p) e) l = None ->
  existsb (fun y => String.eqb y e) (map email l) = false.
Proof.
  induction l as [|y l IH]; simpl; [reflexivity|].
  destruct (String.eqb (email y) e); [discriminate | exact IH].
Qed.

Section RegisterInvariant.

Variable bcrypt_hash : string -> Z -> string.

Lemma store_wf_add_admin (data : RegisterData) (d : Db) :
  findUnique_email Admins (r_email data) d = None ->
  store_wf d = true ->
  store_wf (add_admin bcrypt_hash data d) = true.
Proof.
  intros Hnone Hwf. apply (store_wf_step d); [assumption | | |].
  - apply store_wf_iff in Hwf as [He _].
    intros [|  |]; [|apply (He Teachers) | apply (He Students)].
    cbn [table add_admin admins]. unfold emails_unique.
    rewrite map_app. apply distinct_app_fresh; [apply (He Admins)|].
    now apply find_none_existsb.
  - intros m e p Hp. exists p. split; [|reflexivity].
    unfold findUnique_email in *. destruct m; try assumption.
    cbn [table add_admin admins] in *. now rewrite find_app, Hp.
  - intros r Hin. now left.
Qed.

Lemma find_new_admin (data : RegisterData) (d : Db) :
  findUnique_email Admins (r_email data) d = None ->
  findUnique_email Admins (r_email data) (add_admin bcrypt_hash data d)
  = Some (new_admin bcrypt_hash data d).
Proof.
  unfold findUnique_email. cbn [table add_admin admins]. intro Hf.
  rewrite find_app, Hf. simpl. now rewrite String.eqb_refl.
Qed.

Lemma store_wf_registered (data : RegisterData) (device : Device) (env : Env)
    (d : Db) :
  findUnique_email Admins (r_email data) d = None ->
  int4 (seconds (Date_now env) + span_7d) = true ->
  store_wf d = true ->
  store_wf (registered bcrypt_hash data device env d) = true.
Proof.
  intros Hnone Hfit Hwf. unfold registered.
  change (seq_admins d) with (id (new_admin bcrypt_hash data d)).
  apply (store_wf_add_session _ Admins "admin" (r_email data));
    [| reflexivity | | assumption].
  - apply store_wf_add_code. now apply store_wf_add_admin.
  - rewrite <- (find_new_admin data d Hnone). reflexivity.
Qed.

End RegisterInvariant.

Lemma jwt_verify_session_inv (t : Jwt) (secret : Secret) (now : Z) (e role : string) :
  jwt_verify_session t secret now = Some (e, role) ->
  exists iat exp, t = SessionToken secret e role iat exp /\ seconds now < exp.
Proof.
  unfold jwt_verify_session.
  destruct t as [s e' role' iat exp | |]; try discriminate.
  destruct (Secret_eqb s secret) eqn:Hs; [|discriminate].
  destruct (exp <=? seconds now) eqn:Hexp; [discriminate|].
  cbn. intro H. injection H as <- <-.
  exists iat, exp. apply Z.leb_gt in Hexp.
  split; [|assumption]. now destruct s, secret.
Qed.

Lemma store_wf_rotated (t : Jwt) (e role : string) (env : Env) (d : Db) :
  jwt_verify_session t REFRESH_TOKEN_SECRET (Date_now env) = Some (e, role) ->
  int4 (seconds (Date_now env) + span_7d) = true ->
  store_wf d = true ->
  store_wf (rotated t e role env d) = true.
Proof.
  intros Hv Hfit Hwf.
  destruct (jwt_verify_session_inv _ _ _ _ _ Hv) as [iat [exp [-> _]]].
  assert (Ht : forall m, table m (rotated (SessionToken REFRESH_TOKEN_SECRET e role iat exp)
                                    e role env d) = table m d) by (now intros []).
  apply (store_wf_step d); [assumption | | now apply ids_kept_tables |].
  - intro m. rewrite Ht. now apply store_wf_iff in Hwf as [He _].
  - intros r' Hin. cbn in Hin. apply in_map_iff in Hin as [r [<- Hin]].
    unfold rotate_row.
    destruct (Jwt_eqb (refresh_token r) _) eqn:Heq; [right | now left].
    apply Jwt_eqb_eq in Heq.
    apply store_wf_iff in Hwf as [_ Hr]. specialize (Hr r Hin).
    unfold session_ok in *. rewrite Heq in Hr. cbn [refresh_token pt_expires_at].
    unfold jwt_sign_session. rewrite Z.eqb_refl, Hfit. cbn [andb].
    apply andb_true_iff in Hr as [_ Hr].
    destruct (model_of_role role) as [m|]; [|discriminate].
    unfold findUnique_email in *. rewrite Ht.
    destruct (find _ (table m d)) as [p|]; [|discriminate].
    unfold owner_is in *. now destruct m.
Qed.

Section Invariant.

Variable bcrypt_hash : string -> Z -> string.
Variable bcrypt_compare : string -> string -> bool.
Variable assignRole : Z -> string -> Db -> bool.

Lemma store_wf_password_updated (m : Model) (user : Principal) (pw : string)
    (d : Db) :
  store_wf d = true ->
  store_wf (password_updated bcrypt_hash m user pw d) = true.
Proof.
  intro Hwf. unfold password_updated.
  destruct (findUnique_email m (email user) d) as [parent|]; [|assumption].
  destruct (update_first _ _ (table m d)) as [l|] eqn:Hl; [|assumption].
  apply store_wf_set_verification_tokens.
  apply (store_wf_set_table_update _ m (email user)
           (set_password (bcrypt_hash pw 12)));
    [reflexivity | reflexivity | | ].
  - replace (table m (set_personal_tokens _ d)) with (table m d)
      by (now destruct m).
    exact Hl.
  - now apply store_wf_set_personal_tokens_filter.
Qed.

(** Every request keeps the store well formed: the unique index on emails
    holds, and each session row carries a refresh token signed for the
    principal that owns it, with the token's [exp] as stored expiry. *)
Theorem store_wf_preserved :
  forall (rq : Request) (env : Env) (d : Db),
    store_wf d = true ->
    store_wf (store_after (handle bcrypt_hash bcrypt_compare assignRole rq env) d)
    = true.
Proof.
  intros rq env d Hwf. unfold store_after.
  destruct rq as [data device | user | tok c user | cookie e pw role device
                  | cookie | cookie | cookie user | e role | tok c | header pw];
    cbn [handle].
  - rewrite register_run.
    destruct (findUnique_email Admins (r_email data) d) eqn:Hf;
      [now apply store_wf_rollback|].
    destruct (assignRole _ _ _); [|now apply store_wf_rollback].
    destruct (sendMail_ok env); [|now apply store_wf_rollback].
    destruct (int4 (seconds (Date_now env) + span_7d)) eqn:Hfit;
      [|now apply store_wf_rollback].
    cbn [snd db]. now apply store_wf_registered.
  - rewrite resendEmail_run.
    destruct (u_email_verified_at user); [assumption|].
    destruct (findUnique_email Admins (u_email user) d); [|assumption].
    destruct (sendMail_ok env); cbn [snd db]; [|now apply store_wf_rollback].
    unfold resent. apply store_wf_add_code.
    now apply store_wf_set_verification_tokens.
  - rewrite verifyEmail_run.
    destruct (findFirst_token_code tok c d); [|assumption].
    destruct (model_of_role (u_role user)) as [m|]; [|assumption].
    destruct (update_first _ _ (table m d)) as [l|] eqn:Hl; [|assumption].
    cbn [snd db].
    now apply (store_wf_set_table_update d m (u_email user)
                 (set_email_verified_at (Date_now env))).
  - rewrite login_run.
    destruct (model_of_role role) as [m|] eqn:Hm; [|assumption].
    destruct (findUnique_email m e d) as [user|] eqn:Hu; [|assumption].
    destruct (String.eqb e (email user) && bcrypt_compare pw (password user));
      [|assumption].
    destruct (is_suspended user); [assumption|].
    destruct (int4 (seconds (Date_now env) + span_7d)) eqn:Hfit; [|assumption].
    cbn [snd db]. rewrite (find_email_eq _ _ _ _ Hu).
    now apply (store_wf_add_session d m role e).
  - rewrite refreshAuthToken_run.
    destruct (express_jwt cookie) as [t|]; [|assumption].
    destruct (findMany_refresh_token t d);
      destruct (jwt_verify_session t REFRESH_TOKEN_SECRET (Date_now env))
        as [[e role]|] eqn:Hv; try assumption.
    + cbn [snd db]. unfold revoked.
      destruct (lookup_role role e d) as [[m p]|]; [|assumption].
      now apply store_wf_set_personal_tokens_filter.
    + destruct (lookup_role role e d); [|assumption].
      destruct (int4 (seconds (Date_now env) + span_7d)) eqn:Hfit; [|assumption].
      cbn [snd db]. now apply store_wf_rotated.
  - rewrite logout_run.
    destruct (express_jwt cookie); [|assumption].
    now apply store_wf_set_personal_tokens_filter.
  - rewrite logoutAll_run.
    destruct (express_jwt cookie); [|assumption].
    destruct (model_of_role (u_role user)) as [m|]; [|assumption].
    destruct (findUnique_email m (u_email user) d); [|assumption].
    now apply store_wf_set_personal_tokens_filter.
  - now rewrite resetPassword_run.
  - rewrite verifyResetCode_run.
    now destruct (findFirst_token_code tok c d).
  - change (db (snd (run ?m d))) with (store_after m d).
    rewrite updatePassword_store.
    destruct header as [h|]; [|assumption].
    destruct (String.eqb (scheme h) "Bearer"); [|assumption].
    destruct (jwt_verify_reset (credentials h) (Date_now env))
      as [[[uid|] [role|]]|]; try assumption.
    destruct (model_of_role role) as [m|]; [|assumption].
    destruct (findUnique_id m uid d) as [user|]; [|assumption].
    apply store_wf_password_updated. assumption.
Qed.

(** X1: the store invariant holds along every trace of requests to the
    eleven handlers: from a store whose principal tables have pairwise
    distinct emails and whose session rows each hold a refresh token signed
    for the row's owner with the token's [exp] as stored expiry, within the
    range of the [Int] column, every sequence of requests leads to such a
    store. *)
Theorem store_wf_serve :
  forall (trace : list (Request * Env)) (d : Db),
    store_wf d = true ->
    store_wf (serve bcrypt_hash bcrypt_compare assignRole trace d) = true.
Proof.
  induction trace as [|[rq env] rest IH]; intros d Hwf; [assumption|].
  cbn [serve]. apply IH. now apply store_wf_preserved.
Qed.

End Invariant.

(** ** Refresh: rotation *)

Lemma session_ok_expiry (d : Db) (r : PersonalToken) :
  session_ok d r = true ->
  jwt_decode_exp (refresh_token r) = Some (pt_expires_at r).
Proof.
  unfold session_ok.
  destruct (refresh_token r) as [[|] e role iat exp | |]; try discriminate.
  rewrite !andb_true_iff. intros [[H _] _]. apply Z.eqb_eq in H. cbn.
  now rewrite H.
Qed.

Lemma owner_is_pt_owner (m : Model) (uid : Z) (r : PersonalToken) :
  owner_is m uid r = true -> pt_owner m r = Some uid.
Proof.
  unfold owner_is. destruct m; cbn; rewrite !andb_true_iff;
    intros [[Ha Ht] Hs]; now apply option_eqb_Z_eq.
Qed.

(** In a well-formed store a session row holding a token signed for
    [{e, role}] belongs to the principal that pair names. *)
Lemma session_owner (d : Db) (r : PersonalToken) (e role : string) (iat exp : Z) :
  store_wf d = true ->
  In r (personal_tokens d) ->
  refresh_token r = SessionToken REFRESH_TOKEN_SECRET e role iat exp ->
  exists m p,
    lookup_role role e d = Some (m, p) /\ pt_owner m r = Some (id p).
Proof.
  intros Hwf Hin Htok. apply store_wf_iff in Hwf as [_ Hr].
  specialize (Hr r Hin). unfold session_ok in Hr. rewrite Htok in Hr.
  apply andb_true_iff in Hr as [_ Hr]. unfold lookup_role.
  destruct (model_of_role role) as [m|]; [|discriminate].
  destruct (findUnique_email m e d) as [p|]; [|discriminate].
  exists m, p. split; [reflexivity|]. now apply owner_is_pt_owner.
Qed.

(** C3: in a well-formed store, a refresh whose token matches a stored row
    and verifies, at a time when the new expiry fits the [Int] column, is
    answered 200 with a 2-minute access token; the session table is the old
    one with each row that held the presented token rewritten in place (the
    same id, owner and device, the newly signed 7-day token as
    [refresh_token] and that token's [exp] as [expires_at]) and every other
    row as it was, so no row is added; the rows of every other principal do
    not hold the presented token and are the same; afterwards the stored
    expiry of every row is the [exp] of its stored token. *)
Theorem refresh_rotates_in_place :
  forall (d : Db) (cookie : option Jwt) (t : Jwt) (env : Env) (e role : string),
    store_wf d = true ->
    express_jwt cookie = Some t ->
    findMany_refresh_token t d <> [] ->
    jwt_verify_session t REFRESH_TOKEN_SECRET (Date_now env) = Some (e, role) ->
    int4 (seconds (Date_now env) + 604800) = true ->
    let d' := store_after (refreshAuthToken cookie env) d in
    let newRefreshToken :=
      SessionToken REFRESH_TOKEN_SECRET e role (seconds (Date_now env))
        (seconds (Date_now env) + 604800) in
    response (refreshAuthToken cookie env) d
    = Some (200,
            mkBody None
              (Some (SessionToken ACCESS_TOKEN_SECRET e role
                       (seconds (Date_now env)) (seconds (Date_now env) + 120)))
              None)
    /\ cookies_after (refreshAuthToken cookie env) d
       = [ClearCookie "express_jwt";
          Cookie "express_jwt" newRefreshToken (7 * 24 * 60 * 60 * 1000)]
    /\ jwt_decode_exp newRefreshToken = Some (seconds (Date_now env) + 604800)
    /\ personal_tokens d'
       = map (fun r =>
                if Jwt_eqb (refresh_token r) t
                then mkPersonalToken (pt_id r) (pt_admin_id r) (pt_teacher_id r)
                       (pt_student_id r) (user_device r) newRefreshToken
                       (seconds (Date_now env) + 604800)
                else r)
           (personal_tokens d)
    /\ List.length (personal_tokens d') = List.length (personal_tokens d)
    /\ (exists m p,
           lookup_role role e d = Some (m, p)
           /\ forall r,
               In r (personal_tokens d) ->
               pt_owner m r <> Some (id p) ->
               Jwt_eqb (refresh_token r) t = false)
    /\ (forall r,
           In r (personal_tokens d') ->
           jwt_decode_exp (refresh_token r) = Some (pt_expires_at r))
    /\ store_wf d' = true.
Proof.
  intros d cookie t env e role Hwf Hc Hrows Hv Hfit d' nt.
  assert (Hlook : exists m p,
             lookup_role role e d = Some (m, p)
             /\ forall r, In r (personal_tokens d) ->
                          refresh_token r = t -> pt_owner m r = Some (id p)).
  { destruct (jwt_verify_session_inv _ _ _ _ _ Hv) as [iat [exp [Ht _]]].
    destruct (findMany_refresh_token t d) as [|r0 rest] eqn:Hf; [congruence|].
    assert (Hin0 : In r0 (findMany_refresh_token t d)) by (rewrite Hf; now left).
    unfold findMany_refresh_token in Hin0.
    apply filter_In in Hin0 as [Hin0 Heq0]. apply Jwt_eqb_eq in Heq0.
    destruct (session_owner d r0 e role iat exp Hwf Hin0) as [m [p [Hl _]]];
      [congruence|].
    exists m, p. split; [assumption|].
    intros r Hin Hr.
    destruct (session_owner d r e role iat exp Hwf Hin) as [m' [p' [Hl' Ho]]];
      [congruence|].
    rewrite Hl in Hl'. now injection Hl' as <- <-. }
  assert (Hrun : run (refreshAuthToken cookie env) d
                 = (Returned tt,
                    mkWorld (rotated t e role env d)
                      (mkRes 200
                         (Some (200,
                                mkBody None
                                  (Some (jwt_sign_session e role ACCESS_TOKEN_SECRET
                                           span_2m (Date_now env)))
                                  None))
                         [ClearCookie "express_jwt";
                          Cookie "express_jwt"
                            (jwt_sign_session e role REFRESH_TOKEN_SECRET span_7d
                               (Date_now env))
                            maxAge_7d]))).
  { rewrite refreshAuthToken_run, Hc, Hv.
    destruct (findMany_refresh_token t d) as [|r0 rest]; [congruence|].
    destruct Hlook as [m [p [-> _]]].
    change span_7d with 604800. now rewrite Hfit. }
  assert (Hd' : d' = rotated t e role env d).
  { unfold d', store_after. now rewrite Hrun. }
  assert (Hwf' : store_wf d' = true).
  { rewrite Hd'. now apply store_wf_rotated. }
  unfold response, cookies_after. rewrite Hrun. cbn [snd res sent cookies].
  split; [reflexivity|]. split; [reflexivity|]. split; [reflexivity|].
  split; [now rewrite Hd'|].
  split; [rewrite Hd'; cbn; apply length_map|].
  split.
  - destruct Hlook as [m [p [Hl Hown]]]. exists m, p. split; [assumption|].
    intros r Hin Hother.
    destruct (Jwt_eqb (refresh_token r) t) eqn:Heq; [|reflexivity].
    apply Jwt_eqb_eq in Heq. now specialize (Hown r Hin Heq).
  - split; [|assumption].
    intros r Hin. apply (session_ok_expiry d').
    apply store_wf_iff in Hwf' as [_ Hr]. now apply Hr.
Qed.

(** ** Password update *)

Lemma unique_find_email (l : list Principal) (p : Principal) :
  emails_unique l = true ->
  In p l ->
  find (fun q => String.eqb (email q) (email p)) l = Some p.
Proof.
  unfold emails_unique.
  induction l as [|y l IH]; simpl; [contradiction|].
  rewrite andb_true_iff, negb_true_iff. intros [Hy Hd] Hin.
  destruct (String.eqb (email y) (email p)) eqn:He.
  - destruct Hin as [-> | Hin]; [reflexivity|].
    apply String.eqb_eq in He.
    assert (Hex : existsb (String.eqb (email y)) (map email l) = true).
    { apply existsb_exists. exists (email p). split.
      - now apply in_map.
      - rewrite He. apply String.eqb_refl. }
    congruence.
  - destruct Hin as [-> | Hin]; [now rewrite String.eqb_refl in He|].
    now apply IH.
Qed.

Lemma find_id_update_first (uid : Z) (user : Principal)
    (g : Principal -> Principal) (l l' : list Principal) :
  (forall p, id (g p) = id p) ->
  find (fun p => String.eqb (email p) (email user)) l = Some user ->
  find (fun p => Z.eqb (id p) uid) l = Some user ->
  update_first (fun p => String.eqb (email p) (email user)) g l = Some l' ->
  find (fun p => Z.eqb (id p) uid) l' = Some (g user).
Proof.
  intros Hg. revert l'.
  induction l as [|y l IH]; simpl; intros l' He Hi Hu; [discriminate|].
  destruct (String.eqb (email y) (email user)) eqn:Hy.
  - injection He as ->. injection Hu as <-. simpl. rewrite Hg.
    destruct (Z.eqb (id user) uid) eqn:Hid; [reflexivity|].
    apply find_some in Hi as [_ Hi]. cbn in Hi. congruence.
  - destruct (Z.eqb (id y) uid) eqn:Hid.
    + injection Hi as ->. now rewrite String.eqb_refl in Hy.
    + destruct (update_first _ g l) as [rest|]; [|discriminate].
      injection Hu as <-. simpl. rewrite Hid. now apply IH.
Qed.

Lemma filter_ext_in_bool {A : Type} (f g : A -> bool) (l : list A) :
  (forall x, f x = g x) -> filter f l = filter g l.
Proof.
  intro H. induction l as [|y l IH]; simpl; [reflexivity|].
  now rewrite H, IH.
Qed.

Section PasswordUpdateClaims.

Variable bcrypt_hash : string -> Z -> string.

(** The whole of [updatePassword] for a Bearer token that verifies and
    names a principal that exists. *)
Lemma updatePassword_run_found (h : Authorization) (pw : string) (env : Env)
    (d : Db) (m : Model) (role : string) (uid : Z) (user : Principal) :
  scheme h = "Bearer" ->
  jwt_verify_reset (credentials h) (Date_now env) = Some (Some uid, Some role) ->
  model_of_role role = Some m ->
  findUnique_id m uid d = Some user ->
  run (updatePassword bcrypt_hash (Some h) pw env) d
  = (Returned tt,
     mkWorld (password_updated bcrypt_hash m user pw d)
       (ok_response (msg "Password has been updated"))).
Proof.
  intros Hs Hv Hm Hu. unfold run, updatePassword.
  rewrite Hs, Hv. cbn [String.eqb]. rewrite String.eqb_refl.
  unfold detached, bind at 1.
  rewrite (updatePassword_tx_found bcrypt_hash m role uid user pw d _ Hm Hu).
  reflexivity.
Qed.


End PasswordUpdateClaims.

(** ** Resend verification *)

(** C9: [resendEmail] for a requester whose [email_verified_at] is set
    answers "Your email is already verified" and leaves the store as it was.
    For an unverified requester that is the admin found by its email, when
    the mail goes out, the handler answers that a new code has been sent,
    deletes every verification code of that admin, whatever its
    [verify_type], and appends one fresh [EMAIL] code for it; the codes of
    every other principal, the session rows and the principal tables are
    the same. *)
Theorem resendEmail_replaces_all_codes :
  forall (d : Db) (user : AuthUser) (env : Env),
    (forall at_, u_email_verified_at user = Some at_ ->
        response (resendEmail user env) d
        = Some (200, msg "Your email is already verified")
        /\ store_after (resendEmail user env) d = d)
    /\ (forall parent,
           u_email_verified_at user = None ->
           findUnique_email Admins (u_email user) d = Some parent ->
           id parent = u_id user ->
           sendMail_ok env = true ->
           let d' := store_after (resendEmail user env) d in
           response (resendEmail user env) d
           = Some (200, msg "A new verification code has been sent to your email")
           /\ verification_tokens d'
              = (filter (fun r => negb (vt_owned_by Admins (u_id user) r))
                   (verification_tokens d)
                 ++ [mkVerificationToken (seq_verification_tokens d)
                       (Some (u_id user)) None None (random_code env) (uuidv4 env)
                       EMAIL (one_day_from env)])%list
           /\ (forall r, In r (verification_tokens d) ->
                         vt_admin_id r <> Some (u_id user) ->
                         In r (verification_tokens d'))
           /\ (forall r, In r (verification_tokens d) ->
                         vt_admin_id r = Some (u_id user) ->
                         r <> mkVerificationToken (seq_verification_tokens d)
                                (Some (u_id user)) None None (random_code env)
                                (uuidv4 env) EMAIL (one_day_from env) ->
                         ~ In r (verification_tokens d'))
           /\ personal_tokens d' = personal_tokens d
           /\ forall m, table m d' = table m d).
Proof.
  intros d user env. split.
  - intros at_ Hat. unfold response, store_after.
    rewrite resendEmail_run, Hat. split; reflexivity.
  - intros parent Hat Hp Hid Hmail d'.
    assert (Hrun : run (resendEmail user env) d
                   = (Returned tt,
                      mkWorld (resent parent (u_id user) env d)
                        (ok_response
                           (msg "A new verification code has been sent to your email")))).
    { now rewrite resendEmail_run, Hat, Hp, Hmail. }
    assert (Hvt : verification_tokens d'
                  = (filter (fun r => negb (vt_owned_by Admins (u_id user) r))
                       (verification_tokens d)
                     ++ [mkVerificationToken (seq_verification_tokens d)
                           (Some (u_id user)) None None (random_code env)
                           (uuidv4 env) EMAIL (one_day_from env)])%list).
    { unfold d', store_after. rewrite Hrun. cbn [snd db].
      unfold resent, add_code. rewrite Hid. cbn. f_equal.
      apply filter_ext_in_bool. intro r. now rewrite andb_diag. }
    unfold response. rewrite Hrun. cbn [snd res sent ok_response].
    split; [reflexivity|]. split; [assumption|].
    split; [|split; [|split]].
    + intros r Hin Hother. rewrite Hvt. apply in_or_app. left.
      apply filter_In. split; [assumption|].
      apply negb_true_iff. unfold vt_owned_by. cbn [vt_owner].
      destruct (option_eqb Z.eqb (vt_admin_id r) (Some (u_id user))) eqn:Heq;
        [|reflexivity].
      now apply option_eqb_Z_eq in Heq.
    + intros r Hin Hown Hfresh. rewrite Hvt. intro Hin'.
      apply in_app_or in Hin' as [Hin' | [Heq | []]]; [|congruence].
      apply filter_In in Hin' as [_ Hno]. apply negb_true_iff in Hno.
      unfold vt_owned_by in Hno. cbn [vt_owner] in Hno. rewrite Hown in Hno.
      cbn in Hno. now rewrite Z.eqb_refl in Hno.
    + unfold d', store_after. now rewrite Hrun.
    + intro m. unfold d', store_after. rewrite Hrun. now destruct m.
Qed.

(** ** The properties on the sample store *)

Import Sample.

Example logged_in_sessions :
  map (fun r => (pt_admin_id r, pt_teacher_id r, refresh_token r, pt_expires_at r))
    (personal_tokens logged_in)
  = [(Some 1, None,
      SessionToken REFRESH_TOKEN_SECRET "a@x.com" "admin" 1700000000 1700604800,
      1700604800);
     (None, Some 1,
      SessionToken REFRESH_TOKEN_SECRET "b@x.com" "teacher" 1700000000 1700604800,
      1700604800)].
Proof. vm_compute. reflexivity. Qed.

Example busy_wf : store_wf busy = true.
Proof. vm_compute. reflexivity. Qed.

(** The three issuing handlers do issue tokens on the sample store. *)
Example register_issues :
  issued_access
    (register hash roles_ok (mkRegisterData "A" "a@x.com" "Secret123!" "X")
       phone env0) empty_db
  = [SessionToken ACCESS_TOKEN_SECRET "a@x.com" "admin" 1700000000 1700086400]
  /\ issued_refresh
       (register hash roles_ok (mkRegisterData "A" "a@x.com" "Secret123!" "X")
          phone env0) empty_db
     = [SessionToken REFRESH_TOKEN_SECRET "a@x.com" "admin" 1700000000 1700604800].
Proof. split; vm_compute; reflexivity. Qed.

Example login_issues :
  issued_access (login compare None "b@x.com" "hunter2" "teacher" phone env0) people
  = [SessionToken ACCESS_TOKEN_SECRET "b@x.com" "teacher" 1700000000 1700086400]
  /\ issued_refresh (login compare None "b@x.com" "hunter2" "teacher" phone env0)
       people
     = [SessionToken REFRESH_TOKEN_SECRET "b@x.com" "teacher" 1700000000 1700604800].
Proof. split; vm_compute; reflexivity. Qed.

Example refresh_issues :
  issued_access (refreshAuthToken (Some alice_refresh) env1) logged_in
  = [SessionToken ACCESS_TOKEN_SECRET "a@x.com" "admin" 1700200000 1700200120]
  /\ issued_refresh (refreshAuthToken (Some alice_refresh) env1) logged_in
     = [SessionToken REFRESH_TOKEN_SECRET "a@x.com" "admin" 1700200000 1700804800].
Proof. split; vm_compute; reflexivity. Qed.

(** The wrong-password half of the login rejection, on the sample store. *)
Example login_wrong_password_sample :
  outcome (login compare None "a@x.com" "wrong" "admin" phone env0) people
  = Thrown (HttpError 401 "Invalid email or password").
Proof. vm_compute. reflexivity. Qed.

(** C1 on the sample store: Alice's rotated-out token is replayed. *)
Lemma refresh_reuse_witness :
  express_jwt (Some alice_stale) = Some alice_stale
  /\ findMany_refresh_token alice_stale logged_in = []
  /\ response (refreshAuthToken (Some alice_stale) env1) logged_in
     = Some (403, msg "Forbidden")
  /\ cookies_after (refreshAuthToken (Some alice_stale) env1) logged_in
     = [ClearCookie "express_jwt"].
Proof.
  assert (H1 : express_jwt (Some alice_stale) = Some alice_stale) by reflexivity.
  assert (H2 : findMany_refresh_token alice_stale logged_in = [])
    by (vm_compute; reflexivity).
  destruct (refresh_reuse_revokes_and_forbids logged_in (Some alice_stale)
              alice_stale env1 H1 H2) as [Hr [Hc _]].
  exact (conj H1 (conj H2 (conj Hr Hc))).
Defined.

(** C2 on the sample store: Alice verifies twice with the same pair. *)
Lemma verifyEmail_replay_witness :
  response (verifyEmail "0b6f3c1e" 12345678 alice_user env0) with_codes
  = Some (200, msg "Verification successful")
  /\ response (verifyEmail "0b6f3c1e" 12345678 alice_user env1)
       (store_after (verifyEmail "0b6f3c1e" 12345678 alice_user env0) with_codes)
     = Some (200, msg "Verification successful").
Proof.
  assert (H1 : response (verifyEmail "0b6f3c1e" 12345678 alice_user env0) with_codes
               = Some (200, msg "Verification successful"))
    by (vm_compute; reflexivity).
  split; [exact H1|].
  apply (verifyEmail_code_can_be_replayed with_codes "0b6f3c1e" 12345678
           alice_user env0 env1 H1).
Defined.

(** C3 on the sample store: Alice refreshes two days after logging in. *)
Lemma refresh_rotation_witness :
  store_wf logged_in = true
  /\ express_jwt (Some alice_refresh) = Some alice_refresh
  /\ findMany_refresh_token alice_refresh logged_in <> []
  /\ jwt_verify_session alice_refresh REFRESH_TOKEN_SECRET (Date_now env1)
     = Some ("a@x.com", "admin")
  /\ int4 (seconds (Date_now env1) + 604800) = true
  /\ personal_tokens (store_after (refreshAuthToken (Some alice_refresh) env1)
                        logged_in)
     = [mkPersonalToken 1 (Some 1) None None (Some "Acme One")
          (SessionToken REFRESH_TOKEN_SECRET "a@x.com" "admin" 1700200000 1700804800)
          1700804800;
        mkPersonalToken 2 None (Some 1) None (Some "Acme One")
          (SessionToken REFRESH_TOKEN_SECRET "b@x.com" "teacher" 1700000000
             1700604800)
          1700604800]
  /\ store_wf (store_after (refreshAuthToken (Some alice_refresh) env1) logged_in)
     = true.
Proof.
  assert (H1 : store_wf logged_in = true) by (vm_compute; reflexivity).
  assert (H2 : express_jwt (Some alice_refresh) = Some alice_refresh) by reflexivity.
  assert (H3 : findMany_refresh_token alice_refresh logged_in <> [])
    by (vm_compute; discriminate).
  assert (H4 : jwt_verify_session alice_refresh REFRESH_TOKEN_SECRET (Date_now env1)
               = Some ("a@x.com", "admin")) by (vm_compute; reflexivity).
  assert (H5 : int4 (seconds (Date_now env1) + 604800) = true)
    by (vm_compute; reflexivity).
  pose proof (refresh_rotates_in_place logged_in (Some alice_refresh) alice_refresh
                env1 "a@x.com" "admin" H1 H2 H3 H4 H5) as H.
  cbv zeta in H.
  destruct H as [_ [_ [_ [Hrows [_ [_ [_ Hwf]]]]]]].
  refine (conj H1 (conj H2 (conj H3 (conj H4 (conj H5 (conj _ Hwf)))))).
  rewrite Hrows. vm_compute. reflexivity.
Defined.

(** C4 on the sample store: a login with an email nobody has. *)
Lemma login_unknown_email_witness :
  (forall m, model_of_role "admin" = Some m ->
             findUnique_email m "nobody@x.com" people = None)
  /\ outcome (login compare None "nobody@x.com" "Secret123!" "admin" phone env0)
       people
     = Thrown TypeError.
Proof.
  assert (H1 : forall m, model_of_role "admin" = Some m ->
                         findUnique_email m "nobody@x.com" people = None).
  { intros m Hm. vm_compute in Hm. injection Hm as <-. reflexivity. }
  split; [exact H1|].
  apply (login_unknown_email_throws_TypeError compare people None "nobody@x.com"
           "Secret123!" "admin" phone env0 H1).
Defined.

(** C5, the claim as stated fails: Alice's code expired a day before [env1],
    it is matched, and neither handler answers "Invalid Code". *)
Lemma expired_code_is_accepted :
  findFirst_token_code "0b6f3c1e" 12345678 with_codes = Some alice_code
  /\ vt_expires_at alice_code < Date_now env1
  /\ response (verifyEmail "0b6f3c1e" 12345678 alice_user env1) with_codes
     <> Some (200, msg "Invalid Code")
  /\ response (verifyResetCode "0b6f3c1e" 12345678 env1) with_codes
     <> Some (200, msg "Invalid Code").
Proof.
  repeat split; vm_compute; congruence.
Qed.

(** C5 as amended, on the sample store. *)
Lemma expired_code_witness :
  findFirst_token_code "0b6f3c1e" 12345678 with_codes = Some alice_code
  /\ response (verifyResetCode "0b6f3c1e" 12345678 env1) with_codes
     = Some (200,
             mkBody (Some "Verification successful") None
               (Some (ResetToken (Some 1) (Some "admin") 1700200000 1700200240)))
  /\ response (verifyEmail "0b6f3c1e" 12345678 alice_user env1) with_codes
     = Some (200, msg "Verification successful").
Proof.
  assert (H1 : findFirst_token_code "0b6f3c1e" 12345678 with_codes = Some alice_code)
    by reflexivity.
  destruct (verification_does_not_read_expires_at with_codes "0b6f3c1e" 12345678
              alice_code env1 H1) as [Hreset Hemail].
  split; [exact H1|]. split; [exact Hreset|].
  apply (Hemail alice_user Admins alice); reflexivity.
Defined.


(** C9, the claim as stated fails: a resend for Alice deletes her
    [PASSWORD_RESET] code as well. *)
Lemma resendEmail_deletes_reset_code :
  u_email_verified_at alice_user = None
  /\ In alice_reset_code (verification_tokens with_codes)
  /\ verify_type alice_reset_code = PASSWORD_RESET
  /\ vt_admin_id alice_reset_code = Some (u_id alice_user)
  /\ response (resendEmail alice_user env1) with_codes
     = Some (200, msg "A new verification code has been sent to your email")
  /\ ~ In alice_reset_code
         (verification_tokens (store_after (resendEmail alice_user env1) with_codes)).
Proof.
  repeat split; try (vm_compute; auto; fail).
  vm_compute. intros [H | []]. discriminate H.
Qed.

(** C9 as amended, on the sample store. *)
Lemma resendEmail_witness :
  u_email_verified_at alice_user = None
  /\ findUnique_email Admins (u_email alice_user) with_codes = Some alice
  /\ id alice = u_id alice_user
  /\ sendMail_ok env1 = true
  /\ verification_tokens (store_after (resendEmail alice_user env1) with_codes)
     = [mkVerificationToken 3 (Some 1) None None 17654321 "9a1d44f0" EMAIL
          1700286400000].
Proof.
  assert (H1 : u_email_verified_at alice_user = None) by reflexivity.
  assert (H2 : findUnique_email Admins (u_email alice_user) with_codes = Some alice)
    by reflexivity.
  assert (H3 : id alice = u_id alice_user) by reflexivity.
  assert (H4 : sendMail_ok env1 = true) by reflexivity.
  destruct (resendEmail_replaces_all_codes with_codes alice_user env1) as [_ H].
  specialize (H alice H1 H2 H3 H4). cbv zeta in H.
  destruct H as [_ [Hvt _]].
  repeat (split; [assumption|]).
  rewrite Hvt. vm_compute. reflexivity.
Defined.

(** C10 on the sample store: Bob verifies his email with Alice's code. *)
Lemma verifyEmail_other_code_witness :
  findFirst_token_code "0b6f3c1e" 12345678 with_codes = Some alice_code
  /\ vt_admin_id alice_code = Some (id alice)
  /\ model_of_role (u_role bob_user) = Some Teachers
  /\ findUnique_email Teachers (u_email bob_user) with_codes = Some bob
  /\ response (verifyEmail "0b6f3c1e" 12345678 bob_user env0) with_codes
     = Some (200, msg "Verification successful")
  /\ findUnique_email Teachers "b@x.com"
       (store_after (verifyEmail "0b6f3c1e" 12345678 bob_user env0) with_codes)
     = Some (mkPrincipal 1 "Bob" "b@x.com" (hash "hunter2" 12)
               (Some 1700000000000) false None)
  /\ findUnique_email Admins "a@x.com"
       (store_after (verifyEmail "0b6f3c1e" 12345678 bob_user env0) with_codes)
     = Some alice.
Proof.
  assert (H1 : findFirst_token_code "0b6f3c1e" 12345678 with_codes = Some alice_code)
    by reflexivity.
  assert (H2 : model_of_role (u_role bob_user) = Some Teachers) by reflexivity.
  assert (H3 : findUnique_email Teachers (u_email bob_user) with_codes = Some bob)
    by reflexivity.
  pose proof (verifyEmail_verifies_the_requester with_codes "0b6f3c1e" 12345678
                alice_code bob_user Teachers bob env0 H1 H2 H3) as H.
  cbv zeta in H. destruct H as [Hr [Hbob [Hothers _]]].
  split; [exact H1|]. split; [reflexivity|].
  repeat (split; [assumption|]).
  rewrite (Hothers Admins "a@x.com"); [reflexivity | discriminate].
Defined.

(** ** Further properties: login and register *)

Lemma table_add_session (m m' : Model) (uid : Z) (t : Jwt) (exp : Z)
    (device : string) (d : Db) :
  table m' (add_session m uid t exp device d) = table m' d.
Proof. unfold add_session. now destruct m, m'. Qed.

Lemma personal_tokens_add_session (m : Model) (uid : Z) (t : Jwt) (exp : Z)
    (device : string) (d : Db) :
  personal_tokens (add_session m uid t exp device d)
  = (personal_tokens d
     ++ [mkPersonalToken (seq_personal_tokens d)
           (fst (fst (owner_columns m uid))) (snd (fst (owner_columns m uid)))
           (snd (owner_columns m uid)) (Some device) t exp])%list.
Proof. unfold add_session. now destruct m. Qed.


Section LoginProperties.

Variable bcrypt_compare : string -> string -> bool.

(** What a login with the right password of a principal that is not
    suspended does. *)
Lemma login_run_ok (cookie : option Jwt) (e pw role : string) (device : Device)
    (env : Env) (d : Db) (m : Model) (user : Principal) :
  model_of_role role = Some m ->
  findUnique_email m e d = Some user ->
  bcrypt_compare pw (password user) = true ->
  is_suspended user = false ->
  int4 (seconds (Date_now env) + 604800) = true ->
  run (login bcrypt_compare cookie e pw role device env) d
  = (Returned tt,
     mkWorld
       (add_session m (id user)
          (jwt_sign_session e role REFRESH_TOKEN_SECRET span_7d (Date_now env))
          (seconds (Date_now env) + span_7d) (deviceWithModel device) d)
       (mkRes 200
          (Some (200,
                 mkBody None
                   (Some (jwt_sign_session e role ACCESS_TOKEN_SECRET span_1d
                            (Date_now env)))
                   None))
          (cookies (cleared_res cookie)
           ++ [Cookie "express_jwt"
                 (jwt_sign_session e role REFRESH_TOKEN_SECRET span_7d
                    (Date_now env))
                 maxAge_7d]))).
Proof.
  intros Hm Hu Hpw Hs Hfit.
  rewrite login_run, Hm, Hu, Hpw, Hs.
  rewrite (find_email_eq _ _ _ _ Hu), String.eqb_refl.
  change span_7d with 604800. now rewrite Hfit.
Qed.


(** X3: a login with the right password of a suspended principal throws
    the 403 "Your account is suspended" error; no response is sent, no
    token is issued and the store is left as it was. *)
Theorem login_suspended_403 :
  forall (d : Db) (cookie : option Jwt) (e pw role : string) (device : Device)
         (env : Env) (m : Model) (user : Principal),
    model_of_role role = Some m ->
    findUnique_email m e d = Some user ->
    bcrypt_compare pw (password user) = true ->
    is_suspended user = true ->
    outcome (login bcrypt_compare cookie e pw role device env) d
    = Thrown (HttpError 403 "Your account is suspended")
    /\ response (login bcrypt_compare cookie e pw role device env) d = None
    /\ issued_refresh (login bcrypt_compare cookie e pw role device env) d = []
    /\ store_after (login bcrypt_compare cookie e pw role device env) d = d.
Proof.
  intros d cookie e pw role device env m user Hm Hu Hpw Hs.
  unfold outcome, response, issued_refresh, cookies_after, store_after.
  rewrite login_run, Hm, Hu, Hpw, Hs.
  rewrite (find_email_eq _ _ _ _ Hu), String.eqb_refl.
  cbn. unfold cleared_res. destruct (express_jwt cookie); repeat split.
Qed.

(** X4: the refresh cookie [login] sets is accepted by [refreshAuthToken]
    until seven days have passed and refused from then on: on the store
    the login leaves, a refresh with that cookie is answered 200 with a
    two-minute access token before the token's expiry, provided the
    rotated expiry fits the [Int] column, and 403 Forbidden at or after
    it. *)
Theorem login_cookie_refreshes_for_seven_days :
  forall (d : Db) (cookie : option Jwt) (e pw role : string) (device : Device)
         (env env' : Env) (m : Model) (user : Principal),
    model_of_role role = Some m ->
    findUnique_email m e d = Some user ->
    bcrypt_compare pw (password user) = true ->
    is_suspended user = false ->
    int4 (seconds (Date_now env) + 604800) = true ->
    let d' := store_after (login bcrypt_compare cookie e pw role device env) d in
    let refreshToken :=
      SessionToken REFRESH_TOKEN_SECRET e role (seconds (Date_now env))
        (seconds (Date_now env) + 604800) in
    (seconds (Date_now env') < seconds (Date_now env) + 604800 ->
     int4 (seconds (Date_now env') + 604800) = true ->
     response (refreshAuthToken (Some refreshToken) env') d'
     = Some (200,
             mkBody None
               (Some (SessionToken ACCESS_TOKEN_SECRET e role
                        (seconds (Date_now env'))
                        (seconds (Date_now env') + 120)))
               None))
    /\ (seconds (Date_now env) + 604800 <= seconds (Date_now env') ->
        response (refreshAuthToken (Some refreshToken) env') d'
        = Some (403, msg "Forbidden")).
Proof.
  intros d cookie e pw role device env env' m user Hm Hu Hpw Hs Hfit d'
    refreshToken.
  pose proof (login_run_ok cookie e pw role device env d m user Hm Hu Hpw Hs Hfit)
    as Hrun.
  assert (Hd' : d' = add_session m (id user) refreshToken
                       (seconds (Date_now env) + span_7d) (deviceWithModel device) d).
  { unfold d', store_after. now rewrite Hrun. }
  assert (Hrows : exists r rest,
             findMany_refresh_token refreshToken d' = (r :: rest)%list).
  { unfold findMany_refresh_token. rewrite Hd', personal_tokens_add_session.
    rewrite filter_app. cbn [filter refresh_token].
    replace (Jwt_eqb refreshToken refreshToken) with true
      by (symmetry; now apply Jwt_eqb_eq).
    destruct (filter _ (personal_tokens d)) as [|r rest]; cbn; eauto. }
  destruct Hrows as [r [rest Hrows]].
  assert (Hlook : lookup_role role e d' = Some (m, user)).
  { unfold lookup_role, findUnique_email in *. rewrite Hm, Hd', table_add_session.
    now rewrite Hu. }
  unfold response. rewrite refreshAuthToken_run.
  change (express_jwt (Some refreshToken)) with (Some refreshToken).
  cbv beta iota. rewrite Hrows.
  unfold jwt_verify_session, refreshToken. cbn [Secret_eqb andb].
  split; [intros Ht Hfit' | intro Ht].
  - replace (seconds (Date_now env) + 604800 <=? seconds (Date_now env'))
      with false by (symmetry; apply Z.leb_gt; exact Ht).
    cbn [negb]. rewrite Hlook. change span_7d with 604800. now rewrite Hfit'.
  - replace (seconds (Date_now env) + 604800 <=? seconds (Date_now env'))
      with true by (symmetry; apply Z.leb_le; exact Ht).
    reflexivity.
Qed.

(** X29: the session table keeps the expiry in an [Int] column.  A login
    with the right password of a principal that is not suspended, at a
    time when the seven-day expiry does not fit that column, throws
    Prisma's value-out-of-range error: no response is sent, no token is
    issued and the rows of every table are those of before. *)
Theorem login_expiry_out_of_range_throws :
  forall (d : Db) (cookie : option Jwt) (e pw role : string) (device : Device)
         (env : Env) (m : Model) (user : Principal),
    model_of_role role = Some m ->
    findUnique_email m e d = Some user ->
    bcrypt_compare pw (password user) = true ->
    is_suspended user = false ->
    int4 (seconds (Date_now env) + 604800) = false ->
    let d' := store_after (login bcrypt_compare cookie e pw role device env) d in
    outcome (login bcrypt_compare cookie e pw role device env) d
    = Thrown ValueOutOfRange
    /\ response (login bcrypt_compare cookie e pw role device env) d = None
    /\ issued_refresh (login bcrypt_compare cookie e pw role device env) d = []
    /\ personal_tokens d' = personal_tokens d
    /\ verification_tokens d' = verification_tokens d
    /\ forall m', table m' d' = table m' d.
Proof.
  intros d cookie e pw role device env m user Hm Hu Hpw Hs Hfit d'.
  unfold d', outcome, response, issued_refresh, cookies_after, store_after.
  rewrite login_run, Hm, Hu, Hpw, Hs.
  rewrite (find_email_eq _ _ _ _ Hu), String.eqb_refl.
  change span_7d with 604800. rewrite Hfit.
  cbn. unfold cleared_res. destruct (express_jwt cookie); repeat split.
Qed.

End LoginProperties.

Section RegisterProperties.

Variable bcrypt_hash : string -> Z -> string.
Variable assignRole : Z -> string -> Db -> bool.

(** X5: a registration with an email no admin has, when the role is
    assigned, the mail goes out and the seven-day expiry fits the [Int]
    column of the session table, answers 201 "Account created" with a
    one-day access token and sets the refresh cookie.  It appends one admin
    (the password hashed with cost 12, not verified, not suspended), one
    [EMAIL] code of that admin that expires at the same local time on the
    next calendar day (24 hours later less the change of the zone's UTC
    offset), and one session of that admin holding the cookie's token;
    teachers and students are left as they were. *)
Theorem register_creates_account_code_and_session :
  forall (d : Db) (data : RegisterData) (device : Device) (env : Env),
    findUnique_email Admins (r_email data) d = None ->
    assignRole (seq_admins d) "admin" (add_admin bcrypt_hash data d) = true ->
    sendMail_ok env = true ->
    int4 (seconds (Date_now env) + 604800) = true ->
    let d' := store_after (register bcrypt_hash assignRole data device env) d in
    let refreshToken :=
      SessionToken REFRESH_TOKEN_SECRET (r_email data) "admin"
        (seconds (Date_now env)) (seconds (Date_now env) + 604800) in
    response (register bcrypt_hash assignRole data device env) d
    = Some (201,
            mkBody (Some "Account created")
              (Some (SessionToken ACCESS_TOKEN_SECRET (r_email data) "admin"
                       (seconds (Date_now env))
                       (seconds (Date_now env) + 86400)))
              None)
    /\ issued_refresh (register bcrypt_hash assignRole data device env) d
       = [refreshToken]
    /\ admins d'
       = (admins d
          ++ [mkPrincipal (seq_admins d) (r_name data) (r_email data)
                (bcrypt_hash (r_password data) 12) None false
                (Some (r_school data))])%list
    /\ verification_tokens d'
       = (verification_tokens d
          ++ [mkVerificationToken (seq_verification_tokens d)
                (Some (seq_admins d)) None None (10000000 + Math_random env)
                (uuidv4 env) EMAIL
                (Date_now env + 86400000 - zone_shift env)])%list
    /\ personal_tokens d'
       = (personal_tokens d
          ++ [mkPersonalToken (seq_personal_tokens d) (Some (seq_admins d))
                None None (Some (deviceWithModel device)) refreshToken
                (seconds (Date_now env) + 604800)])%list
    /\ teachers d' = teachers d
    /\ students d' = students d.
Proof.
  intros d data device env Hfree Hrole Hmail Hfit d' refreshToken.
  unfold d', response, issued_refresh, cookies_after, store_after.
  rewrite register_run, Hfree, Hrole, Hmail.
  change span_7d with 604800. rewrite Hfit.
  cbn [snd db res sent cookies]. repeat split.
Qed.

(** X6: a registration that throws leaves nothing behind: no response and
    no cookie are sent and the rows of all five tables are those of before,
    whether the cause is the email being taken (the unique-constraint
    error), the role assignment or the mail transport. *)
Theorem register_failure_leaves_no_rows :
  forall (d : Db) (data : RegisterData) (device : Device) (env : Env) (err : Error),
    outcome (register bcrypt_hash assignRole data device env) d = Thrown err ->
    let d' := store_after (register bcrypt_hash assignRole data device env) d in
    response (register bcrypt_hash assignRole data device env) d = None
    /\ cookies_after (register bcrypt_hash assignRole data device env) d = []
    /\ (forall m, table m d' = table m d)
    /\ personal_tokens d' = personal_tokens d
    /\ verification_tokens d' = verification_tokens d
    /\ (findUnique_email Admins (r_email data) d <> None ->
        err = UniqueConstraintFailed).
Proof.
  intros d data device env err.
  unfold outcome, response, cookies_after, store_after.
  rewrite register_run.
  destruct (findUnique_email Admins (r_email data) d) as [taken|].
  - cbn. intro H. injection H as <-.
    repeat split; try reflexivity; try (now intros []).
  - destruct (assignRole _ _ _).
    + destruct (sendMail_ok env);
        [destruct (int4 (seconds (Date_now env) + span_7d))|];
        cbn; intro H; try discriminate;
        repeat split; try reflexivity; try congruence; try (now intros []).
    + cbn. intro H.
      repeat split; try reflexivity; try congruence; try (now intros []).
Qed.

End RegisterProperties.

(** ** Further properties: logout and refresh *)

Lemma findMany_after_delete (t : Jwt) (d : Db) :
  findMany_refresh_token t
    (set_personal_tokens
       (filter (fun r => negb (Jwt_eqb (refresh_token r) t)) (personal_tokens d)) d)
  = [].
Proof.
  unfold findMany_refresh_token. cbn [personal_tokens set_personal_tokens].
  induction (personal_tokens d) as [|r l IH]; [reflexivity|].
  cbn [filter]. destruct (Jwt_eqb (refresh_token r) t) eqn:Hr; cbn [negb filter].
  - exact IH.
  - rewrite Hr. exact IH.
Qed.

(** X7: a logout with a cookie answers 200 "You are now logged out",
    clears the cookie and deletes exactly the session rows that hold the
    cookie's token; principals and codes are untouched.  A refresh with the
    same cookie afterwards is answered 403 Forbidden. *)
Theorem logout_deletes_the_session :
  forall (d : Db) (cookie : option Jwt) (t : Jwt) (env : Env),
    express_jwt cookie = Some t ->
    let d' := store_after (logout cookie) d in
    response (logout cookie) d = Some (200, msg "You are now logged out")
    /\ cookies_after (logout cookie) d = [ClearCookie "express_jwt"]
    /\ personal_tokens d'
       = filter (fun r => negb (Jwt_eqb (refresh_token r) t)) (personal_tokens d)
    /\ (forall r, In r (personal_tokens d') -> refresh_token r <> t)
    /\ verification_tokens d' = verification_tokens d
    /\ (forall m, table m d' = table m d)
    /\ response (refreshAuthToken cookie env) d' = Some (403, msg "Forbidden").
Proof.
  intros d cookie t env Hc d'.
  assert (Hd' : d' = set_personal_tokens
                       (filter (fun r => negb (Jwt_eqb (refresh_token r) t))
                          (personal_tokens d)) d).
  { unfold d', store_after. now rewrite logout_run, Hc. }
  unfold response, cookies_after. rewrite logout_run, Hc.
  cbn [snd res sent cookies].
  split; [reflexivity|]. split; [reflexivity|].
  split; [now rewrite Hd'|].
  split.
  { intros r Hin Heq. rewrite Hd' in Hin. cbn in Hin.
    apply filter_In in Hin as [_ Hno]. apply negb_true_iff in Hno.
    apply Jwt_eqb_eq in Heq. congruence. }
  split; [now rewrite Hd'|].
  split; [intro m; rewrite Hd'; now destruct m|].
  rewrite refreshAuthToken_run, Hc, Hd', findMany_after_delete.
  now destruct (jwt_verify_session t REFRESH_TOKEN_SECRET (Date_now env))
    as [[e role]|].
Qed.

(** X8: without the [express_jwt] cookie (absent, or the empty string)
    refresh, logout and logout-all answer 401 "Unauthorized", touch no
    cookie and leave the store as it was. *)
Theorem no_cookie_is_unauthorized :
  forall (d : Db) (cookie : option Jwt) (user : AuthUser) (env : Env),
    express_jwt cookie = None ->
    run (refreshAuthToken cookie env) d
    = (Returned tt, mkWorld d (mkRes 401 (Some (401, msg "Unauthorized")) []))
    /\ run (logout cookie) d
       = (Returned tt, mkWorld d (mkRes 401 (Some (401, msg "Unauthorized")) []))
    /\ run (logoutAll cookie user) d
       = (Returned tt, mkWorld d (mkRes 401 (Some (401, msg "Unauthorized")) [])).
Proof.
  intros d cookie user env Hc.
  rewrite refreshAuthToken_run, logout_run, logoutAll_run, Hc.
  repeat split.
Qed.

(** X9: a logout-all with a cookie, for a requester found in the table of
    its role, answers 200 "All devices are logged out", clears the cookie
    and deletes every session row of that principal, whatever token the
    cookie holds; the rows of the other principals, the codes and the
    principals are left as they were. *)
Theorem logoutAll_deletes_every_session :
  forall (d : Db) (cookie : option Jwt) (t : Jwt) (user : AuthUser)
         (m : Model) (found : Principal),
    express_jwt cookie = Some t ->
    model_of_role (u_role user) = Some m ->
    findUnique_email m (u_email user) d = Some found ->
    let d' := store_after (logoutAll cookie user) d in
    response (logoutAll cookie user) d
    = Some (200, msg "All devices are logged out")
    /\ cookies_after (logoutAll cookie user) d = [ClearCookie "express_jwt"]
    /\ personal_tokens d'
       = filter (fun r => negb (pt_owned_by m (id found) r)) (personal_tokens d)
    /\ (forall r, In r (personal_tokens d') -> pt_owner m r <> Some (id found))
    /\ (forall r, In r (personal_tokens d) ->
                  pt_owner m r <> Some (id found) -> In r (personal_tokens d'))
    /\ verification_tokens d' = verification_tokens d
    /\ (forall m', table m' d' = table m' d).
Proof.
  intros d cookie t user m found Hc Hm Hu d'.
  assert (Hd' : d' = set_personal_tokens
                       (filter (fun r => negb (pt_owned_by m (id found) r))
                          (personal_tokens d)) d).
  { unfold d', store_after. now rewrite logoutAll_run, Hc, Hm, Hu. }
  unfold response, cookies_after. rewrite logoutAll_run, Hc, Hm, Hu.
  cbn [snd res sent cookies].
  split; [reflexivity|]. split; [reflexivity|].
  split; [now rewrite Hd'|].
  split; [|split].
  - intros r Hin Hown. rewrite Hd' in Hin. cbn in Hin.
    apply filter_In in Hin as [_ Hno]. unfold pt_owned_by in Hno.
    rewrite Hown in Hno. cbn in Hno. now rewrite Z.eqb_refl in Hno.
  - intros r Hin Hother. rewrite Hd'. cbn. apply filter_In.
    split; [assumption|]. apply negb_true_iff. unfold pt_owned_by.
    destruct (option_eqb Z.eqb (pt_owner m r) (Some (id found))) eqn:Heq;
      [|reflexivity].
    now apply option_eqb_Z_eq in Heq.
  - split; [now rewrite Hd'|]. intro m'. rewrite Hd'. now destruct m'.
Qed.

(** X10: a logout-all for a requester whose role names a table that holds
    no principal with its email throws a [TypeError] (it reads [user.id] of
    the missing row): no response is sent, the cookie is not cleared and
    the store is left as it was. *)
Theorem logoutAll_unknown_requester_throws_TypeError :
  forall (d : Db) (cookie : option Jwt) (t : Jwt) (user : AuthUser) (m : Model),
    express_jwt cookie = Some t ->
    model_of_role (u_role user) = Some m ->
    findUnique_email m (u_email user) d = None ->
    run (logoutAll cookie user) d = (Thrown TypeError, mkWorld d fresh_res).
Proof.
  intros d cookie t user m Hc Hm Hu.
  now rewrite logoutAll_run, Hc, Hm, Hu.
Qed.

(** X11: a refresh whose token matches a stored row but does not verify
    (expired, or not signed with the refresh secret) is answered 403
    Forbidden with the cookie cleared, and the store is left as it was: the
    stale row stays. *)
Theorem refresh_unverifiable_stored_token_forbidden :
  forall (d : Db) (cookie : option Jwt) (t : Jwt) (env : Env),
    express_jwt cookie = Some t ->
    findMany_refresh_token t d <> [] ->
    jwt_verify_session t REFRESH_TOKEN_SECRET (Date_now env) = None ->
    run (refreshAuthToken cookie env) d
    = (Returned tt,
       mkWorld d (mkRes 403 (Some (403, msg "Forbidden")) [ClearCookie "express_jwt"])).
Proof.
  intros d cookie t env Hc Hrows Hv.
  rewrite refreshAuthToken_run, Hc, Hv.
  now destruct (findMany_refresh_token t d).
Qed.

Lemma lookup_role_rotated (t : Jwt) (e role : string) (env : Env) (d : Db)
    (role' e' : string) :
  lookup_role role' e' (rotated t e role env d) = lookup_role role' e' d.
Proof.
  unfold lookup_role, findUnique_email.
  destruct (model_of_role role') as [m|]; [|reflexivity].
  now replace (table m (rotated t e role env d)) with (table m d) by (now destruct m).
Qed.

Lemma findMany_after_rotation (t nt : Jwt) (exp : Z) (l : list PersonalToken) :
  nt <> t ->
  filter (fun r => Jwt_eqb (refresh_token r) t) (map (rotate_row t nt exp) l) = [].
Proof.
  intro Hne. induction l as [|r l IH]; [reflexivity|].
  cbn [map filter]. unfold rotate_row at 1.
  destruct (Jwt_eqb (refresh_token r) t) eqn:Hr.
  - cbn [refresh_token].
    destruct (Jwt_eqb nt t) eqn:Hnt; [apply Jwt_eqb_eq in Hnt; contradiction|].
    exact IH.
  - rewrite Hr. exact IH.
Qed.

(** X12: replaying a rotated-out token logs the principal out everywhere.
    In a well-formed store, after a refresh with [t], at a time when the
    rotated expiry fits the [Int] column, has rotated the session to a
    different token, a second refresh with the same [t], while [t] still
    verifies, is answered 403 Forbidden and leaves no session row of the
    principal, the freshly rotated one included. *)
Theorem replay_after_rotation_revokes_all :
  forall (d : Db) (cookie : option Jwt) (t : Jwt) (env env' : Env)
         (e role : string) (m : Model) (p : Principal),
    store_wf d = true ->
    express_jwt cookie = Some t ->
    findMany_refresh_token t d <> [] ->
    jwt_verify_session t REFRESH_TOKEN_SECRET (Date_now env) = Some (e, role) ->
    int4 (seconds (Date_now env) + 604800) = true ->
    jwt_sign_session e role REFRESH_TOKEN_SECRET 604800 (Date_now env) <> t ->
    jwt_verify_session t REFRESH_TOKEN_SECRET (Date_now env') = Some (e, role) ->
    lookup_role role e d = Some (m, p) ->
    let d1 := store_after (refreshAuthToken cookie env) d in
    let d2 := store_after (refreshAuthToken cookie env') d1 in
    findMany_refresh_token t d1 = []
    /\ response (refreshAuthToken cookie env') d1 = Some (403, msg "Forbidden")
    /\ forall r, In r (personal_tokens d2) -> pt_owner m r <> Some (id p).
Proof.
  intros d cookie t env env' e role m p Hwf Hc Hrows Hv Hfit Hne Hv' Hlook d1 d2.
  assert (Hd1 : d1 = rotated t e role env d).
  { unfold d1, store_after. rewrite refreshAuthToken_run, Hc, Hv, Hlook.
    change span_7d with 604800. rewrite Hfit.
    now destruct (findMany_refresh_token t d). }
  assert (Hnone : findMany_refresh_token t d1 = []).
  { rewrite Hd1. unfold findMany_refresh_token, rotated.
    cbn [personal_tokens set_personal_tokens].
    now apply findMany_after_rotation. }
  assert (Hrun2 : run (refreshAuthToken cookie env') d1
                  = (Returned tt, mkWorld (revoked role e d1) forbidden_res)).
  { now rewrite refreshAuthToken_run, Hc, Hnone, Hv'. }
  split; [assumption|].
  unfold response. rewrite Hrun2. split; [reflexivity|].
  intros r Hin Hown. unfold d2, store_after in Hin. rewrite Hrun2 in Hin.
  cbn [snd db] in Hin. unfold revoked in Hin.
  rewrite Hd1, lookup_role_rotated, Hlook in Hin. cbn in Hin.
  apply filter_In in Hin as [_ Hno]. unfold pt_owned_by in Hno.
  rewrite Hown in Hno. cbn in Hno. now rewrite Z.eqb_refl in Hno.
Qed.

Lemma rotate_row_same (t : Jwt) (exp : Z) (r : PersonalToken) :
  (refresh_token r = t -> pt_expires_at r = exp) ->
  rotate_row t t exp r = r.
Proof.
  intro H. unfold rotate_row.
  destruct (Jwt_eqb (refresh_token r) t) eqn:Hr; [|reflexivity].
  apply Jwt_eqb_eq in Hr. rewrite <- (H Hr), <- Hr. now destruct r.
Qed.

(** X13: rotation signs the new refresh token from the same
    [{email, role}] and the clock in seconds, so a refresh within the
    second in which the presented seven-day token was signed issues that
    very token again: in a well-formed store the cookie set is the token
    presented and the store is left as it was. *)
Theorem refresh_in_the_signing_second_keeps_the_token :
  forall (d : Db) (cookie : option Jwt) (t : Jwt) (env : Env) (e role : string),
    store_wf d = true ->
    express_jwt cookie = Some t ->
    findMany_refresh_token t d <> [] ->
    t = jwt_sign_session e role REFRESH_TOKEN_SECRET 604800 (Date_now env) ->
    response (refreshAuthToken cookie env) d
    = Some (200,
            mkBody None
              (Some (SessionToken ACCESS_TOKEN_SECRET e role
                       (seconds (Date_now env)) (seconds (Date_now env) + 120)))
              None)
    /\ issued_refresh (refreshAuthToken cookie env) d = [t]
    /\ store_after (refreshAuthToken cookie env) d = d.
Proof.
  intros d cookie t env e role Hwf Hc Hrows Ht.
  assert (Hv : jwt_verify_session t REFRESH_TOKEN_SECRET (Date_now env)
               = Some (e, role)).
  { rewrite Ht. unfold jwt_verify_session, jwt_sign_session. cbn [Secret_eqb andb].
    replace (seconds (Date_now env) + 604800 <=? seconds (Date_now env))
      with false by (symmetry; apply Z.leb_gt; lia).
    reflexivity. }
  destruct (findMany_refresh_token t d) as [|r0 rest] eqn:Hf; [congruence|].
  assert (Hin0 : In r0 (personal_tokens d) /\ refresh_token r0 = t).
  { assert (H : In r0 (findMany_refresh_token t d)) by (rewrite Hf; now left).
    unfold findMany_refresh_token in H. apply filter_In in H as [H1 H2].
    split; [assumption | now apply Jwt_eqb_eq]. }
  destruct Hin0 as [Hin0 Htok0].
  destruct (session_owner d r0 e role (seconds (Date_now env))
              (seconds (Date_now env) + 604800) Hwf Hin0) as [m [p [Hlook _]]];
    [now rewrite Htok0, Ht|].
  assert (Hrun : run (refreshAuthToken cookie env) d
                 = (Returned tt,
                    mkWorld (rotated t e role env d)
                      (mkRes 200
                         (Some (200,
                                mkBody None
                                  (Some (jwt_sign_session e role ACCESS_TOKEN_SECRET
                                           span_2m (Date_now env)))
                                  None))
                         [ClearCookie "express_jwt";
                          Cookie "express_jwt"
                            (jwt_sign_session e role REFRESH_TOKEN_SECRET span_7d
                               (Date_now env))
                            maxAge_7d]))).
  { assert (Hfit : int4 (seconds (Date_now env) + 604800) = true).
    { pose proof Hwf as Hwf0. apply store_wf_iff in Hwf0 as [_ Hok].
      specialize (Hok r0 Hin0). unfold session_ok in Hok.
      rewrite Htok0, Ht in Hok. unfold jwt_sign_session in Hok.
      apply andb_true_iff in Hok as [Hok _].
      apply andb_true_iff in Hok as [Hexp Hrange].
      apply Z.eqb_eq in Hexp. now rewrite Hexp in Hrange. }
    rewrite refreshAuthToken_run, Hc, Hf, Hv, Hlook.
    change span_7d with 604800. now rewrite Hfit. }
  unfold response, issued_refresh, cookies_after, store_after. rewrite Hrun.
  cbn [snd db res sent cookies].
  split; [reflexivity|]. split; [now rewrite Ht|].
  unfold rotated.
  change (jwt_sign_session e role REFRESH_TOKEN_SECRET span_7d (Date_now env))
    with (jwt_sign_session e role REFRESH_TOKEN_SECRET 604800 (Date_now env)).
  rewrite <- Ht.
  replace (map _ (personal_tokens d)) with (personal_tokens d);
    [now destruct d|].
  symmetry. rewrite <- (map_id (personal_tokens d)) at 2.
  apply map_ext_in. intros r Hin. apply rotate_row_same. intro Hr.
  apply store_wf_iff in Hwf as [_ Hok]. specialize (Hok r Hin).
  apply session_ok_expiry in Hok. rewrite Hr, Ht in Hok. cbn in Hok.
  now injection Hok as <-.
Qed.

(** ** Further properties: codes and password reset *)

(** X14: a [{token, code}] pair that matches no stored row is a soft
    failure in both verification handlers: [verifyEmail] and
    [verifyResetCode] answer 200 "Invalid Code", carry no token and leave
    the store as it was. *)
Theorem unmatched_code_is_a_soft_failure :
  forall (d : Db) (tok : string) (c : Z) (user : AuthUser) (env : Env),
    findFirst_token_code tok c d = None ->
    run (verifyEmail tok c user env) d
    = (Returned tt, mkWorld d (mkRes 200 (Some (200, msg "Invalid Code")) []))
    /\ run (verifyResetCode tok c env) d
       = (Returned tt, mkWorld d (mkRes 200 (Some (200, msg "Invalid Code")) [])).
Proof.
  intros d tok c user env Hnone.
  rewrite verifyEmail_run, verifyResetCode_run, Hnone. split; reflexivity.
Qed.

(** X15: [verifyEmail] by a requester that the table of its role does not
    hold throws the record-not-found error of the update: although the
    pair matched, no response is sent and the store is left as it was. *)
Theorem verifyEmail_missing_requester_throws :
  forall (d : Db) (tok : string) (c : Z) (row : VerificationToken)
         (user : AuthUser) (m : Model) (env : Env),
    findFirst_token_code tok c d = Some row ->
    model_of_role (u_role user) = Some m ->
    findUnique_email m (u_email user) d = None ->
    run (verifyEmail tok c user env) d = (Thrown RecordNotFound, mkWorld d fresh_res).
Proof.
  intros d tok c row user m env Hrow Hm Hu.
  rewrite verifyEmail_run, Hrow, Hm.
  unfold findUnique_email in Hu. now rewrite (update_first_none _ _ _ Hu).
Qed.

Section ResetProperties.

Variable bcrypt_hash : string -> Z -> string.

Lemma updatePassword_run_forbidden (header : option Authorization) (pw : string)
    (env : Env) (d : Db) :
  (forall h, header = Some h -> scheme h = "Bearer" ->
             jwt_verify_reset (credentials h) (Date_now env) = None) ->
  run (updatePassword bcrypt_hash header pw env) d
  = (Returned tt, mkWorld d (mkRes 403 (Some (403, msg "Forbidden")) [])).
Proof.
  intro H. unfold run, updatePassword.
  destruct header as [h|]; [|reflexivity].
  destruct (String.eqb (scheme h) "Bearer") eqn:Hs; [|reflexivity].
  apply String.eqb_eq in Hs. now rewrite (H h eq_refl Hs).
Qed.

(** X16: [updatePassword] answers 403 Forbidden and leaves the store as
    it was when the [Authorization] header is missing, when its scheme is
    not [Bearer], and when its credentials do not verify as a reset token
    (expired, forged, or a session token). *)
Theorem updatePassword_requires_a_valid_reset_token :
  forall (d : Db) (header : option Authorization) (pw : string) (env : Env),
    (forall h, header = Some h -> scheme h = "Bearer" ->
               jwt_verify_reset (credentials h) (Date_now env) = None) ->
    response (updatePassword bcrypt_hash header pw env) d
    = Some (403, msg "Forbidden")
    /\ store_after (updatePassword bcrypt_hash header pw env) d = d.
Proof.
  intros d header pw env H. unfold response, store_after.
  now rewrite (updatePassword_run_forbidden header pw env d H).
Qed.

(** X17: [updatePassword] with a reset token that verifies but names no
    principal of its role answers 404 "User not found", and the store is
    left as it was. *)
Theorem updatePassword_unknown_principal_404 :
  forall (d : Db) (h : Authorization) (pw : string) (env : Env)
         (m : Model) (role : string) (uid : Z),
    scheme h = "Bearer" ->
    jwt_verify_reset (credentials h) (Date_now env) = Some (Some uid, Some role) ->
    model_of_role role = Some m ->
    findUnique_id m uid d = None ->
    response (updatePassword bcrypt_hash (Some h) pw env) d
    = Some (404, msg "User not found")
    /\ store_after (updatePassword bcrypt_hash (Some h) pw env) d = d.
Proof.
  intros d h pw env m role uid Hs Hv Hm Hu.
  unfold response, store_after, run, updatePassword.
  rewrite Hs, Hv. rewrite String.eqb_refl.
  unfold detached, updatePassword_tx, transaction, bind. cbn.
  rewrite Hm, Hu. split; reflexivity.
Qed.

Lemma password_updated_find_id (m : Model) (uid : Z) (user : Principal)
    (pw : string) (d : Db) :
  store_wf d = true ->
  findUnique_id m uid d = Some user ->
  findUnique_id m uid (password_updated bcrypt_hash m user pw d)
  = Some (set_password (bcrypt_hash pw 12) user).
Proof.
  intros Hwf Hu.
  destruct (find_id_in _ _ _ _ Hu) as [Hin _].
  assert (Hparent : findUnique_email m (email user) d = Some user).
  { unfold findUnique_email. apply unique_find_email; [|assumption].
    now apply store_wf_iff in Hwf as [He _]. }
  pose proof Hparent as Hp'. unfold findUnique_email in Hp'.
  destruct (update_first_some _ (set_password (bcrypt_hash pw 12)) _ _ Hp')
    as [l Hl].
  unfold password_updated. rewrite Hparent, Hl.
  unfold findUnique_id in *.
  replace (table m (set_verification_tokens _ _)) with l.
  - apply (find_id_update_first uid user _ (table m d)); try assumption.
    reflexivity.
  - symmetry.
    replace (table m (set_verification_tokens _ _))
      with (table m (set_table m l (set_personal_tokens
              (filter (fun r => negb (pt_owned_by m (id user) r))
                 (personal_tokens d)) d))) by (now destruct m).
    rewrite table_set_table. now replace (Model_eqb m m) with true by now destruct m.
Qed.

(** X18: the reset token [verifyResetCode] hands out authorises one thing
    for four minutes.  For a matched code of an existing principal in a
    well-formed store, [updatePassword] with that token as Bearer
    credentials, while fewer than 240 seconds have passed, leaves as the
    principal's row the same row with [bcrypt.hash(password, 12)] of the
    new password as [password]; from then on it answers 403 Forbidden and
    changes nothing. *)
Theorem reset_token_is_good_for_four_minutes :
  forall (d : Db) (tok : string) (c : Z) (row : VerificationToken)
         (env env' : Env) (uid : Z) (role : string) (m : Model)
         (user : Principal) (pw : string),
    store_wf d = true ->
    findFirst_token_code tok c d = Some row ->
    reset_subject row = (Some uid, Some role) ->
    model_of_role role = Some m ->
    findUnique_id m uid d = Some user ->
    exists resetToken,
      response (verifyResetCode tok c env) d
      = Some (200, mkBody (Some "Verification successful") None (Some resetToken))
      /\ store_after (verifyResetCode tok c env) d = d
      /\ (seconds (Date_now env') < seconds (Date_now env) + 240 ->
          response
            (updatePassword bcrypt_hash (Some (mkAuthorization "Bearer" resetToken))
               pw env') d
          = Some (200, msg "Password has been updated")
          /\ findUnique_id m uid
               (store_after
                  (updatePassword bcrypt_hash
                     (Some (mkAuthorization "Bearer" resetToken)) pw env') d)
             = Some (mkPrincipal (id user) (name user) (email user)
                       (bcrypt_hash pw 12) (email_verified_at user)
                       (is_suspended user) (school user)))
      /\ (seconds (Date_now env) + 240 <= seconds (Date_now env') ->
          response
            (updatePassword bcrypt_hash (Some (mkAuthorization "Bearer" resetToken))
               pw env') d
          = Some (403, msg "Forbidden")
          /\ store_after
               (updatePassword bcrypt_hash
                  (Some (mkAuthorization "Bearer" resetToken)) pw env') d
             = d).
Proof.
  intros d tok c row env env' uid role m user pw Hwf Hrow Hsub Hm Hu.
  exists (ResetToken (Some uid) (Some role) (seconds (Date_now env))
            (seconds (Date_now env) + 240)).
  unfold response at 1, store_after at 1.
  rewrite verifyResetCode_run, Hrow, Hsub.
  split; [reflexivity|]. split; [reflexivity|].
  split; intro Ht.
  - assert (Hv : jwt_verify_reset
                   (credentials
                      (mkAuthorization "Bearer"
                         (ResetToken (Some uid) (Some role) (seconds (Date_now env))
                            (seconds (Date_now env) + 240))))
                   (Date_now env') = Some (Some uid, Some role)).
    { cbn [credentials]. unfold jwt_verify_reset.
      replace (seconds (Date_now env) + 240 <=? seconds (Date_now env'))
        with false by (symmetry; apply Z.leb_gt; exact Ht).
      reflexivity. }
    unfold response, store_after.
    rewrite (updatePassword_run_found bcrypt_hash
               (mkAuthorization "Bearer"
                  (ResetToken (Some uid) (Some role) (seconds (Date_now env))
                     (seconds (Date_now env) + 240)))
               pw env' d m role uid user eq_refl Hv Hm Hu).
    split; [reflexivity|]. cbn [snd db].
    now rewrite (password_updated_find_id m uid user pw d Hwf Hu).
  - unfold response, store_after.
    rewrite updatePassword_run_forbidden; [split; reflexivity|].
    intros h Hh _. injection Hh as <-. cbn [credentials].
    unfold jwt_verify_reset.
    replace (seconds (Date_now env) + 240 <=? seconds (Date_now env'))
      with true by (symmetry; apply Z.leb_le; exact Ht).
    reflexivity.
Qed.

End ResetProperties.

(** ** Further properties: resend *)

(** X19: [resendEmail] looks the requester up among the admins only.  For
    an unverified requester whose email no admin has, whatever its role and
    whether or not the table of its role holds it, the handler throws the
    record-not-found error: no response is sent, no code is issued and the
    store is left as it was. *)
Theorem resendEmail_only_serves_admins :
  forall (d : Db) (user : AuthUser) (env : Env),
    u_email_verified_at user = None ->
    findUnique_email Admins (u_email user) d = None ->
    run (resendEmail user env) d = (Thrown RecordNotFound, mkWorld d fresh_res).
Proof.
  intros d user env Hat Hnone. now rewrite resendEmail_run, Hat, Hnone.
Qed.

(** X20: when the mail transport rejects, a resend is undone as a whole:
    the handler throws, no response is sent, and the rows of all tables are
    those of before, so the codes issued earlier stay valid. *)
Theorem resendEmail_mail_failure_keeps_old_codes :
  forall (d : Db) (user : AuthUser) (env : Env) (parent : Principal),
    u_email_verified_at user = None ->
    findUnique_email Admins (u_email user) d = Some parent ->
    sendMail_ok env = false ->
    let d' := store_after (resendEmail user env) d in
    outcome (resendEmail user env) d = Thrown (ExternalError "sendMail")
    /\ response (resendEmail user env) d = None
    /\ verification_tokens d' = verification_tokens d
    /\ personal_tokens d' = personal_tokens d
    /\ forall m, table m d' = table m d.
Proof.
  intros d user env parent Hat Hp Hmail d'.
  unfold d', outcome, response, store_after.
  rewrite resendEmail_run, Hat, Hp, Hmail. cbn.
  repeat split.
Qed.

(** ** The class controller *)

Lemma distinct_NoDup {A : Type} (eqb : A -> A -> bool) (l : list A) :
  (forall x y, eqb x y = true <-> x = y) ->
  distinct eqb l = true <-> NoDup l.
Proof.
  intro Heqb. induction l as [|x l IH]; simpl.
  - split; [constructor | reflexivity].
  - rewrite andb_true_iff, negb_true_iff, IH. split.
    + intros [Hx Hl]. constructor; [|assumption].
      intro Hin. assert (existsb (eqb x) l = true); [|congruence].
      apply existsb_exists. exists x. split; [assumption | now apply Heqb].
    + intro H. inversion H as [|? ? Hx Hl]; subst. split; [|assumption].
      destruct (existsb (eqb x) l) eqn:He; [|reflexivity].
      apply existsb_exists in He as [y [Hin Hy]]. apply Heqb in Hy. now subst.
Qed.

Lemma NoDup_map_filter {A B : Type} (f : A -> B) (g : A -> bool) (l : list A) :
  NoDup (map f l) -> NoDup (map f (filter g l)).
Proof.
  induction l as [|x l IH]; simpl; [trivial|].
  intro H. inversion H as [|? ? Hx Hl]; subst.
  destruct (g x); simpl; [|now apply IH].
  constructor; [|now apply IH].
  intro Hin. apply Hx. apply in_map_iff in Hin as [y [Hy Hin]].
  apply filter_In in Hin as [Hin _]. apply in_map_iff. eauto.
Qed.

Lemma in_update_first {A : Type} (f : A -> bool) (g : A -> A) (l l' : list A) (x : A) :
  update_first f g l = Some l' ->
  In x l' -> In x l \/ exists y, In y l /\ f y = true /\ x = g y.
Proof.
  revert l'. induction l as [|y l IH]; simpl; intros l' H Hin; [discriminate|].
  destruct (f y) eqn:Hy.
  - injection H as <-. destruct Hin as [<- | Hin]; [right; eauto | left; auto].
  - destruct (update_first f g l) as [rest|]; [|discriminate].
    injection H as <-. destruct Hin as [<- | Hin]; [left; auto|].
    destruct (IH rest eq_refl Hin) as [H1 | [z [Hz [Hfz Hx]]]]; [left; auto|].
    right. exists z. auto.
Qed.

Lemma map_id_update_first (i : Z) (data : Classes.ClassData)
    (l l' : list Classes.Class) :
  update_first (fun c => Z.eqb (Classes.class_id c) i) (Classes.set_data data) l
  = Some l' ->
  map Classes.class_id l' = map Classes.class_id l.
Proof.
  revert l'. induction l as [|y l IH]; simpl; intros l' H; [discriminate|].
  destruct (Z.eqb (Classes.class_id y) i).
  - now injection H as <-.
  - destruct (update_first _ _ l) as [rest|]; [|discriminate].
    injection H as <-. simpl. now rewrite (IH rest eq_refl).
Qed.

(** Replacing a column of the row with id [i] by a value no other row has
    keeps the column's values distinct. *)
Lemma NoDup_map_update_first {A : Type} (f : Classes.Class -> A) (v : A) (i : Z)
    (data : Classes.ClassData) (l l' : list Classes.Class) :
  (forall c, f (Classes.set_data data c) = v) ->
  update_first (fun c => Z.eqb (Classes.class_id c) i) (Classes.set_data data) l
  = Some l' ->
  NoDup (map Classes.class_id l) ->
  NoDup (map f l) ->
  (forall c, In c l -> Classes.class_id c <> i -> f c <> v) ->
  NoDup (map f l').
Proof.
  intros Hf. revert l'.
  induction l as [|y l IH]; simpl; intros l' H Hid Hnd Hfresh; [discriminate|].
  inversion Hid as [|? ? Hy Hidl]; subst.
  inversion Hnd as [|? ? Hfy Hndl]; subst.
  destruct (Z.eqb (Classes.class_id y) i) eqn:Hyi.
  - injection H as <-. simpl. rewrite Hf. constructor; [|assumption].
    intro Hin. apply in_map_iff in Hin as [c [Hc Hin]].
    apply (Hfresh c); [now right | | assumption].
    apply Z.eqb_eq in Hyi. intro Hci. apply Hy.
    apply in_map_iff. exists c. split; [congruence | assumption].
  - destruct (update_first _ _ l) as [rest|] eqn:Hu; [|discriminate].
    injection H as <-. simpl. constructor.
    + intro Hin. apply in_map_iff in Hin as [c [Hc Hin]].
      destruct (in_update_first _ _ _ _ _ Hu Hin) as [Hold | [z [Hz [_ Hcz]]]].
      * apply Hfy. apply in_map_iff. eauto.
      * subst c. rewrite Hf in Hc. apply (Hfresh y); [now left | | congruence].
        now apply Z.eqb_neq.
    + apply (IH rest eq_refl); try assumption.
      intros c Hin. apply Hfresh. now right.
Qed.

Lemma conflicts_false (self : option Z) (data : Classes.ClassData)
    (l : list Classes.Class) :
  Classes.conflicts self data l = false ->
  forall c, In c l -> Some (Classes.class_id c) <> self ->
    Classes.class_name c <> Classes.d_class_name data
    /\ Classes.room_number c <> Classes.d_room_number data.
Proof.
  unfold Classes.conflicts. intros H c Hin Hself.
  destruct (String.eqb (Classes.class_name c) (Classes.d_class_name data)
            || Z.eqb (Classes.room_number c) (Classes.d_room_number data))
    eqn:Hc.
  - assert (Hex : existsb
                    (fun c0 =>
                       negb (option_eqb Z.eqb (Some (Classes.class_id c0)) self)
                       && (String.eqb (Classes.class_name c0)
                             (Classes.d_class_name data)
                           || Z.eqb (Classes.room_number c0)
                                (Classes.d_room_number data))) l = true).
    { apply existsb_exists. exists c. split; [assumption|].
      rewrite Hc, andb_true_r. apply negb_true_iff.
      destruct (option_eqb Z.eqb (Some (Classes.class_id c)) self) eqn:Ho;
        [|reflexivity].
      now apply option_eqb_Z_eq in Ho. }
    congruence.
  - apply orb_false_iff in Hc as [Hn Hr].
    split; [now apply String.eqb_neq | now apply Z.eqb_neq].
Qed.

Lemma conflicts_true (self : option Z) (data : Classes.ClassData)
    (l : list Classes.Class) (c : Classes.Class) :
  In c l -> Some (Classes.class_id c) <> self ->
  Classes.class_name c = Classes.d_class_name data
  \/ Classes.room_number c = Classes.d_room_number data ->
  Classes.conflicts self data l = true.
Proof.
  intros Hin Hself Hc. unfold Classes.conflicts.
  apply existsb_exists. exists c. split; [assumption|].
  apply andb_true_iff. split.
  - apply negb_true_iff.
    destruct (option_eqb Z.eqb (Some (Classes.class_id c)) self) eqn:Ho;
      [|reflexivity].
    now apply option_eqb_Z_eq in Ho.
  - apply orb_true_iff.
    destruct Hc as [Hn | Hr]; [left; now apply String.eqb_eq
                              | right; now apply Z.eqb_eq].
Qed.

Lemma class_store_ok_iff (s : Classes.Store) :
  Classes.store_ok s = true
  <-> NoDup (map Classes.class_id (Classes.classes s))
      /\ NoDup (map Classes.class_name (Classes.classes s))
      /\ NoDup (map Classes.room_number (Classes.classes s))
      /\ forall c, In c (Classes.classes s) ->
                   Classes.class_id c < Classes.seq_classes s.
Proof.
  unfold Classes.store_ok. rewrite !andb_true_iff, forallb_forall.
  rewrite !(distinct_NoDup Z.eqb) by apply Z.eqb_eq.
  rewrite (distinct_NoDup String.eqb) by apply String.eqb_eq.
  split.
  - intros [[[H1 H2] H3] H4]. repeat split; try assumption.
    intros c Hin. apply Z.ltb_lt. now apply H4.
  - intros [H1 [H2 [H3 H4]]]. repeat split; try assumption.
    intros c Hin. apply Z.ltb_lt. now apply H4.
Qed.

(** What the five handlers do, case by case. *)
Lemma getAllClasses_run (s : Classes.Store) :
  Classes.run Classes.getAllClasses s
  = (Returned tt,
     Classes.mkWorld s
       (Classes.mkRes 200 (Some (200, Classes.JClasses (Classes.classes s))))).
Proof. reflexivity. Qed.

Lemma findUnique_int4 (i : Z) (s : Classes.Store) (c : Classes.Class) :
  Classes.findUnique i s = Some c -> int4 i = true.
Proof.
  unfold Classes.findUnique. now destruct (int4 i).
Qed.

Lemma findUnique_find (i : Z) (s : Classes.Store) :
  int4 i = true ->
  Classes.findUnique i s
  = find (fun c => Z.eqb (Classes.class_id c) i) (Classes.classes s).
Proof.
  unfold Classes.findUnique. now intros ->.
Qed.

Lemma getClass_run (i : Z) (s : Classes.Store) :
  Classes.run (Classes.getClass i) s
  = if int4 i then
      match Classes.findUnique i s with
      | Some c =>
          (Returned tt,
           Classes.mkWorld s (Classes.mkRes 200 (Some (200, Classes.JFindClass c))))
      | None =>
          (Returned tt,
           Classes.mkWorld s
             (Classes.mkRes 404 (Some (404, Classes.JMessage "No class found"))))
      end
    else (Thrown ValueOutOfRange, Classes.mkWorld s Classes.fresh_res).
Proof.
  unfold Classes.run, Classes.getClass, Classes.findUnique_where, Classes.bind.
  cbn. destruct (int4 i); [|reflexivity].
  cbn. destruct (Classes.findUnique i s); reflexivity.
Qed.

Lemma createClass_run (data : Classes.ClassData) (s : Classes.Store) :
  Classes.run (Classes.createClass data) s
  = if Classes.conflicts None data (Classes.classes s) then
      (Thrown UniqueConstraintFailed,
       Classes.mkWorld
         (Classes.mkStore (Classes.classes s) (Classes.seq_classes s + 1))
         Classes.fresh_res)
    else
      (Returned tt,
       Classes.mkWorld
         (Classes.mkStore
            (Classes.classes s
             ++ [Classes.mkClass (Classes.seq_classes s)
                   (Classes.d_class_name data) (Classes.d_section_name data)
                   (Classes.d_room_number data)])
            (Classes.seq_classes s + 1))
         (Classes.mkRes 201
            (Some (201, Classes.JMessage "Class created successfully")))).
Proof.
  unfold Classes.run, Classes.createClass, Classes.classes_create, Classes.bind.
  cbn. destruct (Classes.conflicts None data (Classes.classes s)); reflexivity.
Qed.

Lemma updateClass_run (i : Z) (data : Classes.ClassData) (s : Classes.Store) :
  Classes.run (Classes.updateClass i data) s
  = if negb (int4 i)
    then (Thrown ValueOutOfRange, Classes.mkWorld s Classes.fresh_res)
    else
    match Classes.findUnique i s,
          update_first (fun c => Z.eqb (Classes.class_id c) i)
            (Classes.set_data data) (Classes.classes s) with
    | Some _, Some l =>
        if Classes.conflicts (Some i) data (Classes.classes s) then
          (Thrown UniqueConstraintFailed, Classes.mkWorld s Classes.fresh_res)
        else
          (Returned tt,
           Classes.mkWorld (Classes.mkStore l (Classes.seq_classes s))
             (Classes.mkRes 201
                (Some (201, Classes.JMessage "Class updated successfully"))))
    | Some _, None => (Thrown RecordNotFound, Classes.mkWorld s Classes.fresh_res)
    | None, _ =>
        (Thrown ERR_HTTP_HEADERS_SENT,
         Classes.mkWorld s
           (Classes.mkRes 201 (Some (404, Classes.JMessage "No class found"))))
    end.
Proof.
  unfold Classes.run, Classes.updateClass, Classes.transaction,
    Classes.classes_update, Classes.findUnique_where, Classes.bind. cbn.
  destruct (int4 i); cbn; [|now destruct s].
  destruct (Classes.findUnique i s); [|reflexivity]. cbn.
  destruct (update_first _ _ (Classes.classes s)); cbn; [|now destruct s].
  destruct (Classes.conflicts (Some i) data (Classes.classes s)); cbn;
    now destruct s.
Qed.

Lemma deleteClass_run (i : Z) (s : Classes.Store) :
  Classes.run (Classes.deleteClass i) s
  = if negb (int4 i)
    then (Thrown ValueOutOfRange, Classes.mkWorld s Classes.fresh_res)
    else
    match Classes.findUnique i s with
    | Some _ =>
        (Returned tt,
         Classes.mkWorld
           (Classes.mkStore
              (filter (fun c => negb (Z.eqb (Classes.class_id c) i))
                 (Classes.classes s))
              (Classes.seq_classes s))
           (Classes.mkRes 201
              (Some (201, Classes.JMessage "Class deleted successfully"))))
    | None =>
        (Returned tt,
         Classes.mkWorld s
           (Classes.mkRes 404 (Some (404, Classes.JMessage "No class found"))))
    end.
Proof.
  unfold Classes.run, Classes.deleteClass, Classes.transaction,
    Classes.classes_delete, Classes.findUnique_where, Classes.bind. cbn.
  destruct (int4 i); cbn; [|now destruct s].
  destruct (Classes.findUnique i s) eqn:Hf; cbn; [|reflexivity].
  rewrite Hf. reflexivity.
Qed.

Lemma class_store_ok_step (rq : Classes.Request) (s : Classes.Store) :
  Classes.store_ok s = true ->
  Classes.store_ok (Classes.store_after (Classes.handle rq) s) = true.
Proof.
  intro Hok. unfold Classes.store_after.
  destruct rq as [| i | data | i data | i]; cbn [Classes.handle].
  - now rewrite getAllClasses_run.
  - rewrite getClass_run.
    destruct (int4 i); [destruct (Classes.findUnique i s)|]; assumption.
  - rewrite createClass_run.
    apply class_store_ok_iff in Hok as [Hid [Hname [Hroom Hseq]]].
    destruct (Classes.conflicts None data (Classes.classes s)) eqn:Hc;
      cbn [snd Classes.store]; apply class_store_ok_iff;
      cbn [Classes.classes Classes.seq_classes].
    + split; [assumption | split; [assumption | split; [assumption|]]].
      intros c Hin. specialize (Hseq c Hin). lia.
    + pose proof (conflicts_false None data _ Hc) as Hfree.
      rewrite !map_app. cbn [map Classes.class_id Classes.class_name
                               Classes.room_number].
      split; [|split; [|split]].
      * apply NoDup_app; [assumption | repeat constructor; auto |].
        intros x Hin [<- | []]. apply in_map_iff in Hin as [c [Hc' Hin]].
        specialize (Hseq c Hin). lia.
      * apply NoDup_app; [assumption | repeat constructor; auto |].
        intros x Hin [<- | []]. apply in_map_iff in Hin as [c [Hc' Hin]].
        now destruct (Hfree c Hin ltac:(discriminate)) as [Hn _].
      * apply NoDup_app; [assumption | repeat constructor; auto |].
        intros x Hin [<- | []]. apply in_map_iff in Hin as [c [Hc' Hin]].
        now destruct (Hfree c Hin ltac:(discriminate)) as [_ Hr].
      * intros c Hin. apply in_app_or in Hin as [Hin | [<- | []]].
        -- specialize (Hseq c Hin). lia.
        -- cbn. lia.
  - rewrite updateClass_run.
    destruct (int4 i); cbn [negb]; [|assumption].
    destruct (Classes.findUnique i s) as [c0|]; [|assumption].
    destruct (update_first _ _ (Classes.classes s)) as [l|] eqn:Hu; [|assumption].
    destruct (Classes.conflicts (Some i) data (Classes.classes s)) eqn:Hc;
      [assumption|].
    cbn [snd Classes.store].
    apply class_store_ok_iff in Hok as [Hid [Hname [Hroom Hseq]]].
    pose proof (conflicts_false (Some i) data _ Hc) as Hfree.
    apply class_store_ok_iff. cbn [Classes.classes Classes.seq_classes].
    split; [|split; [|split]].
    + now rewrite (map_id_update_first i data _ _ Hu).
    + apply (NoDup_map_update_first Classes.class_name
               (Classes.d_class_name data) i data (Classes.classes s) l);
        try assumption; [reflexivity|].
      intros x Hin Hne. apply (Hfree x Hin). congruence.
    + apply (NoDup_map_update_first Classes.room_number
               (Classes.d_room_number data) i data (Classes.classes s) l);
        try assumption; [reflexivity|].
      intros x Hin Hne. apply (Hfree x Hin). congruence.
    + intros x Hin.
      destruct (in_update_first _ _ _ _ _ Hu Hin) as [Hold | [y [Hy [_ ->]]]].
      * now apply Hseq.
      * cbn. now apply Hseq.
  - rewrite deleteClass_run.
    destruct (int4 i); cbn [negb]; [|assumption].
    destruct (Classes.findUnique i s) as [c0|]; [|assumption].
    cbn [snd Classes.store].
    apply class_store_ok_iff in Hok as [Hid [Hname [Hroom Hseq]]].
    apply class_store_ok_iff. cbn [Classes.classes Classes.seq_classes].
    split; [|split; [|split]]; try (now apply NoDup_map_filter).
    intros c Hin. apply filter_In in Hin as [Hin _]. now apply Hseq.
Qed.

(** X21: the class handlers keep the table consistent.  From a store whose
    ids, class names and room numbers are pairwise distinct and whose ids
    are below the sequence, every trace of class requests leads to such a
    store. *)
Theorem class_store_ok_along_traces :
  forall (trace : list Classes.Request) (s : Classes.Store),
    Classes.store_ok s = true ->
    Classes.store_ok (Classes.serve trace s) = true.
Proof.
  induction trace as [|rq rest IH]; intros s Hok; [assumption|].
  cbn [Classes.serve]. apply IH. now apply class_store_ok_step.
Qed.

Lemma class_find_app_new (l : list Classes.Class) (c : Classes.Class) :
  (forall x, In x l -> Classes.class_id x <> Classes.class_id c) ->
  find (fun x => Z.eqb (Classes.class_id x) (Classes.class_id c)) (l ++ [c])
  = Some c.
Proof.
  intro Hfresh. rewrite find_app.
  destruct (find _ l) as [x|] eqn:Hf.
  - apply find_some in Hf as [Hin Hx]. apply Z.eqb_eq in Hx.
    now destruct (Hfresh x Hin).
  - cbn. now rewrite Z.eqb_refl.
Qed.

(** X22: a class created can be read back.  In a consistent store whose
    next id is within the range of the [Int] column, when no class has the
    name or the room number, [createClass] answers 201 "Class created
    successfully" and appends one row with the next id; [getClass] on that
    id then answers 200 with exactly the data posted. *)
Theorem createClass_then_getClass :
  forall (s : Classes.Store) (data : Classes.ClassData),
    Classes.store_ok s = true ->
    int4 (Classes.seq_classes s) = true ->
    (forall c, In c (Classes.classes s) ->
               Classes.class_name c <> Classes.d_class_name data
               /\ Classes.room_number c <> Classes.d_room_number data) ->
    let s' := Classes.store_after (Classes.createClass data) s in
    let created :=
      Classes.mkClass (Classes.seq_classes s) (Classes.d_class_name data)
        (Classes.d_section_name data) (Classes.d_room_number data) in
    Classes.response (Classes.createClass data) s
    = Some (201, Classes.JMessage "Class created successfully")
    /\ Classes.classes s' = (Classes.classes s ++ [created])%list
    /\ Classes.response (Classes.getClass (Classes.seq_classes s)) s'
       = Some (200, Classes.JFindClass created).
Proof.
  intros s data Hok Hfit Hfree s' created.
  assert (Hc : Classes.conflicts None data (Classes.classes s) = false).
  { destruct (Classes.conflicts None data (Classes.classes s)) eqn:Hc;
      [|reflexivity].
    unfold Classes.conflicts in Hc. apply existsb_exists in Hc as [c [Hin Hc]].
    apply andb_true_iff in Hc as [_ Hc]. apply orb_true_iff in Hc.
    destruct (Hfree c Hin) as [Hn Hr].
    destruct Hc as [Hc | Hc];
      [apply String.eqb_eq in Hc | apply Z.eqb_eq in Hc]; contradiction. }
  unfold s', Classes.response, Classes.store_after.
  rewrite createClass_run, Hc. cbn [snd Classes.store Classes.res Classes.sent
                                      Classes.classes].
  split; [reflexivity|]. split; [reflexivity|].
  rewrite getClass_run, Hfit, (findUnique_find _ _ Hfit). cbn [Classes.classes].
  change (Classes.seq_classes s) with (Classes.class_id created) at 1.
  rewrite class_find_app_new; [reflexivity|].
  intros x Hin. apply class_store_ok_iff in Hok as [_ [_ [_ Hseq]]].
  specialize (Hseq x Hin). cbn. lia.
Qed.

(** X23: the unique indexes reject a duplicate.  When some class already
    has the posted name or the posted room number, [createClass] throws
    the unique-constraint error: no response is sent and the rows are
    those of before. *)
Theorem createClass_duplicate_is_rejected :
  forall (s : Classes.Store) (data : Classes.ClassData) (c : Classes.Class),
    In c (Classes.classes s) ->
    Classes.class_name c = Classes.d_class_name data
    \/ Classes.room_number c = Classes.d_room_number data ->
    Classes.outcome (Classes.createClass data) s = Thrown UniqueConstraintFailed
    /\ Classes.response (Classes.createClass data) s = None
    /\ Classes.classes (Classes.store_after (Classes.createClass data) s)
       = Classes.classes s.
Proof.
  intros s data c Hin Hdup.
  unfold Classes.outcome, Classes.response, Classes.store_after.
  rewrite createClass_run.
  rewrite (conflicts_true None data _ c Hin ltac:(discriminate) Hdup).
  repeat split.
Qed.

(** X24: a missing class is a 404 in the three handlers that take an id.
    For an id within the range of the [Int] column that no class has,
    [getClass], [updateClass] and [deleteClass] answer 404 "No class found"
    and leave the store as it was.  [updateClass] then runs into its final
    [res.json] and throws on the response already sent; its success message
    does not reach the client. *)
Theorem missing_class_is_404 :
  forall (s : Classes.Store) (i : Z) (data : Classes.ClassData),
    int4 i = true ->
    Classes.findUnique i s = None ->
    Classes.run (Classes.getClass i) s
    = (Returned tt,
       Classes.mkWorld s
         (Classes.mkRes 404 (Some (404, Classes.JMessage "No class found"))))
    /\ Classes.run (Classes.deleteClass i) s
       = (Returned tt,
          Classes.mkWorld s
            (Classes.mkRes 404 (Some (404, Classes.JMessage "No class found"))))
    /\ Classes.outcome (Classes.updateClass i data) s = Thrown ERR_HTTP_HEADERS_SENT
    /\ Classes.response (Classes.updateClass i data) s
       = Some (404, Classes.JMessage "No class found")
    /\ Classes.store_after (Classes.updateClass i data) s = s.
Proof.
  intros s i data Hfit Hnone.
  unfold Classes.outcome, Classes.response, Classes.store_after.
  rewrite getClass_run, deleteClass_run, updateClass_run, Hfit, Hnone.
  repeat split.
Qed.

Lemma class_find_filter_out (i : Z) (l : list Classes.Class) :
  find (fun c => Z.eqb (Classes.class_id c) i)
    (filter (fun c => negb (Z.eqb (Classes.class_id c) i)) l) = None.
Proof.
  induction l as [|c l IH]; [reflexivity|].
  cbn [filter]. destruct (Z.eqb (Classes.class_id c) i) eqn:Hc; cbn [negb find].
  - exact IH.
  - now rewrite Hc.
Qed.

(** X25: a class deleted is gone and the others stay.  For an id that
    exists, [deleteClass] answers 201 "Class deleted successfully", removes
    the rows with that id and keeps every other row; [getClass] on the id
    then answers 404 "No class found". *)
Theorem deleteClass_then_getClass :
  forall (s : Classes.Store) (i : Z) (c : Classes.Class),
    Classes.findUnique i s = Some c ->
    let s' := Classes.store_after (Classes.deleteClass i) s in
    Classes.response (Classes.deleteClass i) s
    = Some (201, Classes.JMessage "Class deleted successfully")
    /\ (forall x, In x (Classes.classes s') <->
                  In x (Classes.classes s) /\ Classes.class_id x <> i)
    /\ Classes.response (Classes.getClass i) s'
       = Some (404, Classes.JMessage "No class found").
Proof.
  intros s i c Hc s'.
  pose proof (findUnique_int4 _ _ _ Hc) as Hfit.
  unfold s', Classes.response, Classes.store_after.
  rewrite deleteClass_run, Hfit, Hc.
  cbn [negb snd Classes.store Classes.res Classes.sent Classes.classes].
  split; [reflexivity|]. split.
  - intro x. rewrite filter_In, negb_true_iff, Z.eqb_neq. reflexivity.
  - rewrite getClass_run, Hfit, (findUnique_find _ _ Hfit). cbn [Classes.classes].
    now rewrite class_find_filter_out.
Qed.

Lemma class_find_update_first (i j : Z) (data : Classes.ClassData)
    (l l' : list Classes.Class) :
  update_first (fun c => Z.eqb (Classes.class_id c) i) (Classes.set_data data) l
  = Some l' ->
  find (fun c => Z.eqb (Classes.class_id c) j) l'
  = if Z.eqb j i
    then option_map (Classes.set_data data)
           (find (fun c => Z.eqb (Classes.class_id c) i) l)
    else find (fun c => Z.eqb (Classes.class_id c) j) l.
Proof.
  revert l'. induction l as [|y l IH]; simpl; intros l' H; [discriminate|].
  destruct (Z.eqb (Classes.class_id y) i) eqn:Hy.
  - injection H as <-. simpl. apply Z.eqb_eq in Hy. rewrite Hy.
    destruct (Z.eqb j i) eqn:Hj.
    + apply Z.eqb_eq in Hj. subst j. now rewrite Z.eqb_refl.
    + rewrite Z.eqb_sym, Hj. reflexivity.
  - destruct (update_first _ _ l) as [rest|]; [|discriminate].
    injection H as <-. simpl.
    destruct (Z.eqb j i) eqn:Hj.
    + apply Z.eqb_eq in Hj. subst j. rewrite Hy. now apply IH.
    + destruct (Z.eqb (Classes.class_id y) j); [reflexivity|]. now apply IH.
Qed.

(** X26: an update rewrites the one class.  For an id that exists, when no
    other class has the posted name or room number, [updateClass] answers
    201 "Class updated successfully"; afterwards the id reads back as the
    posted data under the same id, every other id reads back as before, and
    the number of rows is the same. *)
Theorem updateClass_rewrites_one_class :
  forall (s : Classes.Store) (i : Z) (c : Classes.Class) (data : Classes.ClassData),
    Classes.findUnique i s = Some c ->
    (forall x, In x (Classes.classes s) -> Classes.class_id x <> i ->
               Classes.class_name x <> Classes.d_class_name data
               /\ Classes.room_number x <> Classes.d_room_number data) ->
    let s' := Classes.store_after (Classes.updateClass i data) s in
    Classes.response (Classes.updateClass i data) s
    = Some (201, Classes.JMessage "Class updated successfully")
    /\ Classes.findUnique i s'
       = Some (Classes.mkClass i (Classes.d_class_name data)
                 (Classes.d_section_name data) (Classes.d_room_number data))
    /\ (forall j, j <> i -> Classes.findUnique j s' = Classes.findUnique j s)
    /\ List.length (Classes.classes s') = List.length (Classes.classes s).
Proof.
  intros s i c data Hc Hfree s'.
  assert (Hconf : Classes.conflicts (Some i) data (Classes.classes s) = false).
  { destruct (Classes.conflicts (Some i) data (Classes.classes s)) eqn:Hx;
      [|reflexivity].
    unfold Classes.conflicts in Hx. apply existsb_exists in Hx as [x [Hin Hx]].
    apply andb_true_iff in Hx as [Hself Hx]. apply orb_true_iff in Hx.
    assert (Hne : Classes.class_id x <> i).
    { intro Heq. subst i. cbn in Hself. now rewrite Z.eqb_refl in Hself. }
    destruct (Hfree x Hin Hne) as [Hn Hr].
    destruct Hx as [Hx | Hx];
      [apply String.eqb_eq in Hx | apply Z.eqb_eq in Hx]; contradiction. }
  pose proof (findUnique_int4 _ _ _ Hc) as Hfit.
  pose proof Hc as Hc'. rewrite (findUnique_find _ _ Hfit) in Hc'.
  destruct (update_first_some _ (Classes.set_data data) _ _ Hc') as [l Hl].
  assert (Hid : Classes.class_id c = i).
  { apply find_some in Hc' as [_ H]. now apply Z.eqb_eq in H. }
  unfold s', Classes.response, Classes.store_after.
  rewrite updateClass_run, Hfit, Hc, Hl, Hconf.
  cbn [negb snd Classes.store Classes.res Classes.sent Classes.classes].
  split; [reflexivity|].
  unfold Classes.findUnique. cbn [Classes.classes].
  split; [|split].
  - rewrite Hfit, (class_find_update_first i i data _ _ Hl), Z.eqb_refl, Hc'.
    cbn. unfold Classes.set_data. now rewrite Hid.
  - intros j Hj. destruct (int4 j); [|reflexivity].
    rewrite (class_find_update_first i j data _ _ Hl).
    now replace (Z.eqb j i) with false by (symmetry; now apply Z.eqb_neq).
  - rewrite <- (length_map Classes.class_id l),
      <- (length_map Classes.class_id (Classes.classes s)).
    now rewrite (map_id_update_first i data _ _ Hl).
Qed.

(** X27: an update that would take the name or the room number of another
    class throws the unique-constraint error: no response is sent and the
    store is left as it was. *)
Theorem updateClass_conflict_is_rejected :
  forall (s : Classes.Store) (i : Z) (c other : Classes.Class)
         (data : Classes.ClassData),
    Classes.findUnique i s = Some c ->
    In other (Classes.classes s) ->
    Classes.class_id other <> i ->
    Classes.class_name other = Classes.d_class_name data
    \/ Classes.room_number other = Classes.d_room_number data ->
    Classes.run (Classes.updateClass i data) s
    = (Thrown UniqueConstraintFailed, Classes.mkWorld s Classes.fresh_res).
Proof.
  intros s i c other data Hc Hin Hne Hdup.
  pose proof (findUnique_int4 _ _ _ Hc) as Hfit.
  pose proof Hc as Hc'. rewrite (findUnique_find _ _ Hfit) in Hc'.
  destruct (update_first_some _ (Classes.set_data data) _ _ Hc') as [l Hl].
  rewrite updateClass_run, Hfit, Hc, Hl. cbn [negb].
  rewrite (conflicts_true (Some i) data _ other Hin); [reflexivity | | assumption].
  congruence.
Qed.

(** X30: an id outside the range of the [Int] column is an error, not a
    404.  For such an id [getClass], [updateClass] and [deleteClass] throw
    Prisma's value-out-of-range error: no response is sent and the store is
    left as it was. *)
Theorem class_id_out_of_range_throws :
  forall (s : Classes.Store) (i : Z) (data : Classes.ClassData),
    int4 i = false ->
    Classes.run (Classes.getClass i) s
    = (Thrown ValueOutOfRange, Classes.mkWorld s Classes.fresh_res)
    /\ Classes.run (Classes.updateClass i data) s
       = (Thrown ValueOutOfRange, Classes.mkWorld s Classes.fresh_res)
    /\ Classes.run (Classes.deleteClass i) s
       = (Thrown ValueOutOfRange, Classes.mkWorld s Classes.fresh_res).
Proof.
  intros s i data Hfit.
  rewrite getClass_run, updateClass_run, deleteClass_run, Hfit.
  repeat split.
Qed.

(** ** The further properties on the sample stores *)

Lemma store_wf_trace_witness :
  store_wf people = true
  /\ store_wf (serve hash compare roles_ok Scenario.a_trace people) = true.
Proof.
  assert (H1 : store_wf people = true) by (vm_compute; reflexivity).
  exact (conj H1 (store_wf_serve hash compare roles_ok Scenario.a_trace people H1)).
Defined.

Lemma login_wrong_password_witness :
  model_of_role "admin" = Some Admins
  /\ findUnique_email Admins "a@x.com" people = Some alice
  /\ compare "wrong" (password alice) = false
  /\ outcome (login compare None "a@x.com" "wrong" "admin" phone env0) people
     = Thrown (HttpError 401 "Invalid email or password").
Proof.
  assert (H1 : model_of_role "admin" = Some Admins) by reflexivity.
  assert (H2 : findUnique_email Admins "a@x.com" people = Some alice) by reflexivity.
  assert (H3 : compare "wrong" (password alice) = false) by reflexivity.
  exact (conj H1 (conj H2 (conj H3
           (proj1 (login_wrong_password_401 compare people None "a@x.com" "wrong"
                     "admin" phone env0 Admins alice H1 H2 H3))))).
Defined.


Lemma login_2038_witness :
  model_of_role "teacher" = Some Teachers
  /\ findUnique_email Teachers "b@x.com" people = Some bob
  /\ compare "hunter2" (password bob) = true
  /\ is_suspended bob = false
  /\ int4 (seconds (Date_now Scenario.env_2038) + 604800) = false
  /\ outcome
       (login compare None "b@x.com" "hunter2" "teacher" phone Scenario.env_2038)
       people
     = Thrown ValueOutOfRange.
Proof.
  assert (H1 : model_of_role "teacher" = Some Teachers) by reflexivity.
  assert (H2 : findUnique_email Teachers "b@x.com" people = Some bob) by reflexivity.
  assert (H3 : compare "hunter2" (password bob) = true) by reflexivity.
  assert (H4 : is_suspended bob = false) by reflexivity.
  assert (H5 : int4 (seconds (Date_now Scenario.env_2038) + 604800) = false)
    by (vm_compute; reflexivity).
  exact (conj H1 (conj H2 (conj H3 (conj H4 (conj H5
           (proj1 (login_expiry_out_of_range_throws compare people None "b@x.com"
                     "hunter2" "teacher" phone Scenario.env_2038 Teachers bob
                     H1 H2 H3 H4 H5))))))).
Defined.

Lemma login_suspended_witness :
  model_of_role "student" = Some Students
  /\ findUnique_email Students "c@x.com" Scenario.school = Some Scenario.carol
  /\ compare "pa55word" (password Scenario.carol) = true
  /\ is_suspended Scenario.carol = true
  /\ outcome (login compare None "c@x.com" "pa55word" "student" phone env0)
       Scenario.school
     = Thrown (HttpError 403 "Your account is suspended").
Proof.
  assert (H1 : model_of_role "student" = Some Students) by reflexivity.
  assert (H2 : findUnique_email Students "c@x.com" Scenario.school
               = Some Scenario.carol) by reflexivity.
  assert (H3 : compare "pa55word" (password Scenario.carol) = true) by reflexivity.
  assert (H4 : is_suspended Scenario.carol = true) by reflexivity.
  exact (conj H1 (conj H2 (conj H3 (conj H4
           (proj1 (login_suspended_403 compare Scenario.school None "c@x.com"
                     "pa55word" "student" phone env0 Students Scenario.carol
                     H1 H2 H3 H4)))))).
Defined.

Lemma login_cookie_witness :
  model_of_role "admin" = Some Admins
  /\ findUnique_email Admins "a@x.com" people = Some alice
  /\ compare "Secret123!" (password alice) = true
  /\ is_suspended alice = false
  /\ int4 (seconds (Date_now env0) + 604800) = true
  /\ seconds (Date_now env1) < seconds (Date_now env0) + 604800
  /\ int4 (seconds (Date_now env1) + 604800) = true
  /\ seconds (Date_now env0) + 604800 <= seconds (Date_now Scenario.env_late)
  /\ response (refreshAuthToken (Some alice_refresh) env1)
       (store_after (login compare None "a@x.com" "Secret123!" "admin" phone env0)
          people)
     = Some (200,
             mkBody None
               (Some (SessionToken ACCESS_TOKEN_SECRET "a@x.com" "admin"
                        (seconds (Date_now env1)) (seconds (Date_now env1) + 120)))
               None)
  /\ response (refreshAuthToken (Some alice_refresh) Scenario.env_late)
       (store_after (login compare None "a@x.com" "Secret123!" "admin" phone env0)
          people)
     = Some (403, msg "Forbidden").
Proof.
  assert (H1 : model_of_role "admin" = Some Admins) by reflexivity.
  assert (H2 : findUnique_email Admins "a@x.com" people = Some alice) by reflexivity.
  assert (H3 : compare "Secret123!" (password alice) = true) by reflexivity.
  assert (H4 : is_suspended alice = false) by reflexivity.
  assert (H5 : seconds (Date_now env1) < seconds (Date_now env0) + 604800)
    by (vm_compute; reflexivity).
  assert (H6 : seconds (Date_now env0) + 604800
               <= seconds (Date_now Scenario.env_late))
    by (vm_compute; discriminate).
  assert (H7 : int4 (seconds (Date_now env0) + 604800) = true)
    by (vm_compute; reflexivity).
  assert (H8 : int4 (seconds (Date_now env1) + 604800) = true)
    by (vm_compute; reflexivity).
  exact (conj H1 (conj H2 (conj H3 (conj H4 (conj H7 (conj H5 (conj H8 (conj H6
          (conj
           (proj1 (login_cookie_refreshes_for_seven_days compare people None
                     "a@x.com" "Secret123!" "admin" phone env0 env1 Admins alice
                     H1 H2 H3 H4 H7) H5 H8)
           (proj2 (login_cookie_refreshes_for_seven_days compare people None
                     "a@x.com" "Secret123!" "admin" phone env0 Scenario.env_late
                     Admins alice H1 H2 H3 H4 H7) H6)))))))))).
Defined.

Lemma register_witness :
  findUnique_email Admins "a@x.com" empty_db = None
  /\ roles_ok (seq_admins empty_db) "admin"
       (add_admin hash (mkRegisterData "A" "a@x.com" "Secret123!" "X") empty_db)
     = true
  /\ sendMail_ok env0 = true
  /\ int4 (seconds (Date_now env0) + 604800) = true
  /\ response
       (register hash roles_ok (mkRegisterData "A" "a@x.com" "Secret123!" "X")
          phone env0) empty_db
     = Some (201,
             mkBody (Some "Account created")
               (Some (SessionToken ACCESS_TOKEN_SECRET "a@x.com" "admin"
                        (seconds (Date_now env0))
                        (seconds (Date_now env0) + 86400)))
               None).
Proof.
  assert (H1 : findUnique_email Admins "a@x.com" empty_db = None) by reflexivity.
  assert (H2 : roles_ok (seq_admins empty_db) "admin"
                 (add_admin hash (mkRegisterData "A" "a@x.com" "Secret123!" "X")
                    empty_db) = true) by reflexivity.
  assert (H3 : sendMail_ok env0 = true) by reflexivity.
  assert (H4 : int4 (seconds (Date_now env0) + 604800) = true)
    by (vm_compute; reflexivity).
  exact (conj H1 (conj H2 (conj H3 (conj H4
           (proj1 (register_creates_account_code_and_session hash roles_ok
                     empty_db (mkRegisterData "A" "a@x.com" "Secret123!" "X")
                     phone env0 H1 H2 H3 H4)))))).
Defined.

Lemma register_taken_email_witness :
  outcome
    (register hash roles_ok (mkRegisterData "A2" "a@x.com" "0therPass!" "Y")
       phone env1) people
  = Thrown UniqueConstraintFailed
  /\ admins
       (store_after
          (register hash roles_ok (mkRegisterData "A2" "a@x.com" "0therPass!" "Y")
             phone env1) people)
     = admins people.
Proof.
  assert (H1 : outcome
                 (register hash roles_ok
                    (mkRegisterData "A2" "a@x.com" "0therPass!" "Y") phone env1)
                 people
               = Thrown UniqueConstraintFailed) by (vm_compute; reflexivity).
  pose proof (register_failure_leaves_no_rows hash roles_ok people
                (mkRegisterData "A2" "a@x.com" "0therPass!" "Y") phone env1
                UniqueConstraintFailed H1) as H.
  cbv zeta in H. destruct H as [_ [_ [Htab _]]].
  exact (conj H1 (Htab Admins)).
Defined.

Lemma logout_witness :
  express_jwt (Some alice_refresh) = Some alice_refresh
  /\ response (logout (Some alice_refresh)) logged_in
     = Some (200, msg "You are now logged out")
  /\ response (refreshAuthToken (Some alice_refresh) env1)
       (store_after (logout (Some alice_refresh)) logged_in)
     = Some (403, msg "Forbidden").
Proof.
  assert (H1 : express_jwt (Some alice_refresh) = Some alice_refresh) by reflexivity.
  pose proof (logout_deletes_the_session logged_in (Some alice_refresh)
                alice_refresh env1 H1) as H.
  cbv zeta in H. destruct H as [Hr [_ [_ [_ [_ [_ Hrefresh]]]]]].
  exact (conj H1 (conj Hr Hrefresh)).
Defined.

Lemma no_cookie_witness :
  express_jwt (Some (Forged "")) = None
  /\ run (logout (Some (Forged ""))) logged_in
     = (Returned tt,
        mkWorld logged_in (mkRes 401 (Some (401, msg "Unauthorized")) [])).
Proof.
  assert (H1 : express_jwt (Some (Forged "")) = None) by reflexivity.
  destruct (no_cookie_is_unauthorized logged_in (Some (Forged "")) alice_user env1
              H1) as [_ [Hlogout _]].
  exact (conj H1 Hlogout).
Defined.

Lemma logoutAll_witness :
  express_jwt (Some alice_refresh) = Some alice_refresh
  /\ model_of_role (u_role alice_user) = Some Admins
  /\ findUnique_email Admins (u_email alice_user) logged_in = Some alice
  /\ response (logoutAll (Some alice_refresh) alice_user) logged_in
     = Some (200, msg "All devices are logged out")
  /\ personal_tokens (store_after (logoutAll (Some alice_refresh) alice_user)
                        logged_in)
     = filter (fun r => negb (pt_owned_by Admins (id alice) r))
         (personal_tokens logged_in).
Proof.
  assert (H1 : express_jwt (Some alice_refresh) = Some alice_refresh) by reflexivity.
  assert (H2 : model_of_role (u_role alice_user) = Some Admins) by reflexivity.
  assert (H3 : findUnique_email Admins (u_email alice_user) logged_in = Some alice)
    by (vm_compute; reflexivity).
  pose proof (logoutAll_deletes_every_session logged_in (Some alice_refresh)
                alice_refresh alice_user Admins alice H1 H2 H3) as H.
  cbv zeta in H. destruct H as [Hr [_ [Hpt _]]].
  exact (conj H1 (conj H2 (conj H3 (conj Hr Hpt)))).
Defined.

Lemma logoutAll_unknown_witness :
  express_jwt (Some alice_refresh) = Some alice_refresh
  /\ model_of_role "teacher" = Some Teachers
  /\ findUnique_email Teachers "a@x.com" logged_in = None
  /\ run (logoutAll (Some alice_refresh) (mkAuthUser 1 "a@x.com" "teacher" None))
       logged_in
     = (Thrown TypeError, mkWorld logged_in fresh_res).
Proof.
  assert (H1 : express_jwt (Some alice_refresh) = Some alice_refresh) by reflexivity.
  assert (H2 : model_of_role (u_role (mkAuthUser 1 "a@x.com" "teacher" None))
               = Some Teachers) by reflexivity.
  assert (H3 : findUnique_email Teachers
                 (u_email (mkAuthUser 1 "a@x.com" "teacher" None)) logged_in = None)
    by (vm_compute; reflexivity).
  exact (conj H1 (conj H2 (conj H3
           (logoutAll_unknown_requester_throws_TypeError logged_in
              (Some alice_refresh) alice_refresh
              (mkAuthUser 1 "a@x.com" "teacher" None) Teachers H1 H2 H3)))).
Defined.

Lemma refresh_expired_witness :
  express_jwt (Some alice_refresh) = Some alice_refresh
  /\ findMany_refresh_token alice_refresh logged_in <> []
  /\ jwt_verify_session alice_refresh REFRESH_TOKEN_SECRET
       (Date_now Scenario.env_late) = None
  /\ run (refreshAuthToken (Some alice_refresh) Scenario.env_late) logged_in
     = (Returned tt,
        mkWorld logged_in
          (mkRes 403 (Some (403, msg "Forbidden")) [ClearCookie "express_jwt"])).
Proof.
  assert (H1 : express_jwt (Some alice_refresh) = Some alice_refresh) by reflexivity.
  assert (H2 : findMany_refresh_token alice_refresh logged_in <> [])
    by (vm_compute; discriminate).
  assert (H3 : jwt_verify_session alice_refresh REFRESH_TOKEN_SECRET
                 (Date_now Scenario.env_late) = None) by (vm_compute; reflexivity).
  exact (conj H1 (conj H2 (conj H3
           (refresh_unverifiable_stored_token_forbidden logged_in
              (Some alice_refresh) alice_refresh Scenario.env_late H1 H2 H3)))).
Defined.

Lemma replay_witness :
  store_wf logged_in = true
  /\ express_jwt (Some alice_refresh) = Some alice_refresh
  /\ findMany_refresh_token alice_refresh logged_in <> []
  /\ jwt_verify_session alice_refresh REFRESH_TOKEN_SECRET (Date_now env1)
     = Some ("a@x.com", "admin")
  /\ int4 (seconds (Date_now env1) + 604800) = true
  /\ jwt_sign_session "a@x.com" "admin" REFRESH_TOKEN_SECRET 604800 (Date_now env1)
     <> alice_refresh
  /\ jwt_verify_session alice_refresh REFRESH_TOKEN_SECRET (Date_now Scenario.env2)
     = Some ("a@x.com", "admin")
  /\ lookup_role "admin" "a@x.com" logged_in = Some (Admins, alice)
  /\ response (refreshAuthToken (Some alice_refresh) Scenario.env2)
       (store_after (refreshAuthToken (Some alice_refresh) env1) logged_in)
     = Some (403, msg "Forbidden").
Proof.
  assert (H1 : store_wf logged_in = true) by (vm_compute; reflexivity).
  assert (H2 : express_jwt (Some alice_refresh) = Some alice_refresh) by reflexivity.
  assert (H3 : findMany_refresh_token alice_refresh logged_in <> [])
    by (vm_compute; discriminate).
  assert (H4 : jwt_verify_session alice_refresh REFRESH_TOKEN_SECRET (Date_now env1)
               = Some ("a@x.com", "admin")) by (vm_compute; reflexivity).
  assert (H5 : jwt_sign_session "a@x.com" "admin" REFRESH_TOKEN_SECRET 604800
                 (Date_now env1) <> alice_refresh) by (vm_compute; discriminate).
  assert (H6 : jwt_verify_session alice_refresh REFRESH_TOKEN_SECRET
                 (Date_now Scenario.env2) = Some ("a@x.com", "admin"))
    by (vm_compute; reflexivity).
  assert (H7 : lookup_role "admin" "a@x.com" logged_in = Some (Admins, alice))
    by (vm_compute; reflexivity).
  assert (H8 : int4 (seconds (Date_now env1) + 604800) = true)
    by (vm_compute; reflexivity).
  pose proof (replay_after_rotation_revokes_all logged_in (Some alice_refresh)
                alice_refresh env1 Scenario.env2 "a@x.com" "admin" Admins alice
                H1 H2 H3 H4 H8 H5 H6 H7) as H.
  cbv zeta in H. destruct H as [_ [Hr _]].
  exact (conj H1 (conj H2 (conj H3 (conj H4 (conj H8 (conj H5 (conj H6
           (conj H7 Hr)))))))).
Defined.

Lemma same_second_witness :
  store_wf logged_in = true
  /\ express_jwt (Some alice_refresh) = Some alice_refresh
  /\ findMany_refresh_token alice_refresh logged_in <> []
  /\ alice_refresh
     = jwt_sign_session "a@x.com" "admin" REFRESH_TOKEN_SECRET 604800
         (Date_now Scenario.env0')
  /\ issued_refresh (refreshAuthToken (Some alice_refresh) Scenario.env0') logged_in
     = [alice_refresh]
  /\ store_after (refreshAuthToken (Some alice_refresh) Scenario.env0') logged_in
     = logged_in.
Proof.
  assert (H1 : store_wf logged_in = true) by (vm_compute; reflexivity).
  assert (H2 : express_jwt (Some alice_refresh) = Some alice_refresh) by reflexivity.
  assert (H3 : findMany_refresh_token alice_refresh logged_in <> [])
    by (vm_compute; discriminate).
  assert (H4 : alice_refresh
               = jwt_sign_session "a@x.com" "admin" REFRESH_TOKEN_SECRET 604800
                   (Date_now Scenario.env0')) by (vm_compute; reflexivity).
  destruct (refresh_in_the_signing_second_keeps_the_token logged_in
              (Some alice_refresh) alice_refresh Scenario.env0' "a@x.com" "admin"
              H1 H2 H3 H4) as [_ [Hc Hs]].
  exact (conj H1 (conj H2 (conj H3 (conj H4 (conj Hc Hs))))).
Defined.

Lemma unmatched_code_witness :
  findFirst_token_code "0b6f3c1e" 11111111 with_codes = None
  /\ run (verifyResetCode "0b6f3c1e" 11111111 env0) with_codes
     = (Returned tt, mkWorld with_codes (mkRes 200 (Some (200, msg "Invalid Code")) [])).
Proof.
  assert (H1 : findFirst_token_code "0b6f3c1e" 11111111 with_codes = None)
    by reflexivity.
  exact (conj H1
           (proj2 (unmatched_code_is_a_soft_failure with_codes "0b6f3c1e" 11111111
                     alice_user env0 H1))).
Defined.

Lemma verifyEmail_missing_requester_witness :
  findFirst_token_code "0b6f3c1e" 12345678 with_codes = Some alice_code
  /\ model_of_role "student" = Some Students
  /\ findUnique_email Students "b@x.com" with_codes = None
  /\ run (verifyEmail "0b6f3c1e" 12345678 (mkAuthUser 1 "b@x.com" "student" None)
            env0) with_codes
     = (Thrown RecordNotFound, mkWorld with_codes fresh_res).
Proof.
  assert (H1 : findFirst_token_code "0b6f3c1e" 12345678 with_codes = Some alice_code)
    by reflexivity.
  assert (H2 : model_of_role (u_role (mkAuthUser 1 "b@x.com" "student" None))
               = Some Students) by reflexivity.
  assert (H3 : findUnique_email Students
                 (u_email (mkAuthUser 1 "b@x.com" "student" None)) with_codes = None)
    by reflexivity.
  exact (conj H1 (conj H2 (conj H3
           (verifyEmail_missing_requester_throws with_codes "0b6f3c1e" 12345678
              alice_code (mkAuthUser 1 "b@x.com" "student" None) Students env0
              H1 H2 H3)))).
Defined.

Lemma updatePassword_session_token_witness :
  (forall h, Some (mkAuthorization "Bearer" alice_refresh) = Some h ->
             scheme h = "Bearer" ->
             jwt_verify_reset (credentials h) (Date_now env1) = None)
  /\ response
       (updatePassword hash (Some (mkAuthorization "Bearer" alice_refresh))
          "N3wSecret!" env1) busy
     = Some (403, msg "Forbidden")
  /\ store_after
       (updatePassword hash (Some (mkAuthorization "Bearer" alice_refresh))
          "N3wSecret!" env1) busy
     = busy.
Proof.
  assert (H1 : forall h, Some (mkAuthorization "Bearer" alice_refresh) = Some h ->
                         scheme h = "Bearer" ->
                         jwt_verify_reset (credentials h) (Date_now env1) = None).
  { intros h Hh _. injection Hh as <-. reflexivity. }
  exact (conj H1
           (updatePassword_requires_a_valid_reset_token hash busy
              (Some (mkAuthorization "Bearer" alice_refresh)) "N3wSecret!" env1 H1)).
Defined.

Lemma updatePassword_404_witness :
  scheme (mkAuthorization "Bearer"
            (ResetToken (Some 99) (Some "admin") 1700199990 1700200230))
  = "Bearer"
  /\ jwt_verify_reset (ResetToken (Some 99) (Some "admin") 1700199990 1700200230)
       (Date_now env1)
     = Some (Some 99, Some "admin")
  /\ model_of_role "admin" = Some Admins
  /\ findUnique_id Admins 99 busy = None
  /\ response
       (updatePassword hash
          (Some (mkAuthorization "Bearer"
                   (ResetToken (Some 99) (Some "admin") 1700199990 1700200230)))
          "N3wSecret!" env1) busy
     = Some (404, msg "User not found").
Proof.
  assert (H1 : scheme (mkAuthorization "Bearer"
                         (ResetToken (Some 99) (Some "admin") 1700199990 1700200230))
               = "Bearer") by reflexivity.
  assert (H2 : jwt_verify_reset
                 (credentials
                    (mkAuthorization "Bearer"
                       (ResetToken (Some 99) (Some "admin") 1700199990 1700200230)))
                 (Date_now env1)
               = Some (Some 99, Some "admin")) by (vm_compute; reflexivity).
  assert (H3 : model_of_role "admin" = Some Admins) by reflexivity.
  assert (H4 : findUnique_id Admins 99 busy = None) by (vm_compute; reflexivity).
  exact (conj H1 (conj H2 (conj H3 (conj H4
           (proj1 (updatePassword_unknown_principal_404 hash busy
                     (mkAuthorization "Bearer"
                        (ResetToken (Some 99) (Some "admin") 1700199990 1700200230))
                     "N3wSecret!" env1 Admins "admin" 99 H1 H2 H3 H4)))))).
Defined.

Lemma reset_token_witness :
  store_wf busy = true
  /\ findFirst_token_code "77aa01c2" 87654321 busy = Some alice_reset_code
  /\ reset_subject alice_reset_code = (Some 1, Some "admin")
  /\ model_of_role "admin" = Some Admins
  /\ findUnique_id Admins 1 busy = Some alice
  /\ exists resetToken,
       response (verifyResetCode "77aa01c2" 87654321 env1) busy
       = Some (200, mkBody (Some "Verification successful") None (Some resetToken))
       /\ response
            (updatePassword hash (Some (mkAuthorization "Bearer" resetToken))
               "N3wSecret!" env1) busy
          = Some (200, msg "Password has been updated")
       /\ response
            (updatePassword hash (Some (mkAuthorization "Bearer" resetToken))
               "N3wSecret!" Scenario.env2) busy
          = Some (403, msg "Forbidden").
Proof.
  assert (H1 : store_wf busy = true) by (vm_compute; reflexivity).
  assert (H2 : findFirst_token_code "77aa01c2" 87654321 busy = Some alice_reset_code)
    by (vm_compute; reflexivity).
  assert (H3 : reset_subject alice_reset_code = (Some 1, Some "admin"))
    by reflexivity.
  assert (H4 : model_of_role "admin" = Some Admins) by reflexivity.
  assert (H5 : findUnique_id Admins 1 busy = Some alice) by (vm_compute; reflexivity).
  assert (H6 : seconds (Date_now env1) < seconds (Date_now env1) + 240) by lia.
  assert (H7 : seconds (Date_now env1) + 240 <= seconds (Date_now Scenario.env2))
    by (vm_compute; discriminate).
  destruct (reset_token_is_good_for_four_minutes hash busy "77aa01c2" 87654321
              alice_reset_code env1 env1 1 "admin" Admins alice "N3wSecret!"
              H1 H2 H3 H4 H5) as [rt [Hr [_ [Hin _]]]].
  destruct (reset_token_is_good_for_four_minutes hash busy "77aa01c2" 87654321
              alice_reset_code env1 Scenario.env2 1 "admin" Admins alice
              "N3wSecret!" H1 H2 H3 H4 H5) as [rt' [Hr' [_ [_ Hout]]]].
  assert (Hsame : rt' = rt) by congruence. subst rt'.
  refine (conj H1 (conj H2 (conj H3 (conj H4 (conj H5 _))))).
  exists rt.
  exact (conj Hr (conj (proj1 (Hin H6)) (proj1 (Hout H7)))).
Defined.

Lemma resendEmail_teacher_witness :
  u_email_verified_at bob_user = None
  /\ findUnique_email Teachers (u_email bob_user) with_codes = Some bob
  /\ findUnique_email Admins (u_email bob_user) with_codes = None
  /\ run (resendEmail bob_user env1) with_codes
     = (Thrown RecordNotFound, mkWorld with_codes fresh_res).
Proof.
  assert (H1 : u_email_verified_at bob_user = None) by reflexivity.
  assert (H2 : findUnique_email Admins (u_email bob_user) with_codes = None)
    by reflexivity.
  refine (conj H1 (conj _ (conj H2
            (resendEmail_only_serves_admins with_codes bob_user env1 H1 H2)))).
  reflexivity.
Defined.

Lemma resendEmail_mail_failure_witness :
  u_email_verified_at alice_user = None
  /\ findUnique_email Admins (u_email alice_user) with_codes = Some alice
  /\ sendMail_ok Scenario.env1_no_mail = false
  /\ verification_tokens
       (store_after (resendEmail alice_user Scenario.env1_no_mail) with_codes)
     = [alice_code; alice_reset_code].
Proof.
  assert (H1 : u_email_verified_at alice_user = None) by reflexivity.
  assert (H2 : findUnique_email Admins (u_email alice_user) with_codes = Some alice)
    by reflexivity.
  assert (H3 : sendMail_ok Scenario.env1_no_mail = false) by reflexivity.
  pose proof (resendEmail_mail_failure_keeps_old_codes with_codes alice_user
                Scenario.env1_no_mail alice H1 H2 H3) as H.
  cbv zeta in H. destruct H as [_ [_ [Hvt _]]].
  exact (conj H1 (conj H2 (conj H3 Hvt))).
Defined.

(** The class controller on the sample timetable. *)

Lemma class_trace_witness :
  Classes.store_ok Scenario.timetable = true
  /\ Classes.store_ok
       (Classes.serve
          [Classes.CreateClass Scenario.chemistry;
           Classes.UpdateClass 1 (Classes.mkClassData "Physics" "C" 104);
           Classes.UpdateClass 2 (Classes.mkClassData "Biology" "B" 110);
           Classes.DeleteClass 1;
           Classes.CreateClass (Classes.mkClassData "Maths" "D" 101)]
          Scenario.timetable)
     = true.
Proof.
  assert (H1 : Classes.store_ok Scenario.timetable = true)
    by (vm_compute; reflexivity).
  exact (conj H1 (class_store_ok_along_traces _ Scenario.timetable H1)).
Defined.

Lemma createClass_witness :
  Classes.store_ok Scenario.timetable = true
  /\ int4 (Classes.seq_classes Scenario.timetable) = true
  /\ (forall c, In c (Classes.classes Scenario.timetable) ->
                Classes.class_name c <> Classes.d_class_name Scenario.chemistry
                /\ Classes.room_number c
                   <> Classes.d_room_number Scenario.chemistry)
  /\ Classes.response (Classes.getClass 3)
       (Classes.store_after (Classes.createClass Scenario.chemistry)
          Scenario.timetable)
     = Some (200, Classes.JFindClass (Classes.mkClass 3 "Chemistry" "A" 103)).
Proof.
  assert (H1 : Classes.store_ok Scenario.timetable = true)
    by (vm_compute; reflexivity).
  assert (H2 : forall c, In c (Classes.classes Scenario.timetable) ->
                 Classes.class_name c <> Classes.d_class_name Scenario.chemistry
                 /\ Classes.room_number c
                    <> Classes.d_room_number Scenario.chemistry).
  { intros c [<- | [<- | []]]; split; discriminate. }
  assert (H3 : int4 (Classes.seq_classes Scenario.timetable) = true)
    by reflexivity.
  pose proof (createClass_then_getClass Scenario.timetable Scenario.chemistry
                H1 H3 H2) as H.
  cbv zeta in H. destruct H as [_ [_ Hget]].
  exact (conj H1 (conj H3 (conj H2 Hget))).
Defined.

Lemma createClass_duplicate_witness :
  In Scenario.maths (Classes.classes Scenario.timetable)
  /\ Classes.room_number Scenario.maths
     = Classes.d_room_number (Classes.mkClassData "Art" "A" 101)
  /\ Classes.outcome (Classes.createClass (Classes.mkClassData "Art" "A" 101))
       Scenario.timetable
     = Thrown UniqueConstraintFailed.
Proof.
  assert (H1 : In Scenario.maths (Classes.classes Scenario.timetable))
    by (now left).
  assert (H2 : Classes.room_number Scenario.maths
               = Classes.d_room_number (Classes.mkClassData "Art" "A" 101))
    by reflexivity.
  exact (conj H1 (conj H2
           (proj1 (createClass_duplicate_is_rejected Scenario.timetable
                     (Classes.mkClassData "Art" "A" 101) Scenario.maths H1
                     (or_intror H2))))).
Defined.

Lemma missing_class_witness :
  int4 7 = true
  /\ Classes.findUnique 7 Scenario.timetable = None
  /\ Classes.response (Classes.updateClass 7 Scenario.chemistry) Scenario.timetable
     = Some (404, Classes.JMessage "No class found")
  /\ Classes.outcome (Classes.updateClass 7 Scenario.chemistry) Scenario.timetable
     = Thrown ERR_HTTP_HEADERS_SENT.
Proof.
  assert (H1 : Classes.findUnique 7 Scenario.timetable = None) by reflexivity.
  assert (H2 : int4 7 = true) by reflexivity.
  destruct (missing_class_is_404 Scenario.timetable 7 Scenario.chemistry H2 H1)
    as [_ [_ [Ho [Hr _]]]].
  exact (conj H2 (conj H1 (conj Hr Ho))).
Defined.

Lemma class_id_out_of_range_witness :
  int4 3000000000 = false
  /\ Classes.run (Classes.getClass 3000000000) Scenario.timetable
     = (Thrown ValueOutOfRange,
        Classes.mkWorld Scenario.timetable Classes.fresh_res).
Proof.
  assert (H1 : int4 3000000000 = false) by reflexivity.
  exact (conj H1
           (proj1 (class_id_out_of_range_throws Scenario.timetable 3000000000
                     Scenario.chemistry H1))).
Defined.

Lemma deleteClass_witness :
  Classes.findUnique 1 Scenario.timetable = Some Scenario.maths
  /\ Classes.response (Classes.deleteClass 1) Scenario.timetable
     = Some (201, Classes.JMessage "Class deleted successfully")
  /\ Classes.response (Classes.getClass 1)
       (Classes.store_after (Classes.deleteClass 1) Scenario.timetable)
     = Some (404, Classes.JMessage "No class found").
Proof.
  assert (H1 : Classes.findUnique 1 Scenario.timetable = Some Scenario.maths)
    by reflexivity.
  pose proof (deleteClass_then_getClass Scenario.timetable 1 Scenario.maths H1)
    as H.
  cbv zeta in H. destruct H as [Hr [_ Hget]].
  exact (conj H1 (conj Hr Hget)).
Defined.

Lemma updateClass_witness :
  Classes.findUnique 2 Scenario.timetable = Some Scenario.physics
  /\ (forall x, In x (Classes.classes Scenario.timetable) ->
                Classes.class_id x <> 2 ->
                Classes.class_name x <> "Physics"
                /\ Classes.room_number x <> 204)
  /\ Classes.findUnique 2
       (Classes.store_after
          (Classes.updateClass 2 (Classes.mkClassData "Physics" "C" 204))
          Scenario.timetable)
     = Some (Classes.mkClass 2 "Physics" "C" 204).
Proof.
  assert (H1 : Classes.findUnique 2 Scenario.timetable = Some Scenario.physics)
    by reflexivity.
  assert (H2 : forall x, In x (Classes.classes Scenario.timetable) ->
                 Classes.class_id x <> 2 ->
                 Classes.class_name x
                 <> Classes.d_class_name (Classes.mkClassData "Physics" "C" 204)
                 /\ Classes.room_number x
                    <> Classes.d_room_number (Classes.mkClassData "Physics" "C" 204)).
  { intros x [<- | [<- | []]] Hne; [split; discriminate|].
    now destruct Hne. }
  pose proof (updateClass_rewrites_one_class Scenario.timetable 2 Scenario.physics
                (Classes.mkClassData "Physics" "C" 204) H1 H2) as H.
  cbv zeta in H. destruct H as [_ [Hfind _]].
  exact (conj H1 (conj H2 Hfind)).
Defined.

Lemma updateClass_conflict_witness :
  Classes.findUnique 2 Scenario.timetable = Some Scenario.physics
  /\ In Scenario.maths (Classes.classes Scenario.timetable)
  /\ Classes.class_id Scenario.maths <> 2
  /\ Classes.class_name Scenario.maths
     = Classes.d_class_name (Classes.mkClassData "Maths" "B" 102)
  /\ Classes.run (Classes.updateClass 2 (Classes.mkClassData "Maths" "B" 102))
       Scenario.timetable
     = (Thrown UniqueConstraintFailed,
        Classes.mkWorld Scenario.timetable Classes.fresh_res).
Proof.
  assert (H1 : Classes.findUnique 2 Scenario.timetable = Some Scenario.physics)
    by reflexivity.
  assert (H2 : In Scenario.maths (Classes.classes Scenario.timetable))
    by (now left).
  assert (H3 : Classes.class_id Scenario.maths <> 2) by discriminate.
  assert (H4 : Classes.class_name Scenario.maths
               = Classes.d_class_name (Classes.mkClassData "Maths" "B" 102))
    by reflexivity.
  exact (conj H1 (conj H2 (conj H3 (conj H4
           (updateClass_conflict_is_rejected Scenario.timetable 2 Scenario.physics
              Scenario.maths (Classes.mkClassData "Maths" "B" 102) H1 H2 H3
              (or_introl H4)))))).
Defined.
